(** * Sensor dashboard: time-range resolution, timestamp normalisation,
      staleness, CSV export, device statistics and login.

    A shallow embedding of [src/main.py] (class [SensorDashboard] and the
    login handler) together with the properties stated about it.

    Conventions of the embedding.
    - A Python [datetime] is a wall-clock count of microseconds
      ([wall], counted from the start of proleptic ordinal day 0) together
      with an optional UTC offset in microseconds ([tzoff]; [None] is a
      naive datetime).  A [timedelta] is a number of microseconds.
    - [timedelta.total_seconds()] is the microsecond count divided by 10^6;
      the comparisons and floor divisions the source performs on it are
      carried out exactly on the microsecond count (the floating-point
      value is that precise for deltas of up to some 270 years).
    - [pytz] zones are a pair of offset tables: one indexed by wall-clock
      time (used by [localize]) and one indexed by UTC instant (used by
      [datetime.now(tz)]).  The zone database itself is a parameter.
    - The hosted store is a table of rows.  Each row holds the instant of
      its [timestamp] column next to the row a response carries, in which
      that column is text; the [gte]/[lte]/[order] query operators compare
      the held instants, whatever Python later makes of the text.
    - [datetime.fromisoformat] is the one of CPython 3.7 to 3.10, and
      [pandas] is modelled as far as the export uses it (version 2):
      a column of timestamps has one time zone, an outer merge lists its
      keys in order, and a column that mixes offsets cannot be
      formatted. *)

From Stdlib Require Import ZArith List String Ascii Bool Lia.
From Stdlib Require Import Sorting.Sorted Sorting.Permutation.
From Stdlib Require Import Numbers.DecimalString.
Import ListNotations.

Local Open Scope string_scope.
Local Open Scope Z_scope.

(* ================================================================== *)
(** ** Python string operations used by the source *)

Module PyStr.

(** [p] is a prefix of [l]. *)
Fixpoint list_prefix (p l : list ascii) : bool :=
  match p, l with
  | [], _ => true
  | _ :: _, [] => false
  | a :: p', b :: l' => Ascii.eqb a b && list_prefix p' l'
  end.

(** [s.endswith(suf)]: read backwards, [suf] starts [s]. *)
Definition endswith (s suf : string) : bool :=
  list_prefix (rev (list_ascii_of_string suf)) (rev (list_ascii_of_string s)).

(** [s.replace(old, new)] for a non-empty [old]: every non-overlapping
    occurrence, scanning left to right.  [skip] counts the characters of a
    match that are still to be dropped. *)
Fixpoint replace_from (old new s : string) (skip : nat) : string :=
  match s with
  | EmptyString => EmptyString
  | String c s' =>
      match skip with
      | S k => replace_from old new s' k
      | O =>
          if String.prefix old s
          then new ++ replace_from old new s' (String.length old - 1)
          else String c (replace_from old new s' 0)
      end
  end.

Definition replace (s old new : string) : string := replace_from old new s 0.

(** Truthiness of an optional string: [None] and [''] are falsy. *)
Definition truthy (o : option string) : bool :=
  match o with
  | None => false
  | Some s => negb (String.eqb s "")
  end.

(** [str(n)] for an integer. *)
Definition str_int (z : Z) : string := NilZero.string_of_int (Z.to_int z).

(** [s.zfill(w)]-style zero padding of a non-negative number, as the
    [%02d]-like fields of [strftime] produce it. *)
Fixpoint zeros (n : nat) : string :=
  match n with
  | O => EmptyString
  | S k => String "0" (zeros k)
  end.

Definition zpad (w : nat) (z : Z) : string :=
  let s := str_int z in
  zeros (w - String.length s) ++ s.

Fixpoint occursb (c : ascii) (s : string) : bool :=
  match s with
  | EmptyString => false
  | String d s' => Ascii.eqb c d || occursb c s'
  end.

End PyStr.

(* ================================================================== *)
(** ** Proleptic Gregorian calendar, as in Python's [datetime] module *)

Module Calendar.

Definition MINYEAR : Z := 1.
Definition MAXYEAR : Z := 9999.

Definition is_leap (year : Z) : bool :=
  (year mod 4 =? 0) && (negb (year mod 100 =? 0) || (year mod 400 =? 0)).

Definition days_before_year (year : Z) : Z :=
  let y := year - 1 in
  y * 365 + y / 4 - y / 100 + y / 400.

Definition days_in_month (year month : Z) : Z :=
  if month =? 2 then (if is_leap year then 29 else 28)
  else if (month =? 4) || (month =? 6) || (month =? 9) || (month =? 11) then 30
  else 31.

(** [_DAYS_BEFORE_MONTH]: days before the first of the month in a
    non-leap year. *)
Definition DAYS_BEFORE_MONTH (month : Z) : Z :=
  match month with
  | 1 => 0 | 2 => 31 | 3 => 59 | 4 => 90 | 5 => 120 | 6 => 151
  | 7 => 181 | 8 => 212 | 9 => 243 | 10 => 273 | 11 => 304 | 12 => 334
  | _ => 365
  end.

Definition days_before_month (year month : Z) : Z :=
  DAYS_BEFORE_MONTH month + (if (2 <? month) && is_leap year then 1 else 0).

(** [_ymd2ord]: 0001-01-01 is day 1. *)
Definition ymd2ord (year month day : Z) : Z :=
  days_before_year year + days_before_month year month + day.

Definition DI400Y : Z := 146097.
Definition DI100Y : Z := 36524.
Definition DI4Y : Z := 1461.

(** The month and day of the [n]-th day (from 0) of a year: the closing
    steps of [_ord2ymd]. *)
Definition month_day (n : Z) (leapyear : bool) : Z * Z :=
  let month := Z.shiftr (n + 50) 5 in
  let preceding :=
    DAYS_BEFORE_MONTH month + (if (2 <? month) && leapyear then 1 else 0) in
  if n <? preceding then
    let month' := month - 1 in
    let preceding' :=
      preceding - (if (month' =? 2) && leapyear then 29
                   else days_in_month 1 month') in
    (month', n - preceding' + 1)
  else (month, n - preceding + 1).

(** [_ord2ymd] *)
Definition ord2ymd (ordinal : Z) : Z * Z * Z :=
  let n := ordinal - 1 in
  let n400 := n / DI400Y in
  let n := n mod DI400Y in
  let n100 := n / DI100Y in
  let n := n mod DI100Y in
  let n4 := n / DI4Y in
  let n := n mod DI4Y in
  let n1 := n / 365 in
  let n := n mod 365 in
  let year := n400 * 400 + 1 + n100 * 100 + n4 * 4 + n1 in
  if (n1 =? 4) || (n100 =? 4) then (year - 1, 12, 31)
  else
    let leapyear := (n1 =? 3) && (negb (n4 =? 24) || (n100 =? 3)) in
    let '(month, day) := month_day n leapyear in
    (year, month, day).

(** Largest ordinal: 9999-12-31. *)
Definition MAXORDINAL : Z := 3652059.

End Calendar.

(* ================================================================== *)
(** ** [datetime] and [timedelta] *)

Module Datetime.
Import Calendar.

Definition timedelta := Z.

Definition US_PER_SECOND : Z := 1000000.
Definition US_PER_DAY : Z := 86400 * US_PER_SECOND.

Definition timedelta_hours (h : Z) : timedelta := h * 3600 * US_PER_SECOND.
Definition timedelta_days (d : Z) : timedelta := d * US_PER_DAY.

Record datetime : Type := mkdt {
  wall : Z;             (* wall-clock microseconds *)
  tzoff : option Z      (* utcoffset in microseconds; None = naive *)
}.

(** [dt - timedelta]: wall-clock arithmetic, [tzinfo] unchanged. *)
Definition sub_td (dt : datetime) (td : timedelta) : datetime :=
  mkdt (wall dt - td) (tzoff dt).

(** The UTC instant of an aware datetime. *)
Definition instant (dt : datetime) : option Z :=
  match tzoff dt with
  | Some off => Some (wall dt - off)
  | None => None
  end.

(** [a - b] for two datetimes: both aware (difference of instants) or both
    naive (difference of wall clocks); mixing them raises [TypeError]. *)
Definition diff (a b : datetime) : option timedelta :=
  match tzoff a, tzoff b with
  | Some oa, Some ob => Some ((wall a - oa) - (wall b - ob))
  | None, None => Some (wall a - wall b)
  | _, _ => None
  end.

(** [dt.replace(hour=0, minute=0, second=0, microsecond=0)] *)
Definition replace_midnight (dt : datetime) : datetime :=
  mkdt (wall dt - wall dt mod US_PER_DAY) (tzoff dt).

(** [dt.replace(tzinfo=UTC)] *)
Definition replace_tz_utc (dt : datetime) : datetime := mkdt (wall dt) (Some 0).

(** Order of aware datetimes (by instant); of naive ones by wall clock. *)
Definition key (dt : datetime) : Z :=
  match tzoff dt with
  | Some off => wall dt - off
  | None => wall dt
  end.

(** *** [datetime.fromisoformat]

    The format [YYYY-MM-DD[*HH[:MM[:SS[.fff[fff]]]][+HH:MM[:SS[.ffffff]]]]]
    where [*] is any single character. *)

Definition digit (c : ascii) : option Z :=
  let n := Z.of_nat (nat_of_ascii c) in
  if (48 <=? n) && (n <=? 57) then Some (n - 48) else None.

Definition num2 (a b : ascii) : option Z :=
  match digit a, digit b with
  | Some x, Some y => Some (x * 10 + y)
  | _, _ => None
  end.

Fixpoint digits (s : string) (acc : Z) : option Z :=
  match s with
  | EmptyString => Some acc
  | String c s' =>
      match digit c with
      | Some d => digits s' (acc * 10 + d)
      | None => None
      end
  end.

(** Fractional part: exactly 3 or 6 digits. *)
Definition parse_fraction (f : string) : option Z :=
  match String.length f with
  | 3%nat => option_map (fun v => v * 1000) (digits f 0)
  | 6%nat => digits f 0
  | _ => None
  end.

(** [HH[:MM[:SS[.fff[fff]]]]] *)
Definition parse_hh_mm_ss_ff (t : string) : option (Z * Z * Z * Z) :=
  match t with
  | String h1 (String h2 r1) =>
    match num2 h1 h2 with
    | None => None
    | Some hh =>
      match r1 with
      | EmptyString => Some (hh, 0, 0, 0)
      | String c1 (String m1 (String m2 r2)) =>
        if negb (Ascii.eqb c1 ":") then None else
        match num2 m1 m2 with
        | None => None
        | Some mm =>
          match r2 with
          | EmptyString => Some (hh, mm, 0, 0)
          | String c2 (String s1 (String s2 r3)) =>
            if negb (Ascii.eqb c2 ":") then None else
            match num2 s1 s2 with
            | None => None
            | Some ss =>
              match r3 with
              | EmptyString => Some (hh, mm, ss, 0)
              | String c3 f =>
                if negb (Ascii.eqb c3 ".") then None else
                match parse_fraction f with
                | Some us => Some (hh, mm, ss, us)
                | None => None
                end
              end
            end
          | _ => None
          end
        end
      | _ => None
      end
    end
  | _ => None
  end.

(** Split a time string at its first sign character: the time text and,
    when present, the sign ([true] for [-]) with the offset text. *)
Fixpoint split_tz (t : string) : string * option (bool * string) :=
  match t with
  | EmptyString => (EmptyString, None)
  | String c t' =>
      if Ascii.eqb c "+" then (EmptyString, Some (false, t'))
      else if Ascii.eqb c "-" then (EmptyString, Some (true, t'))
      else let '(a, r) := split_tz t' in (String c a, r)
  end.

Definition parse_tz (neg : bool) (z : string) : option Z :=
  let n := String.length z in
  if negb ((n =? 5) || (n =? 8) || (n =? 15))%nat then None else
  match parse_hh_mm_ss_ff z with
  | Some (hh, mm, ss, us) =>
      let off := (hh * 3600 + mm * 60 + ss) * US_PER_SECOND + us in
      if (mm <? 60) && (ss <? 60) && (off <? US_PER_DAY)
      then Some (if neg then - off else off)
      else None
  | None => None
  end.

Definition parse_time (t : string) : option (Z * option Z) :=
  let '(timestr, tz) := split_tz t in
  match parse_hh_mm_ss_ff timestr with
  | Some (hh, mm, ss, us) =>
      if negb ((hh <? 24) && (mm <? 60) && (ss <? 60)) then None else
      let tod := (hh * 3600 + mm * 60 + ss) * US_PER_SECOND + us in
      match tz with
      | None => Some (tod, None)
      | Some (neg, z) =>
          match parse_tz neg z with
          | Some off => Some (tod, Some off)
          | None => None
          end
      end
  | None => None
  end.

Definition parse_date (y1 y2 y3 y4 c1 m1 m2 c2 d1 d2 : ascii) : option Z :=
  if negb (Ascii.eqb c1 "-" && Ascii.eqb c2 "-") then None else
  match num2 y1 y2, num2 y3 y4, num2 m1 m2, num2 d1 d2 with
  | Some yh, Some yl, Some mo, Some d =>
      let y := yh * 100 + yl in
      if (MINYEAR <=? y) && (1 <=? mo) && (mo <=? 12)
         && (1 <=? d) && (d <=? days_in_month y mo)
      then Some (ymd2ord y mo d)
      else None
  | _, _, _, _ => None
  end.

Definition fromisoformat (s : string) : option datetime :=
  match s with
  | String y1 (String y2 (String y3 (String y4 (String c1
      (String m1 (String m2 (String c2 (String d1 (String d2 rest))))))))) =>
      match parse_date y1 y2 y3 y4 c1 m1 m2 c2 d1 d2 with
      | None => None
      | Some ord =>
          match rest with
          | EmptyString => Some (mkdt (ord * US_PER_DAY) None)
          | String _ t =>
              match parse_time t with
              | Some (tod, tz) => Some (mkdt (ord * US_PER_DAY + tod) tz)
              | None => None
              end
          end
      end
  | _ => None
  end.

(** *** [strftime] for the two formats the source uses *)

Definition fields (dt : datetime) : Z * Z * Z * Z * Z * Z :=
  let '(y, mo, d) := ord2ymd (wall dt / US_PER_DAY) in
  let secs := (wall dt mod US_PER_DAY) / US_PER_SECOND in
  (y, mo, d, secs / 3600, (secs / 60) mod 60, secs mod 60).

(** [strftime('%Y-%m-%d %H:%M:%S')] *)
Definition strftime_display (dt : datetime) : string :=
  let '(y, mo, d, h, mi, s) := fields dt in
  PyStr.zpad 4 y ++ "-" ++ PyStr.zpad 2 mo ++ "-" ++ PyStr.zpad 2 d ++ " "
  ++ PyStr.zpad 2 h ++ ":" ++ PyStr.zpad 2 mi ++ ":" ++ PyStr.zpad 2 s.

(** [strftime('%Y%m%d_%H%M%S')] *)
Definition strftime_compact (dt : datetime) : string :=
  let '(y, mo, d, h, mi, s) := fields dt in
  PyStr.zpad 4 y ++ PyStr.zpad 2 mo ++ PyStr.zpad 2 d ++ "_"
  ++ PyStr.zpad 2 h ++ PyStr.zpad 2 mi ++ PyStr.zpad 2 s.

(** Wall clocks of representable datetimes (years 1 to 9999). *)
Definition in_range (dt : datetime) : Prop :=
  US_PER_DAY <= wall dt < (MAXORDINAL + 1) * US_PER_DAY.

(** *** [pytz] zones *)

Record tzinfo : Type := mktz {
  offset_at_wall : Z -> Z;   (* the offset [localize] attaches to a wall clock *)
  offset_at_utc : Z -> Z     (* the offset in force at a UTC instant *)
}.

(** [tz.localize(dt)]: raises [ValueError] on an aware datetime. *)
Definition localize (tz : tzinfo) (dt : datetime) : option datetime :=
  match tzoff dt with
  | None => Some (mkdt (wall dt) (Some (offset_at_wall tz (wall dt))))
  | Some _ => None
  end.

(** [datetime.now(tz)] when the clock reads UTC instant [clock]. *)
Definition now (tz : tzinfo) (clock : Z) : datetime :=
  mkdt (clock + offset_at_utc tz clock) (Some (offset_at_utc tz clock)).

(** [dt.astimezone(tz)] of an aware datetime: same instant, zone's offset. *)
Definition astimezone (tz : tzinfo) (dt : datetime) : option datetime :=
  match tzoff dt with
  | Some off => Some (now tz (wall dt - off))
  | None => None
  end.

End Datetime.

(* ================================================================== *)
(** ** Exceptions and mutable state

    A computation over a state [S] either returns a value or raises; in
    both cases the state it has reached is kept, so that whatever a
    [try] body assigned before raising stays assigned. *)

Module Eff.

Inductive outcome (A : Type) : Type :=
| Returned (a : A)
| Raised.
Arguments Returned {A} a.
Arguments Raised {A}.

Definition eff (S A : Type) : Type := S -> outcome A * S.

Definition ret {S A} (a : A) : eff S A := fun s => (Returned a, s).

Definition bind {S A B} (m : eff S A) (k : A -> eff S B) : eff S B :=
  fun s =>
    match m s with
    | (Returned a, s') => k a s'
    | (Raised, s') => (Raised, s')
    end.

Definition raise {S A} : eff S A := fun s => (Raised, s).
Definition get {S} : eff S S := fun s => (Returned s, s).
Definition put {S} (s : S) : eff S unit := fun _ => (Returned tt, s).
Definition modify {S} (f : S -> S) : eff S unit := fun s => (Returned tt, f s).

(** A store call: its result, or an exception. *)
Definition call {S A} (r : option A) : eff S A :=
  match r with
  | Some a => ret a
  | None => raise
  end.

(** [try: body  except Exception: handler] *)
Definition try_except {S A} (body handler : eff S A) : eff S A :=
  fun s =>
    match body s with
    | (Returned a, s') => (Returned a, s')
    | (Raised, s') => handler s'
    end.

End Eff.

Declare Scope eff_scope.
Delimit Scope eff_scope with eff.
Notation "x <- m ;; k" := (Eff.bind m (fun x => k))
  (at level 61, m at next level, right associativity) : eff_scope.
Notation "m ;;; k" := (Eff.bind m (fun _ => k))
  (at level 61, right associativity) : eff_scope.

(** [option] as the exception monad of pure code. *)
Notation "'try' x <- m 'in' k" :=
  (match m with Some x => k | None => None end)
  (at level 10, x pattern, m at level 100, k at level 200, only parsing).

Import PyStr Calendar Datetime.

(* ================================================================== *)
(** ** The dashboard *)

(** One row of [sensor_readings] as the store returns it. *)
Record reading (value : Type) : Type := mkreading {
  r_device_name : string;
  r_timestamp : string;
  r_temperature : option value;
  r_humidity : option value
}.
Arguments mkreading {value}.
Arguments r_device_name {value}.
Arguments r_timestamp {value}.
Arguments r_temperature {value}.
Arguments r_humidity {value}.

(** A row of the table [sensor_readings]: the instant its [timestamp]
    column holds (in microseconds, on the scale of [key]) and the row as
    a response carries it. *)
Record stored (value : Type) : Type := mkstored {
  held_instant : Z;
  response_row : reading value
}.
Arguments mkstored {value}.
Arguments held_instant {value}.
Arguments response_row {value}.

(** An element of [temperature_history] or [humidity_history]. *)
Record entry (value : Type) : Type := mkentry {
  device_name : string;
  timestamp : datetime;
  measurement : value
}.
Arguments mkentry {value}.
Arguments device_name {value}.
Arguments timestamp {value}.
Arguments measurement {value}.

Record history (value : Type) : Type := mkhistory {
  temperature_history : list (entry value);
  humidity_history : list (entry value)
}.
Arguments mkhistory {value}.
Arguments temperature_history {value}.
Arguments humidity_history {value}.

(** The store client.  Each query either answers or raises. *)
Record client (value : Type) : Type := mkclient {
  (* table('devices').select('id').eq('is_active', True).execute() *)
  active_devices : option (list Z);
  (* the rows of table('sensor_readings') *)
  sensor_readings : list (stored value);
  (* whether a query on sensor_readings raises *)
  readings_unreachable : bool
}.
Arguments mkclient {value}.
Arguments active_devices {value}.
Arguments sensor_readings {value}.
Arguments readings_unreachable {value}.

Record stats : Type := mkstats {
  active_sensors : Z;
  data_points_today : Z
}.

(** The fields of [SensorDashboard] the operations below read or write. *)
Record dashboard (value : Type) : Type := mkdash {
  supabase : option (client value);
  device_stats : stats;
  authenticated : bool;
  filter_range : string;
  custom_start_date : option string;
  custom_end_date : option string
}.
Arguments mkdash {value}.
Arguments supabase {value}.
Arguments device_stats {value}.
Arguments authenticated {value}.
Arguments filter_range {value}.
Arguments custom_start_date {value}.
Arguments custom_end_date {value}.

(** The instant a timestamp text of the store denotes: the store's
    timestamps are offset-carrying ISO texts, a bare [+HH] offset being
    written out as [+HH:00]. *)
Definition store_text (s : string) : string :=
  if endswith s "+00" then replace s "+00" "+00:00" else s.

Definition store_instant (s : string) : option Z :=
  try dt <- fromisoformat (store_text s) in instant dt.

Section Dashboard.

Variable value : Type.
Variable value_of_int : Z -> value.      (* the integer readings of demo mode *)
Variable CYPRUS_TZ : tzinfo.
Variable DASHBOARD_USER DASHBOARD_PASS : string.

Definition UTC_TZ : tzinfo := mktz (fun _ => 0) (fun _ => 0).

(** *** Store queries *)

(** [.gte('timestamp', since.isoformat())] *)
Definition gte (since : datetime) (rows : list (stored value)) : list (stored value) :=
  filter (fun r => key since <=? held_instant r) rows.

(** [.lte('timestamp', until.isoformat())] *)
Definition lte (until : datetime) (rows : list (stored value)) : list (stored value) :=
  filter (fun r => held_instant r <=? key until) rows.

Definition row_key (r : stored value) : Z := held_instant r.

(** [.order('timestamp')]: ascending, rows of equal timestamp in table order. *)
Fixpoint insert_by {A} (k : A -> Z) (x : A) (l : list A) : list A :=
  match l with
  | [] => [x]
  | y :: l' => if k y <? k x then y :: insert_by k x l' else x :: l
  end.

Definition order_by {A} (k : A -> Z) (l : list A) : list A :=
  fold_right (insert_by k) [] l.

Definition execute {A} (c : client value) (rows : list A) : option (list A) :=
  if readings_unreachable c then None else Some rows.

(** *** [format_timestamp] *)

Definition relative_time (d : timedelta) : string :=
  if d <? 0 then
    let a := Z.abs d in
    if a <? 60 * US_PER_SECOND then "Just now"
    else if a <? 3600 * US_PER_SECOND then
      str_int (a / (60 * US_PER_SECOND)) ++ " min from now"
    else
      str_int (a / (3600 * US_PER_SECOND)) ++ " hr from now"
  else
    if d <? 60 * US_PER_SECOND then "Just now"
    else if d <? 3600 * US_PER_SECOND then
      str_int (d / (60 * US_PER_SECOND)) ++ " min ago"
    else if d <? 86400 * US_PER_SECOND then
      str_int (d / (3600 * US_PER_SECOND)) ++ " hr ago"
    else
      str_int (d / (86400 * US_PER_SECOND)) ++ " days ago".

(** The text [format_timestamp] hands to [fromisoformat]. *)
Definition strip_marker (timestamp_str : string) : string :=
  if endswith timestamp_str "+00:00" then replace timestamp_str "+00:00" ""
  else if endswith timestamp_str "+00" then replace timestamp_str "+00" ""
  else timestamp_str.

(** The datetime [format_timestamp] assigns to a raw text
    ([timestamp_cyprus]); [None] when an exception is raised. *)
Definition latest_datetime (timestamp_str : string) : option datetime :=
  try timestamp_naive <- fromisoformat (strip_marker timestamp_str) in
  localize CYPRUS_TZ timestamp_naive.

Definition format_timestamp (clock : Z) (timestamp_str : option string) : string :=
  if negb (truthy timestamp_str) then "Unknown" else
  match timestamp_str with
  | None => "Unknown"
  | Some s =>
      match (try timestamp_cyprus <- latest_datetime s in
             let now_cyprus := now CYPRUS_TZ clock in
             try d <- diff now_cyprus timestamp_cyprus in
             Some (relative_time d)) with
      | Some text => text
      | None => "Unknown"
      end
  end.

(** *** [is_data_stale] *)

(** The datetime [is_data_stale] assigns to a raw text
    ([timestamp_cyprus]); [None] when an exception is raised. *)
Definition stale_datetime (timestamp_str : string) : option datetime :=
  try timestamp <- fromisoformat (store_text timestamp_str) in
  match tzoff timestamp with
  | None => astimezone CYPRUS_TZ (replace_tz_utc timestamp)
  | Some off =>
      if off =? 0 then astimezone CYPRUS_TZ (replace_tz_utc timestamp)
      else astimezone CYPRUS_TZ timestamp
  end.

Definition is_data_stale (clock : Z) (timestamp_str : option string) (hours : Z) : bool :=
  if negb (truthy timestamp_str) then true else
  match timestamp_str with
  | None => true
  | Some s =>
      match (try timestamp_cyprus <- stale_datetime s in
             let now_cyprus := now CYPRUS_TZ clock in
             try time_diff <- diff now_cyprus timestamp_cyprus in
             Some (hours * 3600 * US_PER_SECOND <? time_diff)) with
      | Some b => b
      | None => true
      end
  end.

(** *** [fetch_historical_data] *)

(** Lines 184-205: the query window [(since_cyprus, until_cyprus)];
    [None] when parsing a custom date raises. *)
Definition query_window (clock : Z) (time_range : string)
    (start_date end_date : option string) : option (datetime * datetime) :=
  let now_cyprus := now CYPRUS_TZ clock in
  if String.eqb time_range "12h" then
    Some (sub_td now_cyprus (timedelta_hours 12), now_cyprus)
  else if String.eqb time_range "24h" then
    Some (sub_td now_cyprus (timedelta_hours 24), now_cyprus)
  else if String.eqb time_range "7d" then
    Some (sub_td now_cyprus (timedelta_days 7), now_cyprus)
  else if String.eqb time_range "30d" then
    Some (sub_td now_cyprus (timedelta_days 30), now_cyprus)
  else if String.eqb time_range "custom" && truthy start_date && truthy end_date then
    match start_date, end_date with
    | Some sd, Some ed =>
        try since_naive <- fromisoformat sd in
        try since_cyprus <- localize CYPRUS_TZ since_naive in
        try until_naive <- fromisoformat ed in
        try until_cyprus <- localize CYPRUS_TZ until_naive in
        Some (since_cyprus, until_cyprus)
    | _, _ => None
    end
  else
    Some (sub_td now_cyprus (timedelta_hours 24), now_cyprus).

(** Lines 157-167: the number of synthetic hourly points. *)
Definition demo_hours (time_range : string) : Z :=
  if String.eqb time_range "12h" then 12
  else if String.eqb time_range "24h" then 24
  else if String.eqb time_range "7d" then 24 * 7
  else if String.eqb time_range "30d" then 24 * 30
  else 24.

(** [range(hours, 0, -1)] *)
Definition range_down (hours : Z) : list Z :=
  map (fun i => hours - Z.of_nat i) (seq 0 (Z.to_nat hours)).

Definition demo_timestamps (clock : Z) (time_range : string) : list datetime :=
  map (fun i => sub_td (now CYPRUS_TZ clock) (timedelta_hours i))
      (range_down (demo_hours time_range)).

(** [enumerate] *)
Definition enumerate {A} (l : list A) : list (Z * A) :=
  combine (map Z.of_nat (seq 0 (List.length l))) l.

Definition demo_history (clock : Z) (time_range : string) : history value :=
  let timestamps := demo_timestamps clock time_range in
  mkhistory
    (map (fun '(i, ts) => mkentry "Living Room" ts (value_of_int (22 + i mod 4)))
         (enumerate timestamps))
    (map (fun '(i, ts) => mkentry "Living Room" ts (value_of_int (45 + i mod 10)))
         (enumerate timestamps)).

(** Lines 216-241: one pass over the response; a timestamp is parsed
    only for a row that carries the measurement. *)
Definition entry_of (r : reading value) (m : option value) : option (list (entry value)) :=
  match m with
  | Some v =>
      try ts <- fromisoformat (store_text (r_timestamp r)) in
      Some [mkentry (r_device_name r) ts v]
  | None => Some []
  end.

Fixpoint group_rows (rows : list (reading value))
  : option (list (entry value) * list (entry value)) :=
  match rows with
  | [] => Some ([], [])
  | r :: rest =>
      try t <- entry_of r (r_temperature r) in
      try h <- entry_of r (r_humidity r) in
      try (temp_data, humidity_data) <- group_rows rest in
      Some ((t ++ temp_data)%list, (h ++ humidity_data)%list)
  end.

(** Lines 207-210: the rows the store answers with ([response.data]). *)
Definition historical_query (c : client value) (since until : datetime)
  : option (list (reading value)) :=
  execute c
    (map response_row
         (order_by row_key (lte until (gte since (sensor_readings c))))).

(** The store-backed branch for a resolved window. *)
Definition fetch_between (c : client value) (since until : datetime)
  : option (history value) :=
  try rows <- historical_query c since until in
  try (temp_data, humidity_data) <- group_rows rows in
  Some (mkhistory temp_data humidity_data).

(** [fetch_historical_data]; [None] stands for the empty dict returned
    from the [except] branch. *)
Definition fetch_historical_data (self : dashboard value) (clock : Z)
    (time_range : string) (start_date end_date : option string)
  : option (history value) :=
  match supabase self with
  | None => Some (demo_history clock time_range)
  | Some c =>
      try (since_cyprus, until_cyprus) <-
        query_window clock time_range start_date end_date in
      fetch_between c since_cyprus until_cyprus
  end.

(** *** [fetch_device_stats] *)

Definition set_device_stats (st : stats) (self : dashboard value) : dashboard value :=
  mkdash (supabase self) st (authenticated self) (filter_range self)
         (custom_start_date self) (custom_end_date self).

(** [self.device_stats['active_sensors'] = n] *)
Definition set_active_sensors (n : Z) (self : dashboard value) : dashboard value :=
  set_device_stats (mkstats n (data_points_today (device_stats self))) self.

(** [self.device_stats['data_points_today'] = n] *)
Definition set_data_points_today (n : Z) (self : dashboard value) : dashboard value :=
  set_device_stats (mkstats (active_sensors (device_stats self)) n) self.

Definition len {A} (l : list A) : Z := Z.of_nat (List.length l).

Definition fetch_device_stats (clock : Z) : Eff.eff (dashboard value) unit :=
  (self <- Eff.get ;;
   match supabase self with
   | None => Eff.modify (set_device_stats (mkstats 12 2847))
   | Some c =>
       Eff.try_except
         (devices_response <- Eff.call (active_devices c) ;;
          Eff.modify (set_active_sensors (len devices_response)) ;;;
          let now_cyprus := now CYPRUS_TZ clock in
          let today_start_cyprus := replace_midnight now_cyprus in
          readings_response <-
            Eff.call (execute c (gte today_start_cyprus (sensor_readings c))) ;;
          Eff.modify (set_data_points_today (len readings_response)))
         (Eff.ret tt)
   end)%eff.

(** *** [export_to_csv] *)

(** The dtype [pandas] gives a column of timestamps.  A datetime column
    has one time zone; a list that mixes offsets, or naive with aware
    datetimes, stays a column of Python objects. *)
Inductive dtype : Type :=
| Naive                  (* datetime64[ns] *)
| Fixed (offset : Z)     (* datetime64[ns, UTC+HH:MM] *)
| Zone                   (* datetime64[ns, Asia/Nicosia] *)
| Object.

Definition same_offset (a b : datetime) : bool :=
  match tzoff a, tzoff b with
  | Some x, Some y => x =? y
  | None, None => true
  | _, _ => false
  end.

(** The timestamps of demo mode ([zoned]) carry the [pytz] zone, the
    [tzinfo] of [now_cyprus]; those parsed from store texts carry the
    fixed offset of their text, or none. *)
Definition infer_dtype (zoned : bool) (l : list datetime) : dtype :=
  if zoned then Zone else
  match l with
  | [] => Object
  | d :: rest =>
      if forallb (same_offset d) rest then
        match tzoff d with
        | Some off => Fixed off
        | None => Naive
        end
      else Object
  end.

(** A timestamp as a column of the given dtype holds it: the same
    instant, expressed in the zone of the column. *)
Definition in_column (ty : dtype) (ts : datetime) : datetime :=
  match ty with
  | Zone => now CYPRUS_TZ (key ts)
  | Fixed off => mkdt (key ts + off) (Some off)
  | Naive | Object => ts
  end.

(** A row of the data frame being exported.  A measurement that is
    [None] is a missing value (NaN), written as an empty field. *)
Record frow : Type := mkfrow {
  f_device_name : string;
  f_timestamp : datetime;
  f_temperature : option value;
  f_humidity : option value
}.

(** The data frame: the dtype of its [timestamp] column, which
    measurement columns it has, and its rows. *)
Record frame : Type := mkframe {
  timestamps : dtype;
  has_temperature : bool;
  has_humidity : bool;
  frows : list frow
}.

(** The frame row of an entry of either series, in a column of the
    given dtype. *)
Definition temperature_row (ty : dtype) (e : entry value) : frow :=
  mkfrow (device_name e) (in_column ty (timestamp e)) (Some (measurement e)) None.

Definition humidity_row (ty : dtype) (e : entry value) : frow :=
  mkfrow (device_name e) (in_column ty (timestamp e)) None (Some (measurement e)).

(** [pd.DataFrame(historical_data['temperature_history'])] *)
Definition temperature_frame (zoned : bool) (l : list (entry value)) : frame :=
  let ty := infer_dtype zoned (map timestamp l) in
  mkframe ty true false (map (temperature_row ty) l).

(** [pd.DataFrame(historical_data['humidity_history'])] *)
Definition humidity_frame (zoned : bool) (l : list (entry value)) : frame :=
  let ty := infer_dtype zoned (map timestamp l) in
  mkframe ty false true (map (humidity_row ty) l).

(** Equality on the join key [(timestamp, device_name)]. *)
Definition same_key (a b : frow) : bool :=
  (key (f_timestamp a) =? key (f_timestamp b))
  && String.eqb (f_device_name a) (f_device_name b).

(** The rows a temperature row contributes to the join: one per
    humidity row with the same key, or itself with a missing humidity. *)
Definition left_rows (hums : list frow) (t : frow) : list frow :=
  match filter (same_key t) hums with
  | [] => [t]
  | partners =>
      map (fun h => mkfrow (f_device_name t) (f_timestamp t)
                           (f_temperature t) (f_humidity h))
          partners
  end.

(** The humidity rows whose key no temperature row has, their
    timestamps expressed in the zone of the merged column. *)
Definition right_only_rows (ty : dtype) (temps hums : list frow) : list frow :=
  map (fun h => mkfrow (f_device_name h) (in_column ty (f_timestamp h))
                       None (f_humidity h))
      (filter (fun h => negb (existsb (fun t => same_key t h) temps)) hums).

(** The order of the join keys: by timestamp, then by device name. *)
Definition key_before (a b : frow) : bool :=
  (key (f_timestamp a) <? key (f_timestamp b))
  || ((key (f_timestamp a) =? key (f_timestamp b))
      && String.ltb (f_device_name a) (f_device_name b)).

Fixpoint insert_before {A} (before : A -> A -> bool) (x : A) (l : list A)
  : list A :=
  match l with
  | [] => [x]
  | y :: l' => if before y x then y :: insert_before before x l' else x :: l
  end.

Definition key_order (rows : list frow) : list frow :=
  fold_right (insert_before key_before) [] rows.

(** The dtype of the merged key column; [None] when the two columns
    cannot be merged (a datetime column with a column of objects, a
    naive column with an aware one). *)
Definition merge_dtype (a b : dtype) : option dtype :=
  match a, b with
  | Naive, Naive => Some Naive
  | Fixed x, Fixed _ => Some (Fixed x)
  | Zone, Zone => Some Zone
  | Object, Object => Some Object
  | _, _ => None
  end.

(** [pd.merge(temp_df, humidity_df, on=['timestamp', 'device_name'],
    how='outer')]: every pair of rows with equal keys, and the rows of
    either side without a partner, the missing measurement being NaN;
    the keys come out in order, the rows of one key in the order of the
    two frames. *)
Definition merge_outer (temp_df humidity_df : frame) : option frame :=
  try ty <- merge_dtype (timestamps temp_df) (timestamps humidity_df) in
  Some (mkframe ty true true
          (key_order
             (flat_map (left_rows (frows humidity_df)) (frows temp_df)
              ++ right_only_rows ty (frows temp_df) (frows humidity_df))%list)).

(** [df.sort_values('timestamp')] *)
Definition sort_values (df : frame) : frame :=
  mkframe (timestamps df) (has_temperature df) (has_humidity df)
          (order_by (fun r => key (f_timestamp r)) (frows df)).

(** A row after [df['timestamp'] = ....dt.strftime('%Y-%m-%d %H:%M:%S')]. *)
Record csv_row : Type := mkcsv {
  c_device_name : string;
  c_timestamp : string;
  c_temperature : option value;
  c_humidity : option value
}.

(** The timestamp of a frame row is already expressed in the zone of
    its column; [strftime] prints that wall clock. *)
Definition format_row (r : frow) : csv_row :=
  mkcsv (f_device_name r) (strftime_display (f_timestamp r))
        (f_temperature r) (f_humidity r).

(** A wall clock within the years 1 to 9999. *)
Definition representable (dt : datetime) : bool :=
  (US_PER_DAY <=? wall dt) && (wall dt <? (MAXORDINAL + 1) * US_PER_DAY).

(** [pd.to_datetime(df['timestamp']).dt.strftime(...)]: raises on a
    column of objects, and no column holds a timestamp outside the
    years 1 to 9999. *)
Definition strftime_column (df : frame) : option (list csv_row) :=
  match timestamps df with
  | Object => None
  | _ =>
      if forallb (fun r => representable (f_timestamp r)) (frows df)
      then Some (map format_row (frows df))
      else None
  end.

Variable repr : value -> string.          (* how [to_csv] prints a number *)

Definition csv_cell (m : option value) : string :=
  match m with
  | Some v => repr v
  | None => ""
  end.

Definition LF : string := String (ascii_of_nat 10) "".
Definition QUOTE : ascii := ascii_of_nat 34.

(** The minimal quoting of [csv.writer]: a text holding a comma, a
    quote or a line break is written between quotes, its quotes
    doubled. *)
Fixpoint double_quotes (s : string) : string :=
  match s with
  | EmptyString => EmptyString
  | String c s' =>
      if Ascii.eqb c QUOTE then String QUOTE (String QUOTE (double_quotes s'))
      else String c (double_quotes s')
  end.

Definition csv_field (s : string) : string :=
  if occursb "," s || occursb QUOTE s
     || occursb (ascii_of_nat 10) s || occursb (ascii_of_nat 13) s
  then String QUOTE (double_quotes s ++ String QUOTE "")
  else s.

Definition csv_line (ht hh : bool) (r : csv_row) : string :=
  csv_field (c_device_name r) ++ "," ++ c_timestamp r
  ++ (if ht then "," ++ csv_cell (c_temperature r) else "")
  ++ (if hh then "," ++ csv_cell (c_humidity r) else "")
  ++ LF.

(** [df.to_csv(index=False)] *)
Definition to_csv (ht hh : bool) (rows : list csv_row) : string :=
  ("device_name,timestamp"
   ++ (if ht then ",temperature" else "")
   ++ (if hh then ",humidity" else "") ++ LF)
  ++ String.concat "" (map (csv_line ht hh) rows).

Record export : Type := mkexport {
  filename : string;
  content : string;
  mime_type : string
}.

Definition nonempty {A} (l : list A) : bool :=
  match l with
  | [] => false
  | _ => true
  end.

(** Lines 511-534: the frame to export and the file-name stem; [None]
    where the source returns [None] or [pd.merge] raises. *)
Definition select_frame (zoned : bool) (data_type : string) (h : history value)
  : option (frame * string) :=
  if String.eqb data_type "temperature" && nonempty (temperature_history h) then
    Some (temperature_frame zoned (temperature_history h), "temperature_data_")
  else if String.eqb data_type "humidity" && nonempty (humidity_history h) then
    Some (humidity_frame zoned (humidity_history h), "humidity_data_")
  else if String.eqb data_type "all" then
    let temp_df := temperature_frame zoned (temperature_history h) in
    let humidity_df := humidity_frame zoned (humidity_history h) in
    if nonempty (frows temp_df) && nonempty (frows humidity_df) then
      try df <- merge_outer temp_df humidity_df in
      Some (df, "sensor_data_")
    else if nonempty (frows temp_df) then Some (temp_df, "sensor_data_")
    else if nonempty (frows humidity_df) then Some (humidity_df, "sensor_data_")
    else None
  else None.

(** [export_to_csv]; [None] is the [None] the source returns, on its own
    account or from the [except] branch. *)
Definition export_to_csv (self : dashboard value) (clock : Z) (data_type : string)
  : option export :=
  try historical_data <-
    fetch_historical_data self clock (filter_range self) None None in
  let timestamp := strftime_compact (now CYPRUS_TZ clock) in
  let zoned := match supabase self with None => true | Some _ => false end in
  try (df, stem) <- select_frame zoned data_type historical_data in
  if negb (nonempty (frows df)) then None else
  let df := sort_values df in
  try rows <- strftime_column df in
  Some (mkexport (stem ++ timestamp ++ ".csv")
                 (to_csv (has_temperature df) (has_humidity df) rows)
                 "text/csv").

(** *** [authenticate], [logout] and the handlers that write the session *)

Definition authenticate (username password : string) : bool :=
  String.eqb username DASHBOARD_USER && String.eqb password DASHBOARD_PASS.

Definition set_authenticated (b : bool) (self : dashboard value) : dashboard value :=
  mkdash (supabase self) (device_stats self) b (filter_range self)
         (custom_start_date self) (custom_end_date self).

Definition logout (self : dashboard value) : dashboard value :=
  set_authenticated false self.

(** [handle_login] of [show_login] (and of [create_login_ui]). *)
Definition handle_login (username password : string) (self : dashboard value)
  : dashboard value :=
  if authenticate username password then set_authenticated true self
  else self.

Definition apply_filter (time_range : string) (self : dashboard value) : dashboard value :=
  mkdash (supabase self) (device_stats self) (authenticated self) time_range
         (custom_start_date self) (custom_end_date self).

Definition apply_custom_filter (start end_ : option string) (self : dashboard value)
  : dashboard value :=
  if truthy start && truthy end_ then
    mkdash (supabase self) (device_stats self) (authenticated self) "custom" start end_
  else self.

(** Every action that writes a field of the dashboard object. *)
Inductive action : Type :=
| Login (username password : string)
| Logout
| ApplyFilter (time_range : string)
| ApplyCustomFilter (start end_ : option string)
| Refresh (clock : Z).

Definition perform (a : action) (self : dashboard value) : dashboard value :=
  match a with
  | Login u p => handle_login u p self
  | Logout => logout self
  | ApplyFilter r => apply_filter r self
  | ApplyCustomFilter s e => apply_custom_filter s e self
  | Refresh clock => snd (fetch_device_stats clock self)
  end.

(** [SensorDashboard.__init__] *)
Definition init (c : option (client value)) : dashboard value :=
  mkdash c (mkstats 0 0) false "24h" None None.

End Dashboard.

Arguments mkfrow {value}.
Arguments f_device_name {value}.
Arguments f_timestamp {value}.
Arguments f_temperature {value}.
Arguments f_humidity {value}.
Arguments mkframe {value}.
Arguments timestamps {value}.
Arguments has_temperature {value}.
Arguments has_humidity {value}.
Arguments frows {value}.
Arguments mkcsv {value}.
Arguments c_device_name {value}.
Arguments c_timestamp {value}.
Arguments c_temperature {value}.
Arguments c_humidity {value}.

(* ================================================================== *)
(** ** Reference definitions, in the words of the specification *)

(** The documented window of a filter token, in hours:
    12h, 24h, 7d and 30d; anything else falls back to 24 hours. *)
Definition documented_hours (token : string) : Z :=
  if String.eqb token "12h" then 12
  else if String.eqb token "24h" then 24
  else if String.eqb token "7d" then 7 * 24
  else if String.eqb token "30d" then 30 * 24
  else 24.

(** Relative time with fully symmetric buckets for future instants,
    a days-scale bucket included. *)
Definition relative_time_symmetric (d : timedelta) : string :=
  let a := Z.abs d in
  let suffix := if d <? 0 then " from now" else " ago" in
  if a <? 60 * US_PER_SECOND then "Just now"
  else if a <? 3600 * US_PER_SECOND then
    str_int (a / (60 * US_PER_SECOND)) ++ " min" ++ suffix
  else if a <? 86400 * US_PER_SECOND then
    str_int (a / (3600 * US_PER_SECOND)) ++ " hr" ++ suffix
  else
    str_int (a / (86400 * US_PER_SECOND)) ++ " days" ++ suffix.

(** The bucket of a relative-time text in the order
    Just now < min < hr < days. *)
Definition bucket_rank (text : string) : option nat :=
  if endswith text "Just now" then Some 0%nat
  else if endswith text " min ago" || endswith text " min from now" then Some 1%nat
  else if endswith text " hr ago" || endswith text " hr from now" then Some 2%nat
  else if endswith text " days ago" || endswith text " days from now" then Some 3%nat
  else None.

(** The bucket [relative_time] chooses for a delta, as a rank. *)
Definition bucket_of (d : timedelta) : nat :=
  if Z.abs d <? 60 * US_PER_SECOND then 0%nat
  else if d <? 0 then (if - d <? 3600 * US_PER_SECOND then 1%nat else 2%nat)
  else if d <? 3600 * US_PER_SECOND then 1%nat
  else if d <? 86400 * US_PER_SECOND then 2%nat
  else 3%nat.

(** The offset [is_data_stale] reads a parsed timestamp with: its own,
    or UTC when it has none. *)
Definition offset_or_utc (t : datetime) : Z :=
  match tzoff t with
  | Some off => off
  | None => 0
  end.

(** The second text is in no smaller a bucket than the first. *)
Definition bucket_le (a b : string) : Prop :=
  match bucket_rank a, bucket_rank b with
  | Some x, Some y => (x <= y)%nat
  | None, None => True
  | _, _ => False
  end.

(** The age the timestamp normaliser assigns to a raw text: the delta
    between now and the text read as local wall-clock time. *)
Definition corrected_age (tz : tzinfo) (clock : Z) (s : string) : option timedelta :=
  try ts <- latest_datetime tz s in diff (now tz clock) ts.

(** The age [is_data_stale] works with. *)
Definition stale_age (tz : tzinfo) (clock : Z) (s : string) : option timedelta :=
  try ts <- stale_datetime tz s in diff (now tz clock) ts.

(** Ascending order under a numeric key. *)
Definition ascending {A} (k : A -> Z) (l : list A) : Prop :=
  StronglySorted (fun a b => k a <= k b) l.

(** A row whose timestamp lies in the closed interval from [since] to
    [until], both ends included. *)
Definition in_window {value} (since until : datetime) (r : stored value) : bool :=
  (key since <=? held_instant r) && (held_instant r <=? key until).

(** The row carries a temperature or a humidity. *)
Definition measured {value} (r : reading value) : Prop :=
  r_temperature r <> None \/ r_humidity r <> None.

(** [fromisoformat] reads the timestamp text of the row. *)
Definition readable {value} (r : reading value) : Prop :=
  fromisoformat (store_text (r_timestamp r)) <> None.

(** The timestamp text of a stored row denotes the instant the store
    holds for it. *)
Definition rendered {value} (r : stored value) : Prop :=
  store_instant (r_timestamp (response_row r)) = Some (held_instant r).

(** The series a list of rows yields for one measurement: one entry per
    row that carries the measurement, in the order of the rows. *)
Definition entries_of {value} (pick : reading value -> option value)
    (rows : list (reading value)) : list (entry value) :=
  flat_map
    (fun r =>
       match pick r, fromisoformat (store_text (r_timestamp r)) with
       | Some v, Some ts => [mkentry (r_device_name r) ts v]
       | _, _ => []
       end) rows.

(** Text of the forms [YYYY-MM-DD HH:MM:SS] and [YYYYMMDD_HHMMSS]. *)
Definition all_digits (s : string) : bool :=
  forallb (fun c => match digit c with Some _ => true | None => false end)
          (list_ascii_of_string s).

Definition digit_field (n : nat) (s : string) : Prop :=
  String.length s = n /\ all_digits s = true.

Definition display_format (s : string) : Prop :=
  exists y mo d h mi sec,
    s = y ++ "-" ++ mo ++ "-" ++ d ++ " " ++ h ++ ":" ++ mi ++ ":" ++ sec
    /\ digit_field 4 y /\ digit_field 2 mo /\ digit_field 2 d
    /\ digit_field 2 h /\ digit_field 2 mi /\ digit_field 2 sec.

Definition compact_format (s : string) : Prop :=
  exists y mo d h mi sec,
    s = y ++ mo ++ d ++ "_" ++ h ++ mi ++ sec
    /\ digit_field 4 y /\ digit_field 2 mo /\ digit_field 2 d
    /\ digit_field 2 h /\ digit_field 2 mi /\ digit_field 2 sec.

(** A frame row and a series entry agree on [(timestamp, device_name)]. *)
Definition joins {value} (row : frow value) (e : entry value) : bool :=
  (key (f_timestamp row) =? key (timestamp e))
  && String.eqb (f_device_name row) (device_name e).

(** [rows] is an outer join of the two series on the key: a measurement
    column is empty in a row exactly when the corresponding series has no
    entry with the row's key, every entry of either series is carried by
    some row, and every row stems from an entry. *)
Definition outer_join {value} (temps hums : list (entry value))
    (rows : list (frow value)) : Prop :=
  (forall row, In row rows ->
     (f_temperature row = None
      <-> forall t, In t temps -> joins row t = false)
     /\ (f_humidity row = None
         <-> forall h, In h hums -> joins row h = false))
  /\ (forall t, In t temps ->
        exists row, In row rows /\ joins row t = true
                    /\ f_temperature row = Some (measurement t))
  /\ (forall h, In h hums ->
        exists row, In row rows /\ joins row h = true
                    /\ f_humidity row = Some (measurement h))
  /\ (forall row, In row rows ->
        exists e, In e (temps ++ hums)%list /\ joins row e = true).

(** The text spells, in the form [YYYY-MM-DD HH:MM:SS], the calendar
    date and the time of day of the wall clock [w], cut to whole
    seconds. *)
Definition spells (text : string) (w : Z) : Prop :=
  exists y mo d h mi sec,
    text = zpad 4 y ++ "-" ++ zpad 2 mo ++ "-" ++ zpad 2 d ++ " "
           ++ zpad 2 h ++ ":" ++ zpad 2 mi ++ ":" ++ zpad 2 sec
    /\ 1 <= y <= 9999 /\ 1 <= mo <= 12 /\ 1 <= d <= days_in_month y mo
    /\ 0 <= h < 24 /\ 0 <= mi < 60 /\ 0 <= sec < 60
    /\ ymd2ord y mo d * US_PER_DAY + ((h * 60 + mi) * 60 + sec) * US_PER_SECOND
       = w - w mod US_PER_SECOND.

(** What the store or demo mode makes of the dtype of a frame. *)
Definition dtype_source {value} (zoned : bool) (ty : dtype) (l : list (entry value)) : Prop :=
  (zoned = true -> ty = Zone)
  /\ (zoned = false ->
      ty = Object \/ ty = Naive
      \/ exists off e, ty = Fixed off /\ In e l
                       /\ tzoff (timestamp e) = Some off).

(** A series an export of the given data type works on. *)
Definition requested {value} (data_type : string) (h : history value)
    (series : list (entry value)) : Prop :=
  (data_type = "temperature" /\ series = temperature_history h)
  \/ (data_type = "humidity" /\ series = humidity_history h)
  \/ (data_type = "all"
      /\ (series = temperature_history h \/ series = humidity_history h)).

(** Two timestamps that no datetime column holds together: aware ones
    of different offsets, or a naive and an aware one. *)
Definition clash (a b : datetime) : Prop :=
  match tzoff a, tzoff b with
  | Some x, Some y => x <> y
  | None, None => False
  | _, _ => True
  end.

(** A field of [n] decimal digits, as a boolean test. *)
Definition digit_fieldb (n : nat) (s : string) : bool :=
  (String.length s =? n)%nat && all_digits s.

(** The integers from 0 up to, not including, [n]. *)
Definition below (n : Z) : list Z := map Z.of_nat (seq 0 (Z.to_nat n)).

(** [P] holds of the [n] integers from [start] on. *)
Fixpoint all_from (P : Z -> bool) (start : Z) (n : nat) : bool :=
  match n with
  | O => true
  | S k => P start && all_from P (start + 1) k
  end.

(** Day [r] of the calendar reads back: [_ord2ymd] yields a date of the
    calendar whose ordinal is [r]. *)
Definition cycle_day_ok (r : Z) : bool :=
  (r =? 0)
  || (let '(y, m, d) := ord2ymd r in
      (ymd2ord y m d =? r) && (1 <=? y) && (1 <=? m) && (m <=? 12)
      && (1 <=? d) && (d <=? days_in_month y m)).

(* ================================================================== *)
(** ** Sample data *)

Module Sample.

(** Winter time in Nicosia: UTC+2 throughout. *)
Definition EET : tzinfo :=
  mktz (fun _ => timedelta_hours 2) (fun _ => timedelta_hours 2).

(** The clock reads 2024-01-01 12:00:00 local time (10:00:00 UTC). *)
Definition noon : Z := 63839786400000000.

Definition table : list (stored Z) :=
  [ mkstored 63839786400000000
      (mkreading "A" "2024-01-01T10:00:00+00:00" (Some 21) None);
    mkstored 63839782800000000
      (mkreading "B" "2024-01-01T09:00:00+00" None (Some 40));
    mkstored 63839790000000000
      (mkreading "A" "2024-01-01T11:00:00+00:00" (Some 22) (Some 50));
    mkstored 63839781000000000
      (mkreading "B" "2024-01-01T08:30:00+00:00" (Some 19) (Some 55)) ].

(** A table with a row whose text has five fractional digits. *)
Definition fractional : list (stored Z) :=
  mkstored 63839782800123450
    (mkreading "C" "2024-01-01T09:00:00.12345+00:00" (Some 20) None)
  :: table.

Definition store : client Z := mkclient (Some [1; 2; 3]) table false.

(** A store whose devices query answers and whose readings query raises. *)
Definition flaky : client Z := mkclient (Some [1; 2; 3]) table true.

Definition trimmed : client Z := mkclient (Some [1; 2; 3]) fractional false.

(** Two rows of one instant whose texts carry different offsets. *)
Definition offsets : list (stored Z) :=
  [ mkstored 63839782800000000
      (mkreading "A" "2024-01-01T09:00:00+00:00" (Some 21) None);
    mkstored 63839782800000000
      (mkreading "B" "2024-01-01T11:00:00+02:00" (Some 19) None) ].

Definition connected : dashboard Z :=
  mkdash (Some store) (mkstats 0 0) false "24h" None None.

Definition half_refreshed : dashboard Z :=
  mkdash (Some flaky) (mkstats 5 100) true "24h" None None.

Definition demo : dashboard Z := init Z None.

Definition mixed : dashboard Z :=
  mkdash (Some (mkclient (Some [1]) offsets false)) (mkstats 0 0) false "24h"
         None None.

Definition show (z : Z) : string := str_int z.

End Sample.

(* ================================================================== *)
(** ** Latest readings, charts and handlers *)

(** A sensor card of the latest-readings view. *)
Inductive sensor_unit : Type := Celsius | Percent.

Record card : Type := mkcard {
  sensor_name : option string;      (* a text, or Python's None *)
  sensor_value : string;
  sensor_unit_of : sensor_unit;
  sensor_timestamp : string;
  sensor_is_stale : bool
}.

(** [self.sensor_data]; the empty dict has both lists empty. *)
Record sensor_data : Type := mksensors {
  temperature_sensors : list card;
  humidity_sensors : list card
}.

(** One row of the [latest_sensor_readings] view.  A column that is
    [None] is absent from the row or null, which [dict.get] does not
    tell apart; for [device_name], read with a default, the outer [None]
    is the absent key and [Some None] the null. *)
Record latest_reading (value : Type) : Type := mklatest {
  l_device_name : option (option string);
  l_timestamp : option string;
  l_temperature : option value;
  l_humidity : option value
}.
Arguments mklatest {value}.
Arguments l_device_name {value}.
Arguments l_timestamp {value}.
Arguments l_temperature {value}.
Arguments l_humidity {value}.

(** Equality of device names as cards hold them. *)
Definition name_eqb (a b : option string) : bool :=
  match a, b with
  | Some x, Some y => String.eqb x y
  | None, None => true
  | _, _ => false
  end.

(** A Python dict keyed by device names: insertion-ordered, assignment
    to a present key keeps its position. *)
Fixpoint dict_get {V} (k : option string) (d : list (option string * V))
  : option V :=
  match d with
  | [] => None
  | (k', v) :: d' => if name_eqb k' k then Some v else dict_get k d'
  end.

Fixpoint dict_set {V} (k : option string) (v : V) (d : list (option string * V))
  : list (option string * V) :=
  match d with
  | [] => [(k, v)]
  | (k', v') :: d' =>
      if name_eqb k' k then (k', v) :: d' else (k', v') :: dict_set k v d'
  end.

(** [Series.unique()]: the distinct values in order of first appearance. *)
Fixpoint unique (l : list string) : list string :=
  match l with
  | [] => []
  | x :: l' => x :: filter (fun y => negb (String.eqb y x)) (unique l')
  end.

(** The title tables of the two trend graphs and of the filter status. *)
Definition range_titles (time_range : string) : string :=
  if String.eqb time_range "12h" then "Last 12 Hours"
  else if String.eqb time_range "24h" then "Last 24 Hours"
  else if String.eqb time_range "7d" then "Last 7 Days"
  else if String.eqb time_range "30d" then "Last 30 Days"
  else if String.eqb time_range "custom" then "Custom Range"
  else "Last 24 Hours".

(** The value text of the last card with a given name. *)
Fixpoint last_text (k : option string) (sensors : list card) : option string :=
  match sensors with
  | [] => None
  | c :: rest =>
      match last_text k rest with
      | Some t => Some t
      | None => if name_eqb (sensor_name c) k then Some (sensor_value c) else None
      end
  end.

Section Presentation.

Variable value : Type.
Variable value_of_int : Z -> value.
Variable CYPRUS_TZ : tzinfo.
Variable fmt1 : value -> string.                   (* f"{v:.1f}" *)
Variable float_of_text : string -> option value.   (* float(text); None = ValueError *)
Variable repr : value -> string.

(** *** [fetch_latest_sensor_data] *)

Definition demo_sensor_data : sensor_data :=
  mksensors
    [ mkcard (Some "Living Room") "22.5" Celsius "2 min ago" false;
      mkcard (Some "Bedroom") "20.1" Celsius "3 min ago" false;
      mkcard (Some "Kitchen") "24.2" Celsius "1 min ago" false ]
    [ mkcard (Some "Living Room") "45" Percent "2 min ago" false;
      mkcard (Some "Bedroom") "52" Percent "3 min ago" false;
      mkcard (Some "Bathroom") "68" Percent "4 min ago" false ].

Definition card_of (clock : Z) (r : latest_reading value) (u : sensor_unit)
    (v : value) : card :=
  let device_name :=
    match l_device_name r with Some n => n | None => Some "Unknown" end in
  let timestamp_str := format_timestamp CYPRUS_TZ clock (l_timestamp r) in
  let is_stale := is_data_stale CYPRUS_TZ clock (l_timestamp r) 4 in
  mkcard device_name (fmt1 v) u timestamp_str is_stale.

(** Lines 112-141: one pass over the response, filling both lists. *)
Fixpoint organize (clock : Z) (rows : list (latest_reading value))
  : list card * list card :=
  match rows with
  | [] => ([], [])
  | r :: rest =>
      let '(temp_sensors, humidity_sensors) := organize clock rest in
      ((match l_temperature r with
        | Some v => [card_of clock r Celsius v]
        | None => []
        end ++ temp_sensors)%list,
       (match l_humidity r with
        | Some v => [card_of clock r Percent v]
        | None => []
        end ++ humidity_sensors)%list)
  end.

(** [fetch_latest_sensor_data]; [response] is the outcome of the query
    on the view, the clock is read once for the pass. *)
Definition fetch_latest_sensor_data (self : dashboard value)
    (response : option (list (latest_reading value))) (clock : Z)
  : Eff.eff sensor_data unit :=
  match supabase self with
  | None => Eff.put demo_sensor_data
  | Some _ =>
      Eff.try_except
        (rows <- Eff.call response ;;
         let '(temp_sensors, humidity_sensors) := organize clock rows in
         Eff.put (mksensors temp_sensors humidity_sensors))%eff
        (Eff.ret tt)
  end.

(** *** [create_sensor_summary_chart] *)

(** The per-device dict: the keys ['temp'] and ['humidity'], each
    possibly absent. *)
Record device_values : Type := mkvalues {
  v_temp : option value;
  v_humidity : option value
}.

Definition device_dict := list (option string * device_values).

(** First loop: [device_data[name] = {'temp': float(value)}]. *)
Fixpoint add_temperatures (sensors : list card) (d : device_dict)
  : option device_dict :=
  match sensors with
  | [] => Some d
  | sensor :: rest =>
      try v <- float_of_text (sensor_value sensor) in
      add_temperatures rest
        (dict_set (sensor_name sensor) (mkvalues (Some v) None) d)
  end.

(** Second loop: add ['humidity'] to a present device, else a new one. *)
Fixpoint add_humidities (sensors : list card) (d : device_dict)
  : option device_dict :=
  match sensors with
  | [] => Some d
  | sensor :: rest =>
      try v <- float_of_text (sensor_value sensor) in
      add_humidities rest
        (match dict_get (sensor_name sensor) d with
         | Some e => dict_set (sensor_name sensor) (mkvalues (v_temp e) (Some v)) d
         | None => dict_set (sensor_name sensor) (mkvalues None (Some v)) d
         end)
  end.

Definition or_zero (m : option value) : value :=
  match m with
  | Some v => v
  | None => value_of_int 0
  end.

(** The bar chart: the device axis and, per measurement, the bars
    when that trace is added. *)
Record bar_chart : Type := mkbars {
  x_devices : list (option string);
  temperature_bars : option (list value);
  humidity_bars : option (list value)
}.

Inductive summary : Type :=
| NoSensorData                  (* the "No sensor data available" figure *)
| Bars (chart : bar_chart).

(** [create_sensor_summary_chart]; [None] when [float] raises. *)
Definition create_sensor_summary_chart (data : sensor_data) : option summary :=
  let temp_sensors := temperature_sensors data in
  let humidity_sensors := humidity_sensors data in
  if negb (nonempty temp_sensors) && negb (nonempty humidity_sensors)
  then Some NoSensorData
  else
    try d1 <- add_temperatures temp_sensors [] in
    try device_data <- add_humidities humidity_sensors d1 in
    let devices := map fst device_data in
    let temperatures := map (fun kv => or_zero (v_temp (snd kv))) device_data in
    let humidities := map (fun kv => or_zero (v_humidity (snd kv))) device_data in
    Some (Bars (mkbars devices
                  (if nonempty temperatures then Some temperatures else None)
                  (if nonempty humidities then Some humidities else None))).

(** What the chart knows of a device from one card list: the parsed
    value of the last card with that name. *)
Definition latest_value (k : option string) (sensors : list card) : option value :=
  try t <- last_text k sensors in float_of_text t.

(** *** [create_temperature_graph] and [create_humidity_graph] *)

Record trace : Type := mktrace {
  trace_name : string;
  trace_x : list datetime;
  trace_y : list value;
  fill_tonexty : bool
}.

Inductive figure : Type :=
| NoData                                        (* the annotation-only figure *)
| Lines (title : string) (traces : list trace).

(** [df[df['device_name'] == device]] *)
Definition device_rows (device : string) (data : list (entry value))
  : list (entry value) :=
  filter (fun e => String.eqb (device_name e) device) data.

Definition create_temperature_graph (data : list (entry value))
    (time_range : string) : figure :=
  if negb (nonempty data) then NoData else
  Lines ("Temperature Trends - " ++ range_titles time_range)
    (map (fun device =>
            let device_data := device_rows device data in
            mktrace device (map timestamp device_data)
                    (map measurement device_data) false)
         (unique (map device_name data))).

(** The traces added so far decide the fill of the next one. *)
Fixpoint humidity_traces (data : list (entry value)) (devices : list string)
    (added : nat) : list trace :=
  match devices with
  | [] => []
  | device :: rest =>
      let device_data := device_rows device data in
      mktrace device (map timestamp device_data) (map measurement device_data)
              (0 <? added)%nat
      :: humidity_traces data rest (S added)
  end.

Definition create_humidity_graph (data : list (entry value))
    (time_range : string) : figure :=
  if negb (nonempty data) then NoData else
  Lines ("Humidity Trends - " ++ range_titles time_range)
    (humidity_traces data (unique (map device_name data)) 0).

(** *** Loading the historical series *)

(** [refresh_graphs] (and the last step of [refresh_data]): the new
    [historical_data]. *)
Definition refresh_graphs (self : dashboard value) (clock : Z)
  : option (history value) :=
  if String.eqb (filter_range self) "custom" then
    fetch_historical_data value value_of_int CYPRUS_TZ self clock
      (filter_range self) (custom_start_date self) (custom_end_date self)
  else
    fetch_historical_data value value_of_int CYPRUS_TZ self clock
      (filter_range self) None None.

(** The last step of [setup_dashboard]: the initial [historical_data]. *)
Definition setup_dashboard (self : dashboard value) (clock : Z)
  : option (history value) :=
  fetch_historical_data value value_of_int CYPRUS_TZ self clock
    (filter_range self) None None.

(** The temperature tab of [create_graphs_section]: the figure shown,
    or [None] for the loading label. *)
Definition temperature_panel (self : dashboard value)
    (historical_data : option (history value)) : option figure :=
  match historical_data with
  | Some h =>
      if nonempty (temperature_history h)
      then Some (create_temperature_graph (temperature_history h) (filter_range self))
      else None
  | None => None
  end.

(** *** [export_data] *)

Inductive notification : Type :=
| Exported (data_type : string)      (* 'Exported ... data successfully!' *)
| NoDataToExport                     (* 'No data available to export' *)
| ExportFailed.                      (* 'Export failed. Please try again.' *)

(** [export_data]: the file handed to [ui.download], if any, and the
    notification shown. *)
Definition export_data (self : dashboard value) (clock : Z) (data_type : string)
  : option (string * string) * notification :=
  match export_to_csv value value_of_int CYPRUS_TZ repr self clock data_type with
  | Some result => (Some (content result, filename result), Exported data_type)
  | None => (None, NoDataToExport)
  end.

(** *** Sessions *)

(** The buttons of the filter bar call [apply_filter] with one of four
    tokens. *)
Definition button_token (t : string) : bool :=
  String.eqb t "12h" || String.eqb t "24h" || String.eqb t "7d" || String.eqb t "30d".

Definition ui_action (a : action) : bool :=
  match a with
  | ApplyFilter t => button_token t
  | _ => true
  end.

End Presentation.

Arguments mkvalues {value}.
Arguments v_temp {value}.
Arguments v_humidity {value}.
Arguments mkbars {value}.
Arguments x_devices {value}.
Arguments temperature_bars {value}.
Arguments humidity_bars {value}.
Arguments NoSensorData {value}.
Arguments Bars {value}.
Arguments mktrace {value}.
Arguments trace_name {value}.
Arguments trace_x {value}.
Arguments trace_y {value}.
Arguments fill_tonexty {value}.
Arguments NoData {value}.
Arguments Lines {value}.

(** A sequence of actions, performed in order. *)
Definition run {value} (tz : tzinfo) (user pass : string)
    (actions : list action) (self : dashboard value) : dashboard value :=
  fold_left (fun s a => perform value tz user pass a s) actions self.

Definition is_logout (a : action) : bool :=
  match a with
  | Logout => true
  | _ => false
  end.

(** The filter of the session is one of the five tokens, and a custom
    filter has both its dates. *)
Definition filter_ok {value} (self : dashboard value) : Prop :=
  (button_token (filter_range self) = true \/ filter_range self = "custom")
  /\ (filter_range self = "custom" ->
      truthy (custom_start_date self) = true
      /\ truthy (custom_end_date self) = true).

(** Strictly ascending order under a numeric key. *)
Definition strictly_ascending {A} (k : A -> Z) (l : list A) : Prop :=
  StronglySorted (fun a b => k a < k b) l.

Module SampleUI.

Definition cards : sensor_data :=
  mksensors
    [ mkcard (Some "Attic") "21.5" Celsius "2 min ago" false;
      mkcard (Some "Cellar") "12.0" Celsius "5 hr ago" true;
      mkcard (Some "Attic") "22.5" Celsius "Just now" false ]
    [ mkcard (Some "Cellar") "70.0" Percent "5 hr ago" true;
      mkcard (Some "Porch") "55.5" Percent "1 min ago" false ].

(** A reader of the one-decimal texts above, in tenths. *)
Definition tenths (s : string) : option Z :=
  match s with
  | String a (String b (String dot (String c EmptyString))) =>
      if Ascii.eqb dot "." then
        match num2 a b, digit c with
        | Some n, Some d => Some (n * 10 + d)
        | _, _ => None
        end
      else None
  | _ => None
  end.

Definition series : list (entry Z) :=
  [ mkentry "A" (mkdt 63839782800000000 (Some 0)) 21;
    mkentry "B" (mkdt 63839782800000000 (Some 0)) 19;
    mkentry "A" (mkdt 63839786400000000 (Some 0)) 22 ].

Definition custom_session : dashboard Z :=
  mkdash (Some Sample.store) (mkstats 0 0) true "custom"
         (Some "2024-01-01") (Some "2024-01-02").

End SampleUI.

(* ================================================================== *)
(** ** Properties *)

(** *** Time-range resolution *)

Section TimeRange.

Variable value : Type.
Variable value_of_int : Z -> value.
Variable CYPRUS_TZ : tzinfo.

Lemma diff_sub_td (dt : datetime) (off td : Z) :
  tzoff dt = Some off -> diff dt (sub_td dt td) = Some td.
Proof.
  intros H. unfold diff, sub_td. cbn. rewrite H. f_equal. lia.
Qed.

Lemma key_sub_td (dt : datetime) (td : Z) :
  key (sub_td dt td) = key dt - td.
Proof.
  unfold key, sub_td. cbn. destruct (tzoff dt); lia.
Qed.

Lemma demo_hours_documented (t : string) : demo_hours t = documented_hours t.
Proof. reflexivity. Qed.

Lemma documented_hours_pos (t : string) : 0 < documented_hours t.
Proof.
  unfold documented_hours.
  repeat match goal with |- context [if ?b then _ else _] => destruct b end; lia.
Qed.

Lemma range_down_spec (h i : Z) :
  In i (range_down h) <-> 1 <= i <= h.
Proof.
  unfold range_down. rewrite in_map_iff. split.
  - intros (k & <- & Hk). apply in_seq in Hk. lia.
  - intros Hi. exists (Z.to_nat (h - i)). split; [lia|]. apply in_seq. lia.
Qed.

Lemma range_down_length (h : Z) : List.length (range_down h) = Z.to_nat h.
Proof. unfold range_down. now rewrite length_map, length_seq. Qed.

(** The window the store-backed branch resolves whenever the request is
    not a custom one with both dates present. *)
Lemma query_window_relative (clock : Z) (t : string) (sd ed : option string) :
  String.eqb t "custom" && truthy sd && truthy ed = false ->
  query_window CYPRUS_TZ clock t sd ed =
  Some (sub_td (now CYPRUS_TZ clock) (timedelta_hours (documented_hours t)),
        now CYPRUS_TZ clock).
Proof.
  intros H. unfold query_window, documented_hours. rewrite H.
  unfold timedelta_days, timedelta_hours, US_PER_DAY.
  repeat match goal with |- context [String.eqb t ?x] => destruct (String.eqb t x) end;
    repeat f_equal; lia.
Qed.

(** C1.  For each of the tokens 12h, 24h, 7d and 30d, and for every token
    that is not a custom request with both dates, the store-backed branch
    resolves the window [(now - documented duration, now)] and queries
    the store with it: it ends at the current local time, lasts 12
    hours, 24 hours, 7 days or 30 days for the four supported tokens and
    24 hours for an unknown one, and its end is not before its start.
    The synthetic branch produces one point per hour of the same
    duration, all inside that window. *)
Theorem query_window_documented (clock : Z) (t : string) (sd ed : option string) :
  String.eqb t "custom" && truthy sd && truthy ed = false ->
  exists since until,
    query_window CYPRUS_TZ clock t sd ed = Some (since, until)
    /\ until = now CYPRUS_TZ clock
    /\ since = sub_td until (timedelta_hours (documented_hours t))
    /\ diff until since = Some (timedelta_hours (documented_hours t))
    /\ key since <= key until
    /\ documented_hours "12h" = 12 /\ documented_hours "24h" = 24
    /\ documented_hours "7d" = 7 * 24 /\ documented_hours "30d" = 30 * 24
    /\ (t <> "12h" -> t <> "24h" -> t <> "7d" -> t <> "30d" ->
        documented_hours t = 24)
    /\ (forall (self : dashboard value) c, supabase self = Some c ->
        fetch_historical_data value value_of_int CYPRUS_TZ self clock t sd ed
        = fetch_between value c since until)
    /\ List.length (demo_timestamps CYPRUS_TZ clock t)
       = Z.to_nat (documented_hours t)
    /\ (forall ts, In ts (demo_timestamps CYPRUS_TZ clock t) ->
        tzoff ts = tzoff until /\ key since <= key ts < key until).
Proof.
  intros H.
  exists (sub_td (now CYPRUS_TZ clock) (timedelta_hours (documented_hours t))),
         (now CYPRUS_TZ clock).
  pose proof (documented_hours_pos t) as Hpos.
  split; [now apply query_window_relative|].
  split; [reflexivity|]. split; [reflexivity|].
  split; [now apply diff_sub_td with (off := offset_at_utc CYPRUS_TZ clock)|].
  split; [rewrite key_sub_td; unfold timedelta_hours, US_PER_SECOND; lia|].
  do 4 (split; [reflexivity|]).
  split.
  { intros H1 H2 H3 H4. unfold documented_hours.
    apply String.eqb_neq in H1, H2, H3, H4. now rewrite H1, H2, H3, H4. }
  split.
  { intros self c Hc. unfold fetch_historical_data.
    now rewrite Hc, (query_window_relative clock t sd ed H). }
  split.
  { unfold demo_timestamps. now rewrite length_map, range_down_length. }
  intros ts Hts. unfold demo_timestamps in Hts. apply in_map_iff in Hts.
  destruct Hts as (i & <- & Hi). apply range_down_spec in Hi.
  rewrite demo_hours_documented in Hi.
  split; [reflexivity|]. rewrite !key_sub_td.
  unfold timedelta_hours, US_PER_SECOND. lia.
Qed.

(** C10.  A custom request lacking its start date or its end date is
    answered exactly as a 24h request, on the store and in demo mode. *)
Theorem custom_without_dates_is_24h
    (self : dashboard value) (clock : Z) (sd ed : option string) :
  sd = None \/ ed = None ->
  query_window CYPRUS_TZ clock "custom" sd ed
    = query_window CYPRUS_TZ clock "24h" None None
  /\ demo_hours "custom" = demo_hours "24h"
  /\ fetch_historical_data value value_of_int CYPRUS_TZ self clock "custom" sd ed
     = fetch_historical_data value value_of_int CYPRUS_TZ self clock "24h" None None.
Proof.
  intros H.
  assert (Hw : query_window CYPRUS_TZ clock "custom" sd ed
               = query_window CYPRUS_TZ clock "24h" None None).
  { rewrite !query_window_relative; try reflexivity.
    destruct H as [-> | ->]; cbn; [reflexivity|].
    now rewrite andb_false_r. }
  split; [exact Hw|]. split; [reflexivity|].
  unfold fetch_historical_data. destruct (supabase self); [|reflexivity].
  now rewrite Hw.
Qed.

End TimeRange.

Lemma query_window_documented_witness :
  exists since until,
    query_window Sample.EET Sample.noon "7d" None None = Some (since, until)
    /\ diff until since = Some (timedelta_hours (7 * 24)).
Proof.
  destruct (query_window_documented Z (fun z => z) Sample.EET Sample.noon
              "7d" None None eq_refl)
    as (since & until & H1 & _ & _ & H4 & _).
  exists since, until. split; [exact H1 | exact H4].
Defined.

Lemma custom_without_dates_is_24h_witness :
  fetch_historical_data Z (fun z => z) Sample.EET Sample.connected Sample.noon
    "custom" (Some "2024-01-01") None
  = fetch_historical_data Z (fun z => z) Sample.EET Sample.connected Sample.noon
    "24h" None None.
Proof.
  apply (custom_without_dates_is_24h Z (fun z => z) Sample.EET Sample.connected
           Sample.noon (Some "2024-01-01") None).
  right. reflexivity.
Defined.

(** *** Device statistics *)

Section DeviceStats.

Variable value : Type.
Variable CYPRUS_TZ : tzinfo.

(** [fetch_device_stats] writes [device_stats] and nothing else. *)
Lemma fetch_device_stats_frame (clock : Z) (self : dashboard value) :
  let self' := snd (fetch_device_stats value CYPRUS_TZ clock self) in
  supabase self' = supabase self
  /\ authenticated self' = authenticated self
  /\ filter_range self' = filter_range self
  /\ custom_start_date self' = custom_start_date self
  /\ custom_end_date self' = custom_end_date self.
Proof.
  unfold fetch_device_stats, Eff.bind, Eff.get, Eff.try_except, Eff.call,
    Eff.modify, Eff.ret, Eff.raise.
  destruct (supabase self) as [c|] eqn:Hc; cbn.
  - destruct (active_devices c); cbn; [|now rewrite Hc].
    destruct (execute value c _); cbn; now rewrite Hc.
  - now rewrite Hc.
Qed.

(** C8 (as the code behaves).  [fetch_device_stats] never raises and
    touches only [device_stats].  Without a store both fields get the
    demo values.  With a store: if the devices query raises, both fields
    keep their previous values; otherwise [active_sensors] is the fresh
    count, and [data_points_today] is the fresh count when the readings
    query answers and keeps its previous value when that query raises. *)
Theorem fetch_device_stats_outcomes (clock : Z) (self : dashboard value) :
  let r := fetch_device_stats value CYPRUS_TZ clock self in
  let old := device_stats self in
  let new := device_stats (snd r) in
  fst r = Eff.Returned tt
  /\ supabase (snd r) = supabase self
  /\ authenticated (snd r) = authenticated self
  /\ match supabase self with
     | None => new = mkstats 12 2847
     | Some c =>
         match active_devices c with
         | None => new = old
         | Some devices =>
             active_sensors new = len devices
             /\ match execute value c (gte value (replace_midnight (now CYPRUS_TZ clock))
                                  (sensor_readings c)) with
                | Some readings => data_points_today new = len readings
                | None => data_points_today new = data_points_today old
                end
         end
     end.
Proof.
  cbv zeta.
  destruct (fetch_device_stats_frame clock self) as (Hs & Ha & _).
  split; [|split; [exact Hs|split; [exact Ha|]]]; clear Hs Ha;
  unfold fetch_device_stats, Eff.bind, Eff.get, Eff.try_except, Eff.call,
    Eff.modify, Eff.ret, Eff.raise;
  destruct (supabase self) as [c|]; cbn; try reflexivity;
  destruct (active_devices c); cbn; try reflexivity;
  destruct (execute value c _); cbn; auto.
Qed.

End DeviceStats.

(** C8, counterexample.  The devices query answers with three devices
    and the readings query raises: afterwards [active_sensors] is the
    fresh 3 while [data_points_today] is still the previous 100; the
    result is neither wholly fresh nor the default. *)
Lemma fetch_device_stats_partial_update :
  let r := fetch_device_stats Z Sample.EET Sample.noon Sample.half_refreshed in
  device_stats Sample.half_refreshed = mkstats 5 100
  /\ fst r = Eff.Returned tt
  /\ device_stats (snd r) = mkstats 3 100
  /\ device_stats (snd r) <> mkstats 0 0.
Proof.
  cbv zeta. vm_compute. repeat split; discriminate.
Qed.

(** *** Authentication *)

Section Authentication.

Variable value : Type.
Variable CYPRUS_TZ : tzinfo.
Variable DASHBOARD_USER DASHBOARD_PASS : string.

Lemma authenticate_iff (username password : string) :
  authenticate DASHBOARD_USER DASHBOARD_PASS username password = true
  <-> username = DASHBOARD_USER /\ password = DASHBOARD_PASS.
Proof.
  unfold authenticate. rewrite andb_true_iff, !String.eqb_eq. tauto.
Qed.

(** C9.  [authenticate] answers true exactly for the configured pair,
    false for every other pair, and no action on the dashboard turns
    [authenticated] from false to true except a login whose credentials
    [authenticate] accepts. *)
Theorem authenticate_gates_session :
  (forall username password,
      authenticate DASHBOARD_USER DASHBOARD_PASS username password = true
      <-> username = DASHBOARD_USER /\ password = DASHBOARD_PASS)
  /\ (forall username password,
      username <> DASHBOARD_USER \/ password <> DASHBOARD_PASS ->
      authenticate DASHBOARD_USER DASHBOARD_PASS username password = false)
  /\ (forall (a : action) (self : dashboard value),
      authenticated self = false ->
      authenticated
        (perform value CYPRUS_TZ DASHBOARD_USER DASHBOARD_PASS a self) = true ->
      exists username password,
        a = Login username password
        /\ authenticate DASHBOARD_USER DASHBOARD_PASS username password = true)
  /\ (forall username password (self : dashboard value),
      authenticated (handle_login value DASHBOARD_USER DASHBOARD_PASS
                       username password self)
      = authenticate DASHBOARD_USER DASHBOARD_PASS username password
        || authenticated self).
Proof.
  split; [exact authenticate_iff|]. split.
  { intros u p H.
    destruct (authenticate DASHBOARD_USER DASHBOARD_PASS u p) eqn:E;
      [|reflexivity].
    apply authenticate_iff in E. tauto. }
  split.
  { intros a self Hf Ht.
    destruct a as [u p| |r|s e|clock]; unfold perform in Ht.
    - exists u, p. split; [reflexivity|]. unfold handle_login in Ht.
      destruct (authenticate DASHBOARD_USER DASHBOARD_PASS u p);
        [reflexivity|congruence].
    - discriminate.
    - cbn in Ht. congruence.
    - unfold apply_custom_filter in Ht.
      destruct (truthy s && truthy e); cbn in Ht; congruence.
    - pose proof (fetch_device_stats_frame value CYPRUS_TZ clock self)
        as (_ & Ha & _).
      rewrite Ha in Ht. congruence. }
  intros u p self. unfold handle_login.
  destruct (authenticate DASHBOARD_USER DASHBOARD_PASS u p); cbn; reflexivity.
Qed.

End Authentication.

Lemma authenticate_gates_session_witness :
  authenticated
    (perform Z Sample.EET "admin" "password" (Login "admin" "password")
       Sample.connected) = true
  /\ exists username password,
       Login "admin" "password" = Login username password
       /\ authenticate "admin" "password" username password = true.
Proof.
  split; [reflexivity|].
  destruct (authenticate_gates_session Z Sample.EET "admin" "password")
    as (_ & _ & H & _).
  apply (H (Login "admin" "password") Sample.connected); reflexivity.
Defined.

(** *** Strings *)

Lemma list_ascii_app (a b : string) :
  list_ascii_of_string (a ++ b)
  = (list_ascii_of_string a ++ list_ascii_of_string b)%list.
Proof. induction a as [|c a IH]; cbn; [reflexivity|now rewrite IH]. Qed.

Lemma append_assoc (a b c : string) : (a ++ b) ++ c = a ++ (b ++ c).
Proof. induction a as [|x a IH]; cbn; [reflexivity|now rewrite IH]. Qed.

Lemma append_empty_r (a : string) : a ++ "" = a.
Proof. induction a as [|x a IH]; cbn; [reflexivity|now rewrite IH]. Qed.

Lemma length_append (a b : string) :
  String.length (a ++ b) = (String.length a + String.length b)%nat.
Proof. induction a as [|x a IH]; cbn; [reflexivity|now rewrite IH]. Qed.

(** [endswith] of a text with a known ending only looks at that ending
    while the suffix asked for is no longer than it. *)
Lemma endswith_app (s m suf : string) :
  endswith (s ++ m) suf
  = list_prefix (rev (list_ascii_of_string suf))
      (rev (list_ascii_of_string m) ++ rev (list_ascii_of_string s))%list.
Proof. unfold endswith. now rewrite list_ascii_app, rev_app_distr. Qed.

Lemma list_prefix_app (p l : list ascii) : list_prefix p (p ++ l) = true.
Proof.
  induction p as [|a p IH]; cbn; [reflexivity|].
  now rewrite Ascii.eqb_refl, IH.
Qed.

Lemma endswith_same (s m : string) : endswith (s ++ m) m = true.
Proof. rewrite endswith_app. apply list_prefix_app. Qed.

Lemma replace_from_skipped (old new t : string) (k : nat) :
  (String.length t <= k)%nat -> replace_from old new t k = "".
Proof.
  revert k. induction t as [|c t IH]; intros k Hk; cbn; [reflexivity|].
  cbn in Hk. destruct k as [|k]; [lia|]. apply IH. lia.
Qed.

Lemma prefix_refl (s : string) : String.prefix s s = true.
Proof.
  induction s as [|c s IH]; cbn; [reflexivity|].
  destruct (ascii_dec c c); [exact IH|congruence].
Qed.

(** Replacing a marker that begins with a character absent from the
    rest of the text only touches the marker at the end. *)
Lemma replace_trailing (c : ascii) (rest new s : string) :
  occursb c s = false ->
  replace (s ++ String c rest) (String c rest) new = s ++ new.
Proof.
  unfold replace. induction s as [|d s IH]; intros Hs.
  - cbn [append replace_from].
    change (String.prefix (String c rest) (String c rest))
      with (if ascii_dec c c then String.prefix rest rest else false).
    destruct (ascii_dec c c); [|congruence]. rewrite prefix_refl.
    rewrite replace_from_skipped; [now rewrite append_empty_r|].
    cbn. lia.
  - cbn in Hs. apply orb_false_iff in Hs. destruct Hs as [Hcd Hs].
    cbn [append replace_from].
    change (String.prefix (String c rest) (String d (s ++ String c rest)))
      with (if ascii_dec c d then String.prefix rest (s ++ String c rest) else false).
    destruct (ascii_dec c d) as [->|_].
    + now rewrite Ascii.eqb_refl in Hcd.
    + now rewrite IH.
Qed.

(** What the two paths make of a text that ends in a zero-offset marker. *)
Lemma strip_marker_long (s : string) :
  occursb "+" s = false -> strip_marker (s ++ "+00:00") = s.
Proof.
  intros Hs. unfold strip_marker. rewrite endswith_same.
  rewrite (replace_trailing "+" "00:00" "" s Hs). apply append_empty_r.
Qed.

Lemma strip_marker_short (s : string) :
  occursb "+" s = false -> strip_marker (s ++ "+00") = s.
Proof.
  intros Hs. unfold strip_marker.
  rewrite (endswith_app s "+00" "+00:00"). cbn [list_ascii_of_string rev app list_prefix].
  replace (Ascii.eqb ":" "+") with false by reflexivity.
  cbn [Ascii.eqb andb]. rewrite endswith_same.
  rewrite (replace_trailing "+" "00" "" s Hs). apply append_empty_r.
Qed.

Lemma store_text_long (s : string) : store_text (s ++ "+00:00") = s ++ "+00:00".
Proof.
  unfold store_text. rewrite (endswith_app s "+00:00" "+00").
  reflexivity.
Qed.

Lemma store_text_short (s : string) :
  occursb "+" s = false -> store_text (s ++ "+00") = s ++ "+00:00".
Proof.
  intros Hs. unfold store_text. rewrite endswith_same.
  apply (replace_trailing "+" "00" "+00:00" s Hs).
Qed.

(** *** Parsing a marked timestamp *)

Lemma split_tz_unsigned (t a : string) :
  split_tz t = (a, None) ->
  a = t /\ forall z, split_tz (t ++ String "+" z) = (t, Some (false, z)).
Proof.
  revert a. induction t as [|c t IH]; intros a H; cbn in H.
  - inversion H. split; reflexivity.
  - destruct (Ascii.eqb c "+") eqn:Ep; [discriminate|].
    destruct (Ascii.eqb c "-") eqn:Em; [discriminate|].
    destruct (split_tz t) as [a' r] eqn:Et. inversion H; subst.
    destruct (IH a' eq_refl) as [-> IH']. split; [reflexivity|].
    intros z. cbn. now rewrite Ep, Em, IH'.
Qed.

Lemma parse_time_marked (t : string) (tod : Z) :
  parse_time t = Some (tod, None) ->
  parse_time (t ++ "+00:00") = Some (tod, Some 0).
Proof.
  unfold parse_time. destruct (split_tz t) as [a r] eqn:Et.
  destruct r as [[neg z]|].
  - destruct (parse_hh_mm_ss_ff a) as [[[[hh mm] ss] us]|]; [|discriminate].
    destruct (negb _); [discriminate|].
    destruct (parse_tz neg z); discriminate.
  - destruct (split_tz_unsigned t a Et) as [-> Hz].
    change (t ++ "+00:00") with (t ++ String "+" "00:00"). rewrite Hz.
    destruct (parse_hh_mm_ss_ff t) as [[[[hh mm] ss] us]|]; [|discriminate].
    destruct (negb _); [discriminate|].
    intros H. inversion H. reflexivity.
Qed.

Lemma fromisoformat_marked (s : string) (w : Z) :
  fromisoformat s = Some (mkdt w None) ->
  (10 < String.length s)%nat ->
  fromisoformat (s ++ "+00:00") = Some (mkdt w (Some 0)).
Proof.
  intros H Hlen.
  do 10 (destruct s as [|? s]; [discriminate H|]).
  destruct s as [|sep t]; [cbn in Hlen; lia|].
  cbn [append]. unfold fromisoformat in *.
  destruct (parse_date _ _ _ _ _ _ _ _ _ _) as [ord|]; [|discriminate].
  destruct (parse_time t) as [[tod tz]|] eqn:Et; [|discriminate].
  inversion H; subst. now rewrite (parse_time_marked t tod Et).
Qed.

Lemma fromisoformat_nonempty (s : string) (dt : datetime) :
  fromisoformat s = Some dt -> s <> "".
Proof. intros H ->. discriminate. Qed.

(** *** The timestamp normaliser *)

Section Normaliser.

Variable value : Type.
Variable CYPRUS_TZ : tzinfo.

Lemma latest_datetime_aware (s : string) (ts : datetime) :
  latest_datetime CYPRUS_TZ s = Some ts ->
  s <> "" /\ tzoff ts = Some (offset_at_wall CYPRUS_TZ (wall ts)).
Proof.
  unfold latest_datetime. intros H. split.
  - intros ->. discriminate H.
  - destruct (fromisoformat (strip_marker s)) as [naive|]; [|discriminate].
    unfold localize in H. destruct (tzoff naive); [discriminate|].
    inversion H. reflexivity.
Qed.

Lemma truthy_nonempty (s : string) : s <> "" -> truthy (Some s) = true.
Proof. intros H. cbn. apply String.eqb_neq in H. now rewrite H. Qed.

Lemma corrected_age_eq (clock : Z) (s : string) (ts : datetime) :
  latest_datetime CYPRUS_TZ s = Some ts ->
  corrected_age CYPRUS_TZ clock s = Some (clock - key ts).
Proof.
  intros H. unfold corrected_age. rewrite H.
  destruct (latest_datetime_aware s ts H) as [_ Hoff].
  unfold diff, key, now. cbn. rewrite Hoff. f_equal. lia.
Qed.

(** [format_timestamp] renders the delta between now and the instant it
    assigns to the text; every failure on the way renders as Unknown. *)
Lemma format_timestamp_relative (clock : Z) (s : string) (ts : datetime) :
  latest_datetime CYPRUS_TZ s = Some ts ->
  format_timestamp CYPRUS_TZ clock (Some s) = relative_time (clock - key ts).
Proof.
  intros H. pose proof (corrected_age_eq clock s ts H) as Hage.
  destruct (latest_datetime_aware s ts H) as [Hne _].
  unfold format_timestamp. rewrite (truthy_nonempty s Hne). cbn [negb].
  unfold corrected_age in Hage. rewrite H in *. now rewrite Hage.
Qed.

Lemma format_timestamp_unknown (clock : Z) (s : string) :
  latest_datetime CYPRUS_TZ s = None ->
  format_timestamp CYPRUS_TZ clock (Some s) = "Unknown".
Proof.
  intros H. unfold format_timestamp. rewrite H. now destruct (negb _).
Qed.

(** C4.  A raw text made of a naive ISO date-time [s] followed by the
    zero-offset marker [+00:00] or [+00]: [format_timestamp] strips the
    marker and attaches the zone's offset to the wall-clock value
    unchanged, the historical fetch keeps the wall-clock value with
    offset zero, so the instant of the historical entry is later than the
    one of the latest-readings path by exactly the zone's offset, and
    the two differ whenever that offset is not zero. *)
Theorem marker_read_two_ways (s marker : string) (w : Z) :
  fromisoformat s = Some (mkdt w None) ->
  (10 < String.length s)%nat ->
  occursb "+" s = false ->
  marker = "+00:00" \/ marker = "+00" ->
  let off := offset_at_wall CYPRUS_TZ w in
  let latest := mkdt w (Some off) in
  let historical := mkdt w (Some 0) in
  strip_marker (s ++ marker) = s
  /\ latest_datetime CYPRUS_TZ (s ++ marker) = Some latest
  /\ (forall (r : reading value) (v : value),
        r_timestamp r = s ++ marker ->
        entry_of value r (Some v) = Some [mkentry (r_device_name r) historical v])
  /\ instant latest = Some (w - off)
  /\ instant historical = Some w
  /\ key historical - key latest = off
  /\ (off <> 0 -> instant historical <> instant latest).
Proof.
  intros Hs Hlen Hplus Hm off latest historical.
  assert (Hstrip : strip_marker (s ++ marker) = s).
  { destruct Hm as [-> | ->];
      [now apply strip_marker_long | now apply strip_marker_short]. }
  assert (Htext : store_text (s ++ marker) = s ++ "+00:00").
  { destruct Hm as [-> | ->];
      [apply store_text_long | now apply store_text_short]. }
  split; [exact Hstrip|]. split.
  { unfold latest_datetime. rewrite Hstrip, Hs. reflexivity. }
  split.
  { intros r v Hr. unfold entry_of. rewrite Hr, Htext.
    now rewrite (fromisoformat_marked s w Hs Hlen). }
  split; [reflexivity|]. split; [cbn; f_equal; lia|].
  split; [cbn; lia|].
  intros Hoff. cbn. intros E. inversion E. lia.
Qed.

(** The buckets of [relative_time]. *)
Lemma relative_time_buckets (d : Z) :
  (0 <= d < 60 * US_PER_SECOND -> relative_time d = "Just now")
  /\ (60 * US_PER_SECOND <= d < 3600 * US_PER_SECOND ->
      relative_time d = str_int (d / (60 * US_PER_SECOND)) ++ " min ago")
  /\ (3600 * US_PER_SECOND <= d < 86400 * US_PER_SECOND ->
      relative_time d = str_int (d / (3600 * US_PER_SECOND)) ++ " hr ago")
  /\ (86400 * US_PER_SECOND <= d ->
      relative_time d = str_int (d / (86400 * US_PER_SECOND)) ++ " days ago")
  /\ (- (60 * US_PER_SECOND) < d < 0 -> relative_time d = "Just now")
  /\ (- (3600 * US_PER_SECOND) < d <= - (60 * US_PER_SECOND) ->
      relative_time d = str_int (- d / (60 * US_PER_SECOND)) ++ " min from now")
  /\ (d <= - (3600 * US_PER_SECOND) ->
      relative_time d = str_int (- d / (3600 * US_PER_SECOND)) ++ " hr from now").
Proof.
  unfold relative_time, US_PER_SECOND.
  repeat split; intros H;
    repeat match goal with
    | |- context [?a <? ?b] => destruct (Z.ltb_spec a b); try lia
    end;
    try reflexivity;
    try (replace (Z.abs d) with (- d) in * by lia; try reflexivity; lia).
Qed.

(** C5 (as the code behaves).  With [d] the delta between now and the
    instant [format_timestamp] assigns to the text: a past delta is
    rendered Just now below 60 seconds, N min ago below one hour, N hr
    ago below 24 hours and N days ago from 24 hours on; a future delta
    is rendered Just now below 60 seconds, N min from now below one hour
    and N hr from now from one hour on, with no days-scale bucket. *)
Theorem format_timestamp_buckets (clock : Z) (s : string) (ts : datetime) :
  latest_datetime CYPRUS_TZ s = Some ts ->
  let d := clock - key ts in
  let text := format_timestamp CYPRUS_TZ clock (Some s) in
  corrected_age CYPRUS_TZ clock s = Some d
  /\ (0 <= d < 60 * US_PER_SECOND -> text = "Just now")
  /\ (60 * US_PER_SECOND <= d < 3600 * US_PER_SECOND ->
      text = str_int (d / (60 * US_PER_SECOND)) ++ " min ago")
  /\ (3600 * US_PER_SECOND <= d < 86400 * US_PER_SECOND ->
      text = str_int (d / (3600 * US_PER_SECOND)) ++ " hr ago")
  /\ (86400 * US_PER_SECOND <= d ->
      text = str_int (d / (86400 * US_PER_SECOND)) ++ " days ago")
  /\ (- (60 * US_PER_SECOND) < d < 0 -> text = "Just now")
  /\ (- (3600 * US_PER_SECOND) < d <= - (60 * US_PER_SECOND) ->
      text = str_int (- d / (60 * US_PER_SECOND)) ++ " min from now")
  /\ (d <= - (3600 * US_PER_SECOND) ->
      text = str_int (- d / (3600 * US_PER_SECOND)) ++ " hr from now").
Proof.
  intros H d text. split; [now apply corrected_age_eq|].
  unfold text. rewrite (format_timestamp_relative clock s ts H).
  apply relative_time_buckets.
Qed.

End Normaliser.

Lemma marker_read_two_ways_witness :
  latest_datetime Sample.EET "2024-01-01T10:00:00+00"
    = Some (mkdt 63839786400000000 (Some (timedelta_hours 2)))
  /\ entry_of Z (mkreading "A" "2024-01-01T10:00:00+00" (Some 21) None) (Some 21)
    = Some [mkentry "A" (mkdt 63839786400000000 (Some 0)) 21].
Proof.
  destruct (marker_read_two_ways Z Sample.EET "2024-01-01T10:00:00" "+00"
              63839786400000000)
    as (_ & H1 & H2 & _);
    [reflexivity | cbn; lia | reflexivity | right; reflexivity |].
  split; [exact H1|].
  apply (H2 (mkreading "A" "2024-01-01T10:00:00+00" (Some 21) None) 21).
  reflexivity.
Defined.

Lemma format_timestamp_buckets_witness :
  format_timestamp Sample.EET Sample.noon (Some "2024-01-01T10:00:00+00:00")
  = str_int (timedelta_hours 2 / (3600 * US_PER_SECOND)) ++ " hr ago".
Proof.
  destruct (format_timestamp_buckets Sample.EET Sample.noon
              "2024-01-01T10:00:00+00:00"
              (mkdt 63839786400000000 (Some (timedelta_hours 2))) eq_refl)
    as (_ & _ & _ & H & _).
  apply H. split; vm_compute; [discriminate | reflexivity].
Defined.

(** C5, counterexample.  An instant 48 hours ahead of now is rendered
    in hours; the symmetric days-scale bucket would render
    it in days. *)
Lemma format_timestamp_no_future_days :
  corrected_age Sample.EET Sample.noon "2024-01-03T12:00:00+00"
    = Some (- timedelta_hours 48)
  /\ format_timestamp Sample.EET Sample.noon (Some "2024-01-03T12:00:00+00")
    = "48 hr from now"
  /\ relative_time_symmetric (- timedelta_hours 48) = "2 days from now"
  /\ format_timestamp Sample.EET Sample.noon (Some "2024-01-03T12:00:00+00")
    <> relative_time_symmetric (- timedelta_hours 48).
Proof.
  vm_compute. repeat split. discriminate.
Qed.

(** *** Staleness *)

Section Staleness.

Variable CYPRUS_TZ : tzinfo.

Lemma diff_now (clock x : Z) :
  diff (now CYPRUS_TZ clock) (now CYPRUS_TZ x) = Some (clock - x).
Proof. unfold diff, now. cbn. f_equal. lia. Qed.

Lemma stale_datetime_parsed (s : string) (t : datetime) :
  fromisoformat (store_text s) = Some t ->
  stale_datetime CYPRUS_TZ s = Some (now CYPRUS_TZ (wall t - offset_or_utc t)).
Proof.
  intros H. unfold stale_datetime, offset_or_utc. rewrite H.
  destruct (tzoff t) as [off|] eqn:Ht.
  - destruct (Z.eqb_spec off 0) as [->|Hne].
    + reflexivity.
    + unfold astimezone. now rewrite Ht.
  - reflexivity.
Qed.

Lemma stale_age_parsed (clock : Z) (s : string) (t : datetime) :
  fromisoformat (store_text s) = Some t ->
  stale_age CYPRUS_TZ clock s = Some (clock - (wall t - offset_or_utc t)).
Proof.
  intros H. unfold stale_age. rewrite (stale_datetime_parsed s t H).
  apply diff_now.
Qed.

(** On a text with a zero-offset marker the age [is_data_stale] works
    with is smaller than the normaliser's corrected age by the zone's
    offset. *)
Lemma stale_age_lags_corrected_age (clock : Z) (s marker : string) (w : Z) :
  fromisoformat s = Some (mkdt w None) ->
  (10 < String.length s)%nat ->
  occursb "+" s = false ->
  marker = "+00:00" \/ marker = "+00" ->
  stale_age CYPRUS_TZ clock (s ++ marker) = Some (clock - w)
  /\ corrected_age CYPRUS_TZ clock (s ++ marker)
     = Some (clock - w + offset_at_wall CYPRUS_TZ w).
Proof.
  intros Hs Hlen Hplus Hm. split.
  - assert (Htext : store_text (s ++ marker) = s ++ "+00:00").
    { destruct Hm as [-> | ->];
        [apply store_text_long | now apply store_text_short]. }
    rewrite (stale_age_parsed clock (s ++ marker) (mkdt w (Some 0))).
    + cbn. f_equal. lia.
    + rewrite Htext. now apply fromisoformat_marked.
  - assert (Hstrip : strip_marker (s ++ marker) = s).
    { destruct Hm as [-> | ->];
        [now apply strip_marker_long | now apply strip_marker_short]. }
    rewrite (corrected_age_eq CYPRUS_TZ clock (s ++ marker)
               (mkdt w (Some (offset_at_wall CYPRUS_TZ w)))).
    + cbn. f_equal. lia.
    + unfold latest_datetime. now rewrite Hstrip, Hs.
Qed.


(** What [is_data_stale] computes.  It answers true for a missing or
    empty text and for one that does not parse.  For a text that parses,
    its age is measured from the instant the text denotes with its
    offset taken at face value (UTC when the offset is zero or absent);
    the answer is true exactly when that age strictly exceeds the
    threshold, so an age equal to the threshold is not stale. *)
Theorem is_data_stale_threshold (clock : Z) (timestamp_str : option string) (hours : Z) :
  (timestamp_str = None \/ timestamp_str = Some "" ->
   is_data_stale CYPRUS_TZ clock timestamp_str hours = true)
  /\ (forall s, timestamp_str = Some s ->
      fromisoformat (store_text s) = None ->
      is_data_stale CYPRUS_TZ clock timestamp_str hours = true)
  /\ (forall s t, timestamp_str = Some s ->
      fromisoformat (store_text s) = Some t ->
      let age := clock - (wall t - offset_or_utc t) in
      stale_age CYPRUS_TZ clock s = Some age
      /\ (is_data_stale CYPRUS_TZ clock timestamp_str hours = true
          <-> timedelta_hours hours < age)
      /\ (age = timedelta_hours hours ->
          is_data_stale CYPRUS_TZ clock timestamp_str hours = false)).
Proof.
  split; [|split].
  - intros [-> | ->]; reflexivity.
  - intros s -> H. unfold is_data_stale, stale_datetime. rewrite H.
    now destruct (negb _).
  - intros s t -> H age.
    pose proof (stale_age_parsed clock s t H) as Hage. fold age in Hage.
    assert (Hne : s <> "") by (intros ->; discriminate H).
    assert (E : is_data_stale CYPRUS_TZ clock (Some s) hours
                = (timedelta_hours hours <? age)).
    { unfold is_data_stale. rewrite (truthy_nonempty s Hne). cbn [negb].
      unfold stale_age in Hage.
      destruct (stale_datetime CYPRUS_TZ s) as [ts|]; [|discriminate].
      rewrite Hage. reflexivity. }
    split; [exact Hage|]. rewrite E. split.
    + apply Z.ltb_lt.
    + intros ->. apply Z.ltb_irrefl.
Qed.

End Staleness.

Lemma is_data_stale_threshold_witness :
  is_data_stale Sample.EET Sample.noon (Some "2024-01-01T05:59:59+00") 4 = true.
Proof.
  destruct (is_data_stale_threshold Sample.EET Sample.noon
              (Some "2024-01-01T05:59:59+00") 4) as (_ & _ & H).
  destruct (H "2024-01-01T05:59:59+00" (mkdt 63839771999000000 (Some 0))
              eq_refl eq_refl) as (_ & Hiff & _).
  apply Hiff. vm_compute. reflexivity.
Defined.

(** C3.  The staleness check does not use the corrected age.  The
    docstring of [format_timestamp] has the stored texts as local time
    under a wrong zero-offset marker, and [format_timestamp] reads them
    so; [is_data_stale], called on the same text for the same card,
    reads the marker as UTC.  At 12:00 local time the text 07:00:00+00
    has a corrected age of five hours, which the card shows as 5 hr ago
    and which strictly exceeds the four-hour threshold; [is_data_stale]
    still answers false. *)
Lemma is_data_stale_ignores_correction :
  corrected_age Sample.EET Sample.noon "2024-01-01T07:00:00+00"
    = Some (timedelta_hours 5)
  /\ timedelta_hours 4 < timedelta_hours 5
  /\ format_timestamp Sample.EET Sample.noon (Some "2024-01-01T07:00:00+00")
    = "5 hr ago"
  /\ is_data_stale Sample.EET Sample.noon (Some "2024-01-01T07:00:00+00") 4
    = false.
Proof.
  vm_compute. repeat split.
Qed.

(** *** Monotonicity of the relative-time bucket *)

Section Monotone.

Variable CYPRUS_TZ : tzinfo.

Lemma bucket_rank_min_ago (p : string) : bucket_rank (p ++ " min ago") = Some 1%nat.
Proof. unfold bucket_rank. rewrite !endswith_app. reflexivity. Qed.

Lemma bucket_rank_hr_ago (p : string) : bucket_rank (p ++ " hr ago") = Some 2%nat.
Proof. unfold bucket_rank. rewrite !endswith_app. reflexivity. Qed.

Lemma bucket_rank_days_ago (p : string) : bucket_rank (p ++ " days ago") = Some 3%nat.
Proof. unfold bucket_rank. rewrite !endswith_app. reflexivity. Qed.

Lemma bucket_rank_min_from_now (p : string) :
  bucket_rank (p ++ " min from now") = Some 1%nat.
Proof. unfold bucket_rank. rewrite !endswith_app. reflexivity. Qed.

Lemma bucket_rank_hr_from_now (p : string) :
  bucket_rank (p ++ " hr from now") = Some 2%nat.
Proof. unfold bucket_rank. rewrite !endswith_app. reflexivity. Qed.

Lemma bucket_rank_relative_time (d : Z) :
  bucket_rank (relative_time d) = Some (bucket_of d).
Proof.
  unfold relative_time, bucket_of, US_PER_SECOND.
  repeat match goal with
  | |- context [?a <? ?b] => destruct (Z.ltb_spec a b); try lia
  end;
  first [ reflexivity | apply bucket_rank_min_ago | apply bucket_rank_hr_ago
        | apply bucket_rank_days_ago | apply bucket_rank_min_from_now
        | apply bucket_rank_hr_from_now ].
Qed.

Lemma bucket_of_monotone (d1 d2 : Z) :
  - (60 * US_PER_SECOND) < d1 -> d1 <= d2 ->
  (bucket_of d1 <= bucket_of d2)%nat.
Proof.
  unfold bucket_of, US_PER_SECOND. intros H1 H2.
  repeat match goal with
  | |- context [?a <? ?b] => destruct (Z.ltb_spec a b); try lia
  end.
Qed.

(** C6 (as the code behaves).  For a fixed text and two readings of the
    clock, the second not earlier than the first: if at the first
    reading the instant assigned to the text is less than 60 seconds
    ahead (in particular if it is in the past), the bucket at the second
    reading is not smaller than the bucket at the first.  A text that
    renders as Unknown does so at both readings. *)
Theorem format_timestamp_monotone (clock1 clock2 : Z) (timestamp_str : option string) :
  clock1 <= clock2 ->
  (forall s ts, timestamp_str = Some s ->
     latest_datetime CYPRUS_TZ s = Some ts ->
     key ts < clock1 + 60 * US_PER_SECOND) ->
  bucket_le (format_timestamp CYPRUS_TZ clock1 timestamp_str)
            (format_timestamp CYPRUS_TZ clock2 timestamp_str).
Proof.
  intros Hle Hfut. destruct timestamp_str as [s|]; [|exact I].
  destruct (latest_datetime CYPRUS_TZ s) as [ts|] eqn:Hts.
  - rewrite !(format_timestamp_relative CYPRUS_TZ _ s ts Hts).
    unfold bucket_le. rewrite !bucket_rank_relative_time.
    specialize (Hfut s ts eq_refl Hts).
    apply bucket_of_monotone; lia.
  - rewrite !(format_timestamp_unknown CYPRUS_TZ _ s Hts). exact I.
Qed.

End Monotone.

Lemma format_timestamp_monotone_witness :
  bucket_le
    (format_timestamp Sample.EET Sample.noon (Some "2024-01-01T11:30:00+00"))
    (format_timestamp Sample.EET (Sample.noon + timedelta_hours 30)
       (Some "2024-01-01T11:30:00+00")).
Proof.
  apply (format_timestamp_monotone Sample.EET Sample.noon
           (Sample.noon + timedelta_hours 30) (Some "2024-01-01T11:30:00+00")).
  - vm_compute. discriminate.
  - intros s ts Hs Hts. inversion Hs; subst s.
    vm_compute in Hts. inversion Hts; subst ts. vm_compute. reflexivity.
Defined.

(** C6, counterexample.  The text names an instant two hours ahead of
    the first clock reading and thirty minutes ahead of the second,
    later one: the bucket drops from hr to min. *)
Lemma format_timestamp_bucket_drops :
  Sample.noon <= Sample.noon + timedelta_hours 1 + 1800 * US_PER_SECOND
  /\ format_timestamp Sample.EET Sample.noon (Some "2024-01-01T14:00:00+00")
     = "2 hr from now"
  /\ format_timestamp Sample.EET
       (Sample.noon + timedelta_hours 1 + 1800 * US_PER_SECOND)
       (Some "2024-01-01T14:00:00+00")
     = "30 min from now"
  /\ ~ bucket_le
         (format_timestamp Sample.EET Sample.noon (Some "2024-01-01T14:00:00+00"))
         (format_timestamp Sample.EET
            (Sample.noon + timedelta_hours 1 + 1800 * US_PER_SECOND)
            (Some "2024-01-01T14:00:00+00")).
Proof.
  split; [vm_compute; discriminate|].
  split; [vm_compute; reflexivity|].
  split; [vm_compute; reflexivity|].
  vm_compute. lia.
Qed.

(** *** Ordering *)

Lemma insert_by_perm {A} (k : A -> Z) (x : A) (l : list A) :
  Permutation (insert_by k x l) (x :: l).
Proof.
  induction l as [|y l IH]; cbn; [apply Permutation_refl|].
  destruct (k y <? k x); [|apply Permutation_refl].
  eapply perm_trans; [apply perm_skip, IH|apply perm_swap].
Qed.

Lemma order_by_perm {A} (k : A -> Z) (l : list A) :
  Permutation (order_by k l) l.
Proof.
  induction l as [|x l IH]; cbn; [constructor|].
  eapply perm_trans; [apply insert_by_perm|now apply perm_skip].
Qed.

Lemma insert_by_ascending {A} (k : A -> Z) (x : A) (l : list A) :
  ascending k l -> ascending k (insert_by k x l).
Proof.
  unfold ascending. induction l as [|y l IH]; intros Hl; cbn.
  - constructor; constructor.
  - apply StronglySorted_inv in Hl. destruct Hl as [Hs Hy].
    destruct (Z.ltb_spec (k y) (k x)) as [Hlt|Hge].
    + constructor; [now apply IH|].
      eapply Permutation_Forall; [apply Permutation_sym, insert_by_perm|].
      constructor; [lia|exact Hy].
    + constructor; [now constructor|].
      constructor; [exact Hge|].
      eapply Forall_impl; [|exact Hy]. cbn. intros z Hz. lia.
Qed.

Lemma order_by_ascending {A} (k : A -> Z) (l : list A) :
  ascending k (order_by k l).
Proof.
  induction l as [|x l IH]; cbn; [constructor|now apply insert_by_ascending].
Qed.

(** *** The historical fetch *)

Section Historical.

Variable value : Type.

Lemma window_filter (since until : datetime) (rows : list (stored value)) :
  lte value until (gte value since rows) = filter (in_window since until) rows.
Proof.
  unfold lte, gte, in_window. induction rows as [|r rows IH]; [reflexivity|].
  cbn [filter]. destruct (key since <=? held_instant r); cbn [filter andb];
    [|exact IH].
  destruct (held_instant r <=? key until); now rewrite IH.
Qed.

Lemma in_window_iff (since until : datetime) (r : stored value) :
  in_window since until r = true
  <-> key since <= held_instant r <= key until.
Proof.
  unfold in_window. rewrite andb_true_iff, !Z.leb_le. tauto.
Qed.

Lemma instant_key (ts : datetime) (i : Z) : instant ts = Some i -> key ts = i.
Proof.
  unfold instant, key. destruct (tzoff ts); [|discriminate].
  now intros [= <-].
Qed.

Lemma in_entries_of (pick : reading value -> option value)
    (rows : list (reading value)) (e : entry value) :
  In e (entries_of pick rows)
  <-> exists r ts,
        In r rows /\ pick r = Some (measurement e)
        /\ fromisoformat (store_text (r_timestamp r)) = Some ts
        /\ e = mkentry (r_device_name r) ts (measurement e).
Proof.
  unfold entries_of. rewrite in_flat_map. split.
  - intros (r & Hr & He). exists r.
    destruct (pick r) as [v|]; [|contradiction].
    destruct (fromisoformat (store_text (r_timestamp r))) as [ts|];
      [|contradiction].
    destruct He as [<-|[]]. exists ts. cbn. auto.
  - intros (r & ts & Hr & Hp & Hts & He). exists r. split; [exact Hr|].
    rewrite Hp, Hts. left. now rewrite He.
Qed.

(** The grouping pass succeeds when [fromisoformat] reads the text of
    every row that carries a measurement, and yields the two series of
    [entries_of]. *)
Lemma group_rows_entries (rows : list (reading value)) :
  Forall (fun r => measured r -> readable r) rows ->
  group_rows value rows
  = Some (entries_of r_temperature rows, entries_of r_humidity rows).
Proof.
  induction 1 as [|r rows Hr _ IH]; [reflexivity|].
  cbn [group_rows]. rewrite IH. unfold entry_of, entries_of. cbn [flat_map].
  unfold measured, readable in Hr.
  destruct (fromisoformat (store_text (r_timestamp r))) as [ts|].
  - destruct (r_temperature r), (r_humidity r); reflexivity.
  - destruct (r_temperature r) as [t|].
    + exfalso. apply Hr; [left; discriminate|reflexivity].
    + destruct (r_humidity r) as [h|]; [|reflexivity].
      exfalso. apply Hr; [right; discriminate|reflexivity].
Qed.

Lemma group_rows_cons (r : reading value) (rows : list (reading value)) :
  group_rows value (r :: rows) = None
  <-> (measured r /\ ~ readable r) \/ group_rows value rows = None.
Proof.
  cbn [group_rows]. unfold entry_of, measured, readable.
  destruct (fromisoformat (store_text (r_timestamp r))) as [ts|];
    destruct (r_temperature r) as [t|], (r_humidity r) as [h|];
    destruct (group_rows value rows) as [[td hd]|];
    (split; [intros H; try discriminate H; try (now right);
             try (left; split; [(now left) || (now right)|tauto])
            |intros [[[H|H] Hn]|H]; try reflexivity; try discriminate H;
             try (now elim H); try (exfalso; apply Hn; discriminate)]).
Qed.

(** It raises exactly when some row carries a measurement under a text
    that [fromisoformat] rejects. *)
Lemma group_rows_raises (rows : list (reading value)) :
  group_rows value rows = None
  <-> exists r, In r rows /\ measured r /\ ~ readable r.
Proof.
  induction rows as [|r rows IH].
  - split; [discriminate|]. intros (r & [] & _).
  - rewrite group_rows_cons, IH. split.
    + intros [[Hm Hn]|(r0 & Hin & Hm & Hn)].
      * exists r. split; [now left|auto].
      * exists r0. split; [now right|auto].
    + intros (r0 & [<-|Hin] & Hm & Hn); [left; auto|right; eauto].
Qed.

Lemma entries_of_ascending (pick : reading value -> option value)
    (rows : list (stored value)) :
  Forall rendered rows ->
  ascending (row_key value) rows ->
  ascending (fun e => key (timestamp e))
            (entries_of pick (map response_row rows)).
Proof.
  unfold ascending. intros Hall Hs.
  induction Hs as [|r rows Hs IH Hr]; [constructor|].
  apply Forall_cons_iff in Hall. destruct Hall as [Hri Hall].
  specialize (IH Hall).
  assert (Hkeys : forall r' ts, In r' (r :: rows) ->
            fromisoformat (store_text (r_timestamp (response_row r'))) = Some ts ->
            key ts = row_key value r').
  { intros r' ts Hin Hts.
    assert (Hi : rendered r').
    { destruct Hin as [<-|Hin]; [exact Hri|].
      now apply (proj1 (Forall_forall _ _) Hall). }
    unfold rendered, store_instant in Hi. rewrite Hts in Hi.
    now apply instant_key. }
  cbn [map].
  change (entries_of pick (response_row r :: map response_row rows))
    with ((match pick (response_row r),
                 fromisoformat (store_text (r_timestamp (response_row r))) with
           | Some v, Some ts => [mkentry (r_device_name (response_row r)) ts v]
           | _, _ => []
           end) ++ entries_of pick (map response_row rows))%list.
  destruct (pick (response_row r)) as [v|]; [|exact IH].
  destruct (fromisoformat (store_text (r_timestamp (response_row r))))
    as [ts|] eqn:Hts; [|exact IH].
  cbn [app]. constructor; [exact IH|].
  apply Forall_forall. intros e He. cbn [timestamp].
  apply in_entries_of in He. destruct He as (r0 & ts' & Hin & _ & Hts' & ->).
  apply in_map_iff in Hin. destruct Hin as (r' & <- & Hin).
  cbn [timestamp].
  rewrite (Hkeys r ts (or_introl eq_refl) Hts).
  rewrite (Hkeys r' ts' (or_intror Hin) Hts').
  now apply (proj1 (Forall_forall _ _) Hr).
Qed.

(** The store-backed fetch, when the store answers: the grouping pass
    over the rows of the window, in timestamp order. *)
Lemma fetch_between_reachable (c : client value) (since until : datetime) :
  readings_unreachable c = false ->
  fetch_between value c since until
  = try (temp_data, humidity_data) <-
      group_rows value
        (map response_row
           (order_by (row_key value)
              (filter (in_window since until) (sensor_readings c)))) in
    Some (mkhistory temp_data humidity_data).
Proof.
  intros Hup. unfold fetch_between, historical_query, execute.
  now rewrite Hup, window_filter.
Qed.

Lemma fetch_between_unreachable (c : client value) (since until : datetime) :
  readings_unreachable c = true -> fetch_between value c since until = None.
Proof.
  intros Hup. unfold fetch_between, historical_query, execute. now rewrite Hup.
Qed.

(** C2 (as the code behaves).  When the store answers, the historical
    fetch for a window works on the rows whose timestamp lies in the
    closed interval from [since] to [until], a timestamp equal to
    [until] included, in ascending timestamp order.  If [fromisoformat]
    reads the text of every such row that carries a measurement, the
    fetch returns the temperature series, one entry per row carrying a
    temperature, and the humidity series, one per row carrying a
    humidity, in that order; if it rejects one, the fetch returns the
    empty dict.  Where the texts denote the instants the store holds,
    both series are in ascending order of their own timestamps. *)
Theorem fetch_between_closed_window (c : client value) (since until : datetime) :
  readings_unreachable c = false ->
  exists rows,
    Permutation rows (filter (in_window since until) (sensor_readings c))
    /\ ascending held_instant rows
    /\ (forall r, In r rows
          <-> In r (sensor_readings c)
              /\ key since <= held_instant r <= key until)
    /\ ((forall r, In r rows ->
           measured (response_row r) -> readable (response_row r)) ->
        fetch_between value c since until
        = Some (mkhistory (entries_of r_temperature (map response_row rows))
                          (entries_of r_humidity (map response_row rows))))
    /\ ((exists r, In r rows /\ measured (response_row r)
                   /\ ~ readable (response_row r)) ->
        fetch_between value c since until = None)
    /\ (forall pick e,
          In e (entries_of pick (map response_row rows))
          <-> exists r ts,
                In r (sensor_readings c)
                /\ key since <= held_instant r <= key until
                /\ pick (response_row r) = Some (measurement e)
                /\ fromisoformat (store_text (r_timestamp (response_row r)))
                   = Some ts
                /\ e = mkentry (r_device_name (response_row r)) ts (measurement e))
    /\ ((forall r, In r rows -> rendered r) ->
        ascending (fun e => key (timestamp e))
                  (entries_of r_temperature (map response_row rows))
        /\ ascending (fun e => key (timestamp e))
                     (entries_of r_humidity (map response_row rows))).
Proof.
  intros Hup.
  set (rows := order_by (row_key value)
                 (filter (in_window since until) (sensor_readings c))).
  assert (Hperm : Permutation rows
                    (filter (in_window since until) (sensor_readings c)))
    by apply order_by_perm.
  assert (Hsorted : ascending held_instant rows) by apply order_by_ascending.
  assert (Hmem : forall r, In r rows
            <-> In r (sensor_readings c)
                /\ key since <= held_instant r <= key until).
  { intros r. rewrite <- in_window_iff, <- filter_In. split.
    - apply (Permutation_in _ Hperm).
    - apply (Permutation_in _ (Permutation_sym Hperm)). }
  exists rows. split; [exact Hperm|]. split; [exact Hsorted|].
  split; [exact Hmem|].
  rewrite (fetch_between_reachable c since until Hup). fold rows.
  split; [|split; [|split]].
  - intros Hread. rewrite group_rows_entries; [reflexivity|].
    apply Forall_forall. intros r0 Hr0. apply in_map_iff in Hr0.
    destruct Hr0 as (r & <- & Hr). now apply Hread.
  - intros (r & Hr & Hm & Hn).
    replace (group_rows value (map response_row rows)) with
      (@None (list (entry value) * list (entry value))); [reflexivity|].
    symmetry. apply group_rows_raises. exists (response_row r).
    split; [now apply in_map|auto].
  - intros pick e. rewrite in_entries_of. split.
    + intros (r0 & ts & Hr0 & Hp & Hts & He).
      apply in_map_iff in Hr0. destruct Hr0 as (r & <- & Hr).
      apply Hmem in Hr. destruct Hr as [Hin Hb]. exists r, ts. auto.
    + intros (r & ts & Hin & Hb & Hp & Hts & He).
      exists (response_row r), ts. split; [|auto].
      apply in_map, Hmem. auto.
  - intros Hren.
    assert (Hall : Forall rendered rows) by (now apply Forall_forall).
    split; now apply entries_of_ascending.
Qed.

End Historical.

Lemma fetch_between_closed_window_witness :
  exists rows,
    Permutation rows
      (filter (in_window (sub_td (now Sample.EET Sample.noon) (timedelta_hours 24))
                         (now Sample.EET Sample.noon))
              (sensor_readings Sample.store))
    /\ fetch_between Z Sample.store
         (sub_td (now Sample.EET Sample.noon) (timedelta_hours 24))
         (now Sample.EET Sample.noon)
       = Some (mkhistory (entries_of r_temperature (map response_row rows))
                         (entries_of r_humidity (map response_row rows))).
Proof.
  destruct (fetch_between_closed_window Z Sample.store
              (sub_td (now Sample.EET Sample.noon) (timedelta_hours 24))
              (now Sample.EET Sample.noon) eq_refl)
    as (rows & Hperm & _ & Hmem & Hok & _).
  exists rows. split; [exact Hperm|]. apply Hok.
  intros r Hr _. apply Hmem in Hr. destruct Hr as [Hin _].
  cbn in Hin. destruct Hin as [<-|[<-|[<-|[<-|[]]]]];
    vm_compute; discriminate.
Defined.

(** C2, counterexample.  The clock reads 10:00:00 UTC, so the 24h
    window ends at that instant; the row stamped 10:00:00+00:00 is in the
    answer although its timestamp equals [until]. *)
Lemma fetch_includes_until :
  let until := now Sample.EET Sample.noon in
  let e := mkentry "A" (mkdt 63839786400000000 (Some 0)) 21 in
  query_window Sample.EET Sample.noon "24h" None None
    = Some (sub_td until (timedelta_hours 24), until)
  /\ (exists h,
        fetch_historical_data Z (fun z => z) Sample.EET Sample.connected
          Sample.noon "24h" None None = Some h
        /\ In e (temperature_history h))
  /\ key (timestamp e) = key until
  /\ ~ key (timestamp e) < key until.
Proof.
  cbv zeta. split; [reflexivity|]. split.
  - eexists. split; [vm_compute; reflexivity|]. cbn. auto.
  - split; [reflexivity|]. vm_compute. discriminate.
Qed.

(** A row of the window whose text has five fractional digits: the
    fetch returns the empty dict, losing the other rows with it. *)
Lemma fetch_rejects_trimmed_fraction :
  fromisoformat "2024-01-01T09:00:00.12345+00:00" = None
  /\ fetch_between Z Sample.trimmed
       (sub_td (now Sample.EET Sample.noon) (timedelta_hours 24))
       (now Sample.EET Sample.noon) = None.
Proof. split; vm_compute; reflexivity. Qed.

(** *** Calendar fields and [strftime] *)

Lemma below_forall (P : Z -> bool) (n : Z) :
  forallb P (below n) = true ->
  forall z, 0 <= z < n -> P z = true.
Proof.
  intros H z Hz. rewrite forallb_forall in H. apply H.
  unfold below. apply in_map_iff. exists (Z.to_nat z).
  split; [lia|]. apply in_seq. lia.
Qed.

Lemma digit_fieldb_spec (n : nat) (s : string) :
  digit_fieldb n s = true -> digit_field n s.
Proof.
  unfold digit_fieldb, digit_field. intros H.
  apply andb_true_iff in H. destruct H as [H1 H2].
  apply Nat.eqb_eq in H1. auto.
Qed.

Lemma zpad2_field (z : Z) : 0 <= z < 100 -> digit_field 2 (zpad 2 z).
Proof.
  intros Hz. apply digit_fieldb_spec.
  apply (below_forall (fun z => digit_fieldb 2 (zpad 2 z)) 100);
    [vm_compute; reflexivity | lia].
Qed.

Lemma zpad4_field (z : Z) : 0 <= z < 10000 -> digit_field 4 (zpad 4 z).
Proof.
  intros Hz. apply digit_fieldb_spec.
  apply (below_forall (fun z => digit_fieldb 4 (zpad 4 z)) 10000);
    [vm_compute; reflexivity | lia].
Qed.

Lemma month_day_bounds (n : Z) (leapyear : bool) :
  0 <= n < 365 ->
  1 <= fst (month_day n leapyear) <= 12
  /\ 1 <= snd (month_day n leapyear) <= 31.
Proof.
  intros Hn.
  pose (ok := fun n =>
    forallb (fun b =>
      let '(m, d) := month_day n b in
      (1 <=? m) && (m <=? 12) && (1 <=? d) && (d <=? 31)) [true; false]).
  assert (H : ok n = true).
  { apply (below_forall ok 365); [vm_compute; reflexivity | lia]. }
  unfold ok in H. cbn [forallb] in H.
  destruct leapyear;
    destruct (month_day n true) as [m1 d1], (month_day n false) as [m2 d2];
    repeat (apply andb_true_iff in H; destruct H as [H ?]);
    repeat match goal with
    | H : (_ <=? _) = true |- _ => apply Z.leb_le in H
    end;
    cbn [fst snd]; lia.
Qed.

Lemma ord2ymd_bounds (ordinal : Z) :
  1 <= ordinal <= MAXORDINAL ->
  let '(y, m, d) := ord2ymd ordinal in
  1 <= y <= 9999 /\ 1 <= m <= 12 /\ 1 <= d <= 31.
Proof.
  intros Ho. unfold ord2ymd, MAXORDINAL, DI400Y, DI100Y, DI4Y in *.
  set (n0 := ordinal - 1).
  set (n400 := n0 / 146097). set (r400 := n0 mod 146097).
  set (n100 := r400 / 36524). set (r100 := r400 mod 36524).
  set (n4 := r100 / 1461). set (r4 := r100 mod 1461).
  set (n1 := r4 / 365). set (r1 := r4 mod 365).
  assert (Hy : 1 <= n400 * 400 + 1 + n100 * 100 + n4 * 4 + n1 <= 10000
               /\ ((n1 = 4 \/ n100 = 4) \/
                   n400 * 400 + 1 + n100 * 100 + n4 * 4 + n1 <= 9999)
               /\ 0 <= r1 < 365
               /\ 0 <= n400 /\ 0 <= n100 /\ 0 <= n4 /\ 0 <= n1).
  { subst n400 r400 n100 r100 n4 r4 n1 r1 n0.
    Z.to_euclidean_division_equations. lia. }
  destruct Hy as (Hy1 & Hy2 & Hr & Hp400 & Hp100 & Hp4 & Hp1).
  destruct ((n1 =? 4) || (n100 =? 4)) eqn:E.
  - apply orb_true_iff in E. rewrite !Z.eqb_eq in E. lia.
  - apply orb_false_iff in E. destruct E as [E1 E2].
    apply Z.eqb_neq in E1, E2.
    pose proof (month_day_bounds r1
                  ((n1 =? 3) && (negb (n4 =? 24) || (n100 =? 3))) Hr) as Hmd.
    destruct (month_day r1 _) as [m d]. cbn [fst snd] in Hmd. lia.
Qed.

Lemma fields_bounds (dt : datetime) :
  in_range dt ->
  exists y mo d h mi s,
    fields dt = (y, mo, d, h, mi, s)
    /\ 1 <= y <= 9999 /\ 1 <= mo <= 12 /\ 1 <= d <= 31
    /\ 0 <= h < 24 /\ 0 <= mi < 60 /\ 0 <= s < 60.
Proof.
  unfold in_range, fields, US_PER_DAY, US_PER_SECOND, MAXORDINAL. intros H.
  assert (Ho : 1 <= wall dt / (86400 * 1000000) <= 3652059).
  { Z.to_euclidean_division_equations. lia. }
  pose proof (ord2ymd_bounds _ Ho) as Hb.
  destruct (ord2ymd (wall dt / (86400 * 1000000))) as [[y mo] d].
  exists y, mo, d. do 3 eexists. split; [reflexivity|].
  repeat split; try lia; Z.to_euclidean_division_equations; lia.
Qed.

Lemma strftime_display_format (dt : datetime) :
  in_range dt -> display_format (strftime_display dt).
Proof.
  intros H. destruct (fields_bounds dt H)
    as (y & mo & d & h & mi & s & E & Hy & Hmo & Hd & Hh & Hmi & Hs).
  unfold strftime_display. rewrite E.
  exists (zpad 4 y), (zpad 2 mo), (zpad 2 d), (zpad 2 h), (zpad 2 mi), (zpad 2 s).
  split; [reflexivity|].
  repeat split; first [apply zpad4_field; lia | apply zpad2_field; lia].
Qed.

Lemma strftime_compact_format (dt : datetime) :
  in_range dt -> compact_format (strftime_compact dt).
Proof.
  intros H. destruct (fields_bounds dt H)
    as (y & mo & d & h & mi & s & E & Hy & Hmo & Hd & Hh & Hmi & Hs).
  unfold strftime_compact. rewrite E.
  exists (zpad 4 y), (zpad 2 mo), (zpad 2 d), (zpad 2 h), (zpad 2 mi), (zpad 2 s).
  split; [reflexivity|].
  repeat split; first [apply zpad4_field; lia | apply zpad2_field; lia].
Qed.

(** Both formats have a fixed width. *)
Lemma display_format_width (s : string) :
  display_format s -> String.length s = 19%nat.
Proof.
  intros (y & mo & d & h & mi & sec & -> & (Hy & _) & (Hmo & _) & (Hd & _)
          & (Hh & _) & (Hmi & _) & (Hs & _)).
  rewrite !length_append, Hy, Hmo, Hd, Hh, Hmi, Hs. reflexivity.
Qed.

Lemma compact_format_width (s : string) :
  compact_format s -> String.length s = 15%nat.
Proof.
  intros (y & mo & d & h & mi & sec & -> & (Hy & _) & (Hmo & _) & (Hd & _)
          & (Hh & _) & (Hmi & _) & (Hs & _)).
  rewrite !length_append, Hy, Hmo, Hd, Hh, Hmi, Hs. reflexivity.
Qed.

(** *** Parsed datetimes are representable *)

Lemma digit_range (c : ascii) (d : Z) : digit c = Some d -> 0 <= d <= 9.
Proof.
  unfold digit.
  destruct (Z.leb_spec 48 (Z.of_nat (nat_of_ascii c)));
    destruct (Z.leb_spec (Z.of_nat (nat_of_ascii c)) 57); cbn [andb];
    intros [= <-] || discriminate; lia.
Qed.

Lemma num2_range (a b : ascii) (v : Z) : num2 a b = Some v -> 0 <= v <= 99.
Proof.
  unfold num2. destruct (digit a) as [x|] eqn:Ea; [|discriminate].
  destruct (digit b) as [y|] eqn:Eb; [|discriminate].
  apply digit_range in Ea, Eb. intros [= <-]. lia.
Qed.

Lemma parse_fraction_range (f : string) (us : Z) :
  parse_fraction f = Some us -> 0 <= us < 1000000.
Proof.
  unfold parse_fraction.
  destruct f as [|c1 [|c2 [|c3 [|c4 [|c5 [|c6 [|c7 f]]]]]]];
    cbn [String.length digits]; try discriminate.
  - destruct (digit c1) as [d1|] eqn:E1; [|discriminate].
    destruct (digit c2) as [d2|] eqn:E2; [|discriminate].
    destruct (digit c3) as [d3|] eqn:E3; [|discriminate].
    apply digit_range in E1, E2, E3. cbn. intros [= <-]. lia.
  - destruct (digit c1) as [d1|] eqn:E1; [|discriminate].
    destruct (digit c2) as [d2|] eqn:E2; [|discriminate].
    destruct (digit c3) as [d3|] eqn:E3; [|discriminate].
    destruct (digit c4) as [d4|] eqn:E4; [|discriminate].
    destruct (digit c5) as [d5|] eqn:E5; [|discriminate].
    destruct (digit c6) as [d6|] eqn:E6; [|discriminate].
    apply digit_range in E1, E2, E3, E4, E5, E6. intros [= <-]. lia.
Qed.

Lemma parse_hh_mm_ss_ff_range (t : string) (hh mm ss us : Z) :
  parse_hh_mm_ss_ff t = Some (hh, mm, ss, us) ->
  0 <= hh /\ 0 <= mm /\ 0 <= ss /\ 0 <= us < 1000000.
Proof.
  unfold parse_hh_mm_ss_ff.
  destruct t as [|h1 [|h2 r1]]; try discriminate.
  destruct (num2 h1 h2) as [vh|] eqn:Eh; [|discriminate].
  apply num2_range in Eh.
  destruct r1 as [|c1 [|m1 [|m2 r2]]]; try discriminate.
  { intros [= <- <- <- <-]. lia. }
  destruct (negb (Ascii.eqb c1 ":")); [discriminate|].
  destruct (num2 m1 m2) as [vm|] eqn:Em; [|discriminate].
  apply num2_range in Em.
  destruct r2 as [|c2 [|s1 [|s2 r3]]]; try discriminate.
  { intros [= <- <- <- <-]. lia. }
  destruct (negb (Ascii.eqb c2 ":")); [discriminate|].
  destruct (num2 s1 s2) as [vs|] eqn:Es; [|discriminate].
  apply num2_range in Es.
  destruct r3 as [|c3 f].
  { intros [= <- <- <- <-]. lia. }
  destruct (negb (Ascii.eqb c3 ".")); [discriminate|].
  destruct (parse_fraction f) as [vu|] eqn:Ef; [|discriminate].
  apply parse_fraction_range in Ef. intros [= <- <- <- <-]. lia.
Qed.

Lemma parse_time_range (t : string) (tod : Z) (tz : option Z) :
  parse_time t = Some (tod, tz) -> 0 <= tod < US_PER_DAY.
Proof.
  unfold parse_time. destruct (split_tz t) as [timestr r].
  destruct (parse_hh_mm_ss_ff timestr) as [[[[hh mm] ss] us]|] eqn:E;
    [|discriminate].
  apply parse_hh_mm_ss_ff_range in E.
  destruct (Z.ltb_spec hh 24), (Z.ltb_spec mm 60), (Z.ltb_spec ss 60);
    cbn [andb negb]; try discriminate.
  assert (0 <= (hh * 3600 + mm * 60 + ss) * US_PER_SECOND + us < US_PER_DAY)
    by (unfold US_PER_DAY, US_PER_SECOND; lia).
  destruct r as [[neg z]|]; [destruct (parse_tz neg z)|];
    intros [= <- _] || discriminate; assumption.
Qed.

Lemma ymd2ord_day (y mo d : Z) : ymd2ord y mo d = ymd2ord y mo 1 + (d - 1).
Proof. unfold ymd2ord. lia. Qed.

Lemma ymd2ord_range (y mo d : Z) :
  1 <= y <= 9999 -> 1 <= mo <= 12 -> 1 <= d <= days_in_month y mo ->
  1 <= ymd2ord y mo d <= MAXORDINAL.
Proof.
  intros Hy Hmo Hd.
  pose (ok := fun y =>
    (y =? 0)
    || forallb (fun mo => (1 <=? ymd2ord y mo 1)
                          && (ymd2ord y mo (days_in_month y mo) <=? MAXORDINAL))
               [1; 2; 3; 4; 5; 6; 7; 8; 9; 10; 11; 12]).
  assert (H : ok y = true).
  { apply (below_forall ok 10000); [vm_compute; reflexivity | lia]. }
  unfold ok in H. destruct (Z.eqb_spec y 0) as [?|_]; [lia|]. cbn [orb] in H.
  rewrite forallb_forall in H.
  assert (Hin : In mo [1; 2; 3; 4; 5; 6; 7; 8; 9; 10; 11; 12]) by (cbn; lia).
  specialize (H mo Hin). apply andb_true_iff in H. destruct H as [H1 H2].
  apply Z.leb_le in H1, H2.
  rewrite (ymd2ord_day y mo d).
  rewrite (ymd2ord_day y mo (days_in_month y mo)) in H2. lia.
Qed.

Lemma parse_date_range (y1 y2 y3 y4 c1 m1 m2 c2 d1 d2 : ascii) (ord : Z) :
  parse_date y1 y2 y3 y4 c1 m1 m2 c2 d1 d2 = Some ord ->
  1 <= ord <= MAXORDINAL.
Proof.
  unfold parse_date, MINYEAR.
  destruct (negb _); [discriminate|].
  destruct (num2 y1 y2) as [yh|] eqn:E1; [|discriminate].
  destruct (num2 y3 y4) as [yl|] eqn:E2; [|discriminate].
  destruct (num2 m1 m2) as [mo|] eqn:E3; [|discriminate].
  destruct (num2 d1 d2) as [d|] eqn:E4; [|discriminate].
  apply num2_range in E1, E2.
  destruct (Z.leb_spec 1 (yh * 100 + yl)); [|discriminate].
  destruct (Z.leb_spec 1 mo); [|discriminate].
  destruct (Z.leb_spec mo 12); [|discriminate].
  destruct (Z.leb_spec 1 d); [|discriminate].
  destruct (Z.leb_spec d (days_in_month (yh * 100 + yl) mo)); [|discriminate].
  cbn [andb]. intros [= <-]. apply ymd2ord_range; lia.
Qed.

Lemma fromisoformat_in_range (s : string) (dt : datetime) :
  fromisoformat s = Some dt -> in_range dt.
Proof.
  unfold fromisoformat, in_range. intros H.
  do 10 (destruct s as [|? s]; [discriminate H|]).
  destruct (parse_date _ _ _ _ _ _ _ _ _ _) as [ord|] eqn:Ed; [|discriminate].
  apply parse_date_range in Ed.
  destruct s as [|sep t].
  - inversion H; subst. cbn [wall]. unfold US_PER_DAY, US_PER_SECOND. lia.
  - destruct (parse_time t) as [[tod tz]|] eqn:Et; [|discriminate].
    apply parse_time_range in Et. inversion H; subst. cbn [wall].
    unfold US_PER_DAY, US_PER_SECOND in *. lia.
Qed.

(** *** The calendar read backwards *)

Lemma is_leap_cycle (y q : Z) : is_leap (y + 400 * q) = is_leap y.
Proof.
  unfold is_leap.
  replace ((y + 400 * q) mod 4) with (y mod 4)
    by (Z.to_euclidean_division_equations; lia).
  replace ((y + 400 * q) mod 100) with (y mod 100)
    by (Z.to_euclidean_division_equations; lia).
  replace ((y + 400 * q) mod 400) with (y mod 400)
    by (Z.to_euclidean_division_equations; lia).
  reflexivity.
Qed.

Lemma days_in_month_cycle (y q m : Z) :
  days_in_month (y + 400 * q) m = days_in_month y m.
Proof. unfold days_in_month. now rewrite is_leap_cycle. Qed.

Lemma ymd2ord_cycle (y q m d : Z) :
  ymd2ord (y + 400 * q) m d = ymd2ord y m d + DI400Y * q.
Proof.
  unfold ymd2ord, days_before_month, days_before_year, DI400Y.
  rewrite is_leap_cycle.
  Z.to_euclidean_division_equations. lia.
Qed.

Lemma ord2ymd_cycle (r q : Z) :
  1 <= r <= DI400Y ->
  ord2ymd (r + DI400Y * q)
  = let '(y, m, d) := ord2ymd r in (y + 400 * q, m, d).
Proof.
  intros Hr. unfold ord2ymd, DI400Y in *.
  replace ((r + 146097 * q - 1) / 146097) with q
    by (Z.to_euclidean_division_equations; lia).
  replace ((r + 146097 * q - 1) mod 146097) with (r - 1)
    by (Z.to_euclidean_division_equations; lia).
  replace ((r - 1) / 146097) with 0
    by (Z.to_euclidean_division_equations; lia).
  replace ((r - 1) mod 146097) with (r - 1)
    by (Z.to_euclidean_division_equations; lia).
  cbv zeta.
  destruct ((_ =? 4) || (_ =? 4)); [f_equal; f_equal; lia|].
  destruct (month_day _ _) as [m d]. f_equal. f_equal. lia.
Qed.

Lemma all_from_spec (P : Z -> bool) (n : nat) (start z : Z) :
  all_from P start n = true -> start <= z < start + Z.of_nat n -> P z = true.
Proof.
  revert start. induction n as [|n IH]; intros start H Hz; [lia|].
  cbn [all_from] in H. apply andb_true_iff in H. destruct H as [H0 H].
  destruct (Z.eq_dec z start) as [->|Hne]; [exact H0|].
  apply (IH (start + 1) H). lia.
Qed.

Lemma cycle_days_ok (r : Z) : 1 <= r <= DI400Y -> cycle_day_ok r = true.
Proof.
  intros Hr. apply (all_from_spec cycle_day_ok (Z.to_nat DI400Y) 1);
    [vm_compute; reflexivity | unfold DI400Y in *; lia].
Qed.

(** [_ord2ymd] inverts [_ymd2ord] and yields a date of the calendar. *)
Lemma ord2ymd_inverse (n : Z) :
  1 <= n <= MAXORDINAL ->
  let '(y, m, d) := ord2ymd n in
  ymd2ord y m d = n /\ 1 <= y /\ 1 <= m <= 12 /\ 1 <= d <= days_in_month y m.
Proof.
  intros Hn. unfold MAXORDINAL in Hn.
  assert (Hq : exists q r, n = r + DI400Y * q /\ 1 <= r <= DI400Y).
  { exists ((n - 1) / DI400Y), ((n - 1) mod DI400Y + 1). unfold DI400Y.
    Z.to_euclidean_division_equations. lia. }
  destruct Hq as (q & r & -> & Hr).
  rewrite (ord2ymd_cycle r q Hr).
  pose proof (cycle_days_ok r Hr) as Hok. unfold cycle_day_ok in Hok.
  destruct (Z.eqb_spec r 0) as [?|_]; [lia|]. cbn [orb] in Hok.
  destruct (ord2ymd r) as [[y m] d].
  repeat (apply andb_true_iff in Hok; destruct Hok as [Hok ?]).
  apply Z.eqb_eq in Hok.
  repeat match goal with
  | H : (_ <=? _) = true |- _ => apply Z.leb_le in H
  end.
  cbv beta iota zeta.
  rewrite ymd2ord_cycle, days_in_month_cycle. unfold DI400Y in *. lia.
Qed.

Lemma strftime_display_spells (dt : datetime) :
  in_range dt -> spells (strftime_display dt) (wall dt).
Proof.
  intros H.
  destruct (fields_bounds dt H)
    as (y & mo & d & h & mi & s & E & Hy & Hmo & Hd & Hh & Hmi & Hs).
  unfold strftime_display. rewrite E. exists y, mo, d, h, mi, s.
  split; [reflexivity|].
  unfold fields in E. unfold in_range, MAXORDINAL in H.
  assert (Ho : 1 <= wall dt / US_PER_DAY <= MAXORDINAL).
  { unfold US_PER_DAY, US_PER_SECOND, MAXORDINAL in *.
    Z.to_euclidean_division_equations. lia. }
  pose proof (ord2ymd_inverse _ Ho) as Hinv.
  destruct (ord2ymd (wall dt / US_PER_DAY)) as [[y' mo'] d'].
  destruct Hinv as (Hord & Hy' & Hmo' & Hd').
  inversion E; subst y' mo' d'. clear E.
  repeat (split; [lia|]).
  rewrite Hord. subst h mi s.
  unfold US_PER_DAY, US_PER_SECOND.
  Z.to_euclidean_division_equations. lia.
Qed.

(** *** The export *)

Lemma key_now (tz : tzinfo) (k : Z) : key (now tz k) = k.
Proof. unfold key, now. cbn. lia. Qed.

Lemma insert_before_perm {A} (before : A -> A -> bool) (x : A) (l : list A) :
  Permutation (insert_before before x l) (x :: l).
Proof.
  induction l as [|y l IH]; cbn; [apply Permutation_refl|].
  destruct (before y x); [|apply Permutation_refl].
  eapply perm_trans; [apply perm_skip, IH|apply perm_swap].
Qed.

Lemma representable_spec (dt : datetime) :
  representable dt = true <-> in_range dt.
Proof.
  unfold representable, in_range. rewrite andb_true_iff, Z.leb_le, Z.ltb_lt.
  tauto.
Qed.

Lemma merge_dtype_left (a b c : dtype) : merge_dtype a b = Some c -> c = a.
Proof. destruct a, b; cbn; intros [= <-] || discriminate; reflexivity. Qed.

Section CsvExport.

Variable value : Type.
Variable CYPRUS_TZ : tzinfo.

Lemma key_in_column (ty : dtype) (ts : datetime) :
  key (in_column CYPRUS_TZ ty ts) = key ts.
Proof.
  destruct ty; cbn [in_column]; try reflexivity.
  - unfold key at 1. cbn. lia.
  - apply key_now.
Qed.

Lemma in_column_twice (a b ty : dtype) (ts : datetime) :
  merge_dtype a b = Some ty ->
  in_column CYPRUS_TZ ty (in_column CYPRUS_TZ b ts) = in_column CYPRUS_TZ ty ts.
Proof.
  destruct a, b; cbn [merge_dtype]; intros [= <-] || discriminate;
    cbn [in_column]; try reflexivity.
  - f_equal. unfold key at 1. cbn. lia.
  - now rewrite key_now.
Qed.

Lemma key_order_perm (rows : list (frow value)) :
  Permutation (key_order value rows) rows.
Proof.
  unfold key_order. induction rows as [|x l IH]; cbn; [constructor|].
  eapply perm_trans; [apply insert_before_perm|now apply perm_skip].
Qed.

Lemma same_key_refl (r : frow value) : same_key value r r = true.
Proof. unfold same_key. now rewrite Z.eqb_refl, String.eqb_refl. Qed.

Lemma same_key_sym (a b : frow value) : same_key value a b = same_key value b a.
Proof. unfold same_key. now rewrite Z.eqb_sym, String.eqb_sym. Qed.

(** A frame row built from an entry keeps the entry's key. *)
Lemma joins_row (e e' : entry value) (ty : dtype) (a b : option value) :
  joins (mkfrow (device_name e) (in_column CYPRUS_TZ ty (timestamp e)) a b) e'
  = (key (timestamp e) =? key (timestamp e'))
    && String.eqb (device_name e) (device_name e').
Proof. unfold joins. cbn. now rewrite key_in_column. Qed.

Lemma joins_self (e : entry value) (ty : dtype) (a b : option value) :
  joins (mkfrow (device_name e) (in_column CYPRUS_TZ ty (timestamp e)) a b) e
  = true.
Proof. rewrite joins_row. now rewrite Z.eqb_refl, String.eqb_refl. Qed.

Lemma same_key_rows (e e' : entry value) (ty ty' : dtype)
    (a b a' b' : option value) :
  same_key value
    (mkfrow (device_name e) (in_column CYPRUS_TZ ty (timestamp e)) a b)
    (mkfrow (device_name e') (in_column CYPRUS_TZ ty' (timestamp e')) a' b')
  = (key (timestamp e) =? key (timestamp e'))
    && String.eqb (device_name e) (device_name e').
Proof. unfold same_key. cbn. now rewrite !key_in_column. Qed.

Lemma in_left_rows (hums : list (frow value)) (t row : frow value) :
  In row (left_rows value hums t)
  <-> (filter (same_key value t) hums = [] /\ row = t)
      \/ (exists h, In h hums /\ same_key value t h = true
            /\ row = mkfrow (f_device_name t) (f_timestamp t)
                       (f_temperature t) (f_humidity h)).
Proof.
  unfold left_rows.
  destruct (filter (same_key value t) hums) as [|h0 l] eqn:E.
  - split.
    + intros [<-|[]]. left. auto.
    + intros [[_ ->]|(h & Hh & Hk & _)]; [now left|].
      assert (Hin : In h (filter (same_key value t) hums))
        by (apply filter_In; auto).
      rewrite E in Hin. contradiction.
  - rewrite in_map_iff. split.
    + intros (h & <- & Hh). right. rewrite <- E in Hh.
      apply filter_In in Hh. exists h. tauto.
    + intros [[Hnil _]|(h & Hh & Hk & ->)]; [discriminate|].
      exists h. split; [reflexivity|]. rewrite <- E. apply filter_In. auto.
Qed.

Lemma in_right_only_rows (ty : dtype) (temps hums : list (frow value))
    (row : frow value) :
  In row (right_only_rows value CYPRUS_TZ ty temps hums)
  <-> exists h, In h hums
        /\ (forall t, In t temps -> same_key value t h = false)
        /\ row = mkfrow (f_device_name h) (in_column CYPRUS_TZ ty (f_timestamp h))
                   None (f_humidity h).
Proof.
  unfold right_only_rows. rewrite in_map_iff. split.
  - intros (h & <- & Hh). apply filter_In in Hh. destruct Hh as [Hin Hn].
    exists h. split; [exact Hin|]. split; [|reflexivity].
    intros t Ht. apply negb_true_iff in Hn.
    destruct (same_key value t h) eqn:Ek; [|reflexivity].
    assert (existsb (fun t => same_key value t h) temps = true)
      by (apply existsb_exists; eauto).
    congruence.
  - intros (h & Hin & Hn & ->). exists h. split; [reflexivity|].
    apply filter_In. split; [exact Hin|]. apply negb_true_iff.
    destruct (existsb (fun t => same_key value t h) temps) eqn:Ex; [|reflexivity].
    apply existsb_exists in Ex. destruct Ex as (t & Ht & Hk).
    rewrite (Hn t Ht) in Hk. discriminate.
Qed.

Lemma filter_nil_forall {A} (f : A -> bool) (l : list A) :
  filter f l = [] <-> forall x, In x l -> f x = false.
Proof.
  split.
  - intros E x Hx. destruct (f x) eqn:Ef; [|reflexivity].
    assert (In x (filter f l)) by (apply filter_In; auto).
    rewrite E in H. contradiction.
  - intros H. induction l as [|a l IH]; [reflexivity|].
    cbn. rewrite (H a (or_introl eq_refl)). apply IH.
    intros x Hx. apply H. now right.
Qed.

Lemma outer_join_perm (temps hums : list (entry value)) (rows rows' : list (frow value)) :
  Permutation rows rows' ->
  outer_join temps hums rows -> outer_join temps hums rows'.
Proof.
  intros Hp (H1 & H2 & H3 & H4).
  pose proof (Permutation_in (l := rows) (l' := rows')) as To.
  pose proof (Permutation_in (l := rows') (l' := rows)) as From.
  specialize (fun x => To x Hp). specialize (fun x => From x (Permutation_sym Hp)).
  split; [|split; [|split]].
  - intros row Hrow. apply H1. now apply From.
  - intros t Ht. destruct (H2 t Ht) as (row & Hr & Hk). exists row. auto.
  - intros h Hh. destruct (H3 h Hh) as (row & Hr & Hk). exists row. auto.
  - intros row Hrow. apply H4. now apply From.
Qed.

(** The rows of the join before they are put in key order. *)
Lemma outer_join_rows (a b ty : dtype) (temps hums : list (entry value)) :
  outer_join temps hums
    (flat_map
       (left_rows value
          (map (humidity_row value CYPRUS_TZ b) hums))
       (map (temperature_row value CYPRUS_TZ a) temps)
     ++ right_only_rows value CYPRUS_TZ ty
          (map (temperature_row value CYPRUS_TZ a) temps)
          (map (humidity_row value CYPRUS_TZ b) hums))%list.
Proof.
  set (L := temperature_row value CYPRUS_TZ a).
  set (R := humidity_row value CYPRUS_TZ b).
  assert (HL : forall t e, joins (L t) e = same_key value (L t) (R e)).
  { intros t e. unfold L, R, temperature_row, humidity_row.
    now rewrite joins_row, same_key_rows. }
  assert (HLL : forall t, joins (L t) t = true).
  { intros t. apply joins_self. }
  assert (HLrow : forall t, L t = mkfrow (device_name t)
                                    (in_column CYPRUS_TZ a (timestamp t))
                                    (Some (measurement t)) None)
    by reflexivity.
  assert (Hleft : forall row, In row (flat_map (left_rows value (map R hums)) (map L temps))
            <-> exists t, In t temps
                  /\ ((forall h, In h hums -> same_key value (L t) (R h) = false)
                      /\ row = L t
                      \/ exists h, In h hums /\ same_key value (L t) (R h) = true
                           /\ row = mkfrow (device_name t)
                                      (in_column CYPRUS_TZ a (timestamp t))
                                      (Some (measurement t)) (Some (measurement h)))).
  { intros row. rewrite in_flat_map. split.
    - intros (t' & Ht' & Hrow). apply in_map_iff in Ht'.
      destruct Ht' as (t & <- & Ht). exists t. split; [exact Ht|].
      apply in_left_rows in Hrow. destruct Hrow as [[Hnil ->]|(h' & Hh' & Hk & ->)].
      + left. split; [|reflexivity]. intros h Hh.
        apply (proj1 (filter_nil_forall _ _) Hnil). now apply in_map.
      + right. apply in_map_iff in Hh'. destruct Hh' as (h & <- & Hh).
        exists h. auto.
    - intros (t & Ht & Hrow). exists (L t). split; [now apply in_map|].
      apply in_left_rows. destruct Hrow as [[Hnone ->]|(h & Hh & Hk & ->)].
      + left. split; [|reflexivity]. apply filter_nil_forall.
        intros h' Hh'. apply in_map_iff in Hh'. destruct Hh' as (h & <- & Hh).
        now apply Hnone.
      + right. exists (R h). split; [now apply in_map|]. auto. }
  assert (Hright : forall row,
            In row (right_only_rows value CYPRUS_TZ ty (map L temps) (map R hums))
            <-> exists h : entry value, In h hums
                  /\ (forall t, In t temps -> same_key value (L t) (R h) = false)
                  /\ row = mkfrow (device_name h)
                             (in_column CYPRUS_TZ ty
                                (in_column CYPRUS_TZ b (timestamp h)))
                             None (Some (measurement h))).
  { intros row. rewrite in_right_only_rows. split.
    - intros (h' & Hh' & Hn & ->). apply in_map_iff in Hh'.
      destruct Hh' as (h & <- & Hh). exists h. split; [exact Hh|].
      split; [|reflexivity]. intros t Ht. apply Hn. now apply in_map.
    - intros (h & Hh & Hn & ->). exists (R h). split; [now apply in_map|].
      split; [|reflexivity]. intros t' Ht'. apply in_map_iff in Ht'.
      destruct Ht' as (t & <- & Ht). now apply Hn. }
  assert (Hrk : forall h e : entry value,
            joins (mkfrow (device_name h)
                     (in_column CYPRUS_TZ ty (in_column CYPRUS_TZ b (timestamp h)))
                     None (Some (measurement h))) e
            = (key (timestamp h) =? key (timestamp e))
              && String.eqb (device_name h) (device_name e)).
  { intros h e. unfold joins. cbn. now rewrite !key_in_column. }
  assert (Hsk : forall t h : entry value,
            same_key value (L t) (R h)
            = (key (timestamp t) =? key (timestamp h))
              && String.eqb (device_name t) (device_name h)).
  { intros t h. apply same_key_rows. }
  assert (Hjoin_both : forall t h e : entry value,
            joins (mkfrow (device_name t) (in_column CYPRUS_TZ a (timestamp t))
                     (Some (measurement t)) (Some (measurement h))) e
            = (key (timestamp t) =? key (timestamp e))
              && String.eqb (device_name t) (device_name e)).
  { intros t h e. apply joins_row. }
  unfold outer_join. split; [|split; [|split]].
  - intros row Hrow. apply in_app_or in Hrow. destruct Hrow as [Hl|Hr].
    + apply Hleft in Hl. destruct Hl as (t & Ht & [[Hnone ->]|(h & Hh & Hk & ->)]);
        cbn [f_temperature f_humidity L].
      * split.
        -- split; [discriminate|]. intros H. specialize (H t Ht).
           rewrite HLL in H. discriminate.
        -- split; [|reflexivity]. intros _ h Hh. rewrite HL. now apply Hnone.
      * split.
        -- split; [discriminate|]. intros H. specialize (H t Ht).
           rewrite Hjoin_both, Z.eqb_refl, String.eqb_refl in H. discriminate.
        -- split; [discriminate|]. intros H. specialize (H h Hh).
           rewrite Hjoin_both, <- Hsk, Hk in H. discriminate.
    + apply Hright in Hr. destruct Hr as (h & Hh & Hn & ->).
      cbn [f_temperature f_humidity]. split.
      * split; [|reflexivity]. intros _ t Ht. rewrite Hrk.
        specialize (Hn t Ht). rewrite Hsk in Hn.
        now rewrite Z.eqb_sym, String.eqb_sym.
      * split; [discriminate|]. intros H. specialize (H h Hh).
        rewrite Hrk, Z.eqb_refl, String.eqb_refl in H. discriminate.
  - intros t Ht.
    destruct (existsb (fun h => same_key value (L t) (R h)) hums) eqn:Ex.
    + apply existsb_exists in Ex. destruct Ex as (h & Hh & Hk).
      exists (mkfrow (device_name t) (in_column CYPRUS_TZ a (timestamp t))
                (Some (measurement t)) (Some (measurement h))).
      split; [|split; [|reflexivity]].
      * apply in_or_app. left. apply Hleft. exists t. split; [exact Ht|].
        right. exists h. auto.
      * now rewrite Hjoin_both, Z.eqb_refl, String.eqb_refl.
    + exists (L t). split; [|split; [apply HLL|reflexivity]].
      apply in_or_app. left. apply Hleft. exists t. split; [exact Ht|].
      left. split; [|reflexivity]. intros h Hh.
      destruct (same_key value (L t) (R h)) eqn:Ek; [|reflexivity].
      assert (existsb (fun h => same_key value (L t) (R h)) hums = true)
        by (apply existsb_exists; eauto).
      congruence.
  - intros h Hh.
    destruct (existsb (fun t => same_key value (L t) (R h)) temps) eqn:Ex.
    + apply existsb_exists in Ex. destruct Ex as (t & Ht & Hk).
      exists (mkfrow (device_name t) (in_column CYPRUS_TZ a (timestamp t))
                (Some (measurement t)) (Some (measurement h))).
      split; [|split; [|reflexivity]].
      * apply in_or_app. left. apply Hleft. exists t. split; [exact Ht|].
        right. exists h. auto.
      * now rewrite Hjoin_both, <- Hsk.
    + exists (mkfrow (device_name h)
                (in_column CYPRUS_TZ ty (in_column CYPRUS_TZ b (timestamp h)))
                None (Some (measurement h))).
      split; [|split; [|reflexivity]].
      * apply in_or_app. right. apply Hright. exists h. split; [exact Hh|].
        split; [|reflexivity]. intros t Ht.
        destruct (same_key value (L t) (R h)) eqn:Ek; [|reflexivity].
        assert (existsb (fun t => same_key value (L t) (R h)) temps = true)
          by (apply existsb_exists; eauto).
        congruence.
      * now rewrite Hrk, Z.eqb_refl, String.eqb_refl.
  - intros row Hrow. apply in_app_or in Hrow. destruct Hrow as [Hl|Hr].
    + apply Hleft in Hl. destruct Hl as (t & Ht & [[_ ->]|(h & _ & _ & ->)]);
        exists t; (split; [apply in_or_app; now left|]).
      * apply HLL.
      * now rewrite Hjoin_both, Z.eqb_refl, String.eqb_refl.
    + apply Hright in Hr. destruct Hr as (h & Hh & _ & ->).
      exists h. split; [apply in_or_app; now right|].
      now rewrite Hrk, Z.eqb_refl, String.eqb_refl.
Qed.

Lemma outer_join_temperature (zoned : bool) (temps : list (entry value)) :
  outer_join temps [] (frows (temperature_frame value CYPRUS_TZ zoned temps)).
Proof.
  unfold outer_join, temperature_frame, temperature_row. cbn [frows].
  split; [|split; [|split]].
  - intros row Hrow. apply in_map_iff in Hrow. destruct Hrow as (t & <- & Ht).
    cbn [f_temperature f_humidity]. split.
    + split; [discriminate|]. intros H. specialize (H t Ht).
      rewrite joins_self in H. discriminate.
    + split; [intros _ h []|reflexivity].
  - intros t Ht. eexists. split; [apply in_map; exact Ht|].
    split; [apply joins_self|reflexivity].
  - intros h [].
  - intros row Hrow. apply in_map_iff in Hrow. destruct Hrow as (t & <- & Ht).
    exists t. rewrite app_nil_r. split; [exact Ht|apply joins_self].
Qed.

Lemma outer_join_humidity (zoned : bool) (hums : list (entry value)) :
  outer_join [] hums (frows (humidity_frame value CYPRUS_TZ zoned hums)).
Proof.
  unfold outer_join, humidity_frame, humidity_row. cbn [frows].
  split; [|split; [|split]].
  - intros row Hrow. apply in_map_iff in Hrow. destruct Hrow as (h & <- & Hh).
    cbn [f_temperature f_humidity]. split.
    + split; [intros _ t []|reflexivity].
    + split; [discriminate|]. intros H. specialize (H h Hh).
      rewrite joins_self in H. discriminate.
  - intros t [].
  - intros h Hh. eexists. split; [apply in_map; exact Hh|].
    split; [apply joins_self|reflexivity].
  - intros row Hrow. apply in_map_iff in Hrow. destruct Hrow as (h & <- & Hh).
    exists h. split; [exact Hh|apply joins_self].
Qed.


Lemma join_rows_source (a b ty : dtype) (temps hums : list (entry value))
    (row : frow value) :
  merge_dtype a b = Some ty ->
  In row (flat_map (left_rows value (map (humidity_row value CYPRUS_TZ b) hums))
                   (map (temperature_row value CYPRUS_TZ a) temps)
          ++ right_only_rows value CYPRUS_TZ ty
               (map (temperature_row value CYPRUS_TZ a) temps)
               (map (humidity_row value CYPRUS_TZ b) hums))%list ->
  exists e, In e (temps ++ hums)%list
            /\ f_device_name row = device_name e
            /\ f_timestamp row = in_column CYPRUS_TZ ty (timestamp e).
Proof.
  intros Hm Hrow. pose proof (merge_dtype_left a b ty Hm) as Hty.
  apply in_app_or in Hrow. destruct Hrow as [Hl|Hr].
  - apply in_flat_map in Hl. destruct Hl as (t' & Ht' & Hl).
    apply in_map_iff in Ht'. destruct Ht' as (t & <- & Ht).
    exists t. split; [apply in_or_app; now left|].
    apply in_left_rows in Hl. subst ty.
    destruct Hl as [[_ ->]|(h & _ & _ & ->)]; split; reflexivity.
  - apply in_right_only_rows in Hr. destruct Hr as (h' & Hh' & _ & ->).
    apply in_map_iff in Hh'. destruct Hh' as (h & <- & Hh).
    exists h. split; [apply in_or_app; now right|].
    split; [reflexivity|]. cbn [f_timestamp humidity_row].
    now apply (in_column_twice a b).
Qed.

Lemma nonempty_false {A} (l : list A) : nonempty l = false -> l = [].
Proof. destruct l; [reflexivity|discriminate]. Qed.

Lemma nonempty_map {A B} (f : A -> B) (l : list A) :
  nonempty (map f l) = nonempty l.
Proof. destruct l; reflexivity. Qed.

Lemma infer_dtype_zoned (l : list datetime) : infer_dtype true l = Zone.
Proof. reflexivity. Qed.

Lemma infer_dtype_store (l : list datetime) :
  infer_dtype false l = Object \/ infer_dtype false l = Naive
  \/ exists off d, infer_dtype false l = Fixed off /\ In d l
                   /\ tzoff d = Some off.
Proof.
  destruct l as [|d rest]; [now left|]. cbn [infer_dtype].
  destruct (forallb (same_offset d) rest); [|now left].
  destruct (tzoff d) as [off|] eqn:E; [|now (right; left)].
  right; right. exists off, d. split; [reflexivity|]. split; [now left|exact E].
Qed.

Lemma dtype_source_infer (zoned : bool) (l : list (entry value)) :
  dtype_source zoned (infer_dtype zoned (map timestamp l)) l.
Proof.
  split; [intros ->; reflexivity|]. intros ->.
  destruct (infer_dtype_store (map timestamp l)) as [H|[H|(off & d & H & Hd & Ho)]];
    [now left|now (right; left)|].
  right; right. apply in_map_iff in Hd. destruct Hd as (e & <- & He).
  exists off, e. auto.
Qed.

Lemma dtype_source_weaken (zoned : bool) (ty : dtype) (l l' : list (entry value)) :
  (forall e, In e l -> In e l') ->
  dtype_source zoned ty l -> dtype_source zoned ty l'.
Proof.
  intros Hsub [Hz Hs]. split; [exact Hz|]. intros E.
  destruct (Hs E) as [H|[H|(off & e & H & He & Ho)]];
    [now left|now (right; left)|].
  right; right. exists off, e. auto.
Qed.

Lemma select_frame_spec (zoned : bool) (data_type : string) (h : history value)
    (df : frame value) (stem : string) :
  select_frame value CYPRUS_TZ zoned data_type h = Some (df, stem) ->
  (forall row, In row (frows df) ->
     exists e, In e (temperature_history h ++ humidity_history h)%list
               /\ f_device_name row = device_name e
               /\ f_timestamp row
                  = in_column CYPRUS_TZ (timestamps df) (timestamp e))
  /\ dtype_source zoned (timestamps df)
       (temperature_history h ++ humidity_history h)%list
  /\ ((data_type = "temperature" /\ stem = "temperature_data_"
       /\ has_temperature df = true /\ has_humidity df = false)
      \/ (data_type = "humidity" /\ stem = "humidity_data_"
          /\ has_temperature df = false /\ has_humidity df = true)
      \/ (data_type = "all" /\ stem = "sensor_data_"
          /\ has_temperature df = nonempty (temperature_history h)
          /\ has_humidity df = nonempty (humidity_history h)
          /\ outer_join (temperature_history h) (humidity_history h) (frows df))).
Proof.
  set (temps := temperature_history h). set (hums := humidity_history h).
  assert (T : forall row,
            In row (frows (temperature_frame value CYPRUS_TZ zoned temps)) ->
            exists e, In e (temps ++ hums)%list
                      /\ f_device_name row = device_name e
                      /\ f_timestamp row
                         = in_column CYPRUS_TZ
                             (timestamps (temperature_frame value CYPRUS_TZ zoned temps))
                             (timestamp e)).
  { intros row Hrow. apply in_map_iff in Hrow. destruct Hrow as (e & <- & He).
    exists e. split; [apply in_or_app; now left|]. split; reflexivity. }
  assert (U : forall row,
            In row (frows (humidity_frame value CYPRUS_TZ zoned hums)) ->
            exists e, In e (temps ++ hums)%list
                      /\ f_device_name row = device_name e
                      /\ f_timestamp row
                         = in_column CYPRUS_TZ
                             (timestamps (humidity_frame value CYPRUS_TZ zoned hums))
                             (timestamp e)).
  { intros row Hrow. apply in_map_iff in Hrow. destruct Hrow as (e & <- & He).
    exists e. split; [apply in_or_app; now right|]. split; reflexivity. }
  assert (DT : dtype_source zoned
                 (timestamps (temperature_frame value CYPRUS_TZ zoned temps))
                 (temps ++ hums)%list).
  { apply (dtype_source_weaken zoned _ temps); [|apply dtype_source_infer].
    intros e He. apply in_or_app. now left. }
  assert (DU : dtype_source zoned
                 (timestamps (humidity_frame value CYPRUS_TZ zoned hums))
                 (temps ++ hums)%list).
  { apply (dtype_source_weaken zoned _ hums); [|apply dtype_source_infer].
    intros e He. apply in_or_app. now right. }
  unfold select_frame. fold temps hums.
  destruct (String.eqb_spec data_type "temperature") as [->|N1]; cbn [andb].
  { destruct (nonempty temps) eqn:Et.
    - intros [= <- <-]. split; [exact T|]. split; [exact DT|]. left. auto.
    - cbn. discriminate. }
  destruct (String.eqb_spec data_type "humidity") as [->|N2]; cbn [andb].
  { destruct (nonempty hums) eqn:Eh.
    - intros [= <- <-]. split; [exact U|]. split; [exact DU|]. right; left. auto.
    - cbn. discriminate. }
  destruct (String.eqb_spec data_type "all") as [->|N3]; [|discriminate].
  unfold temperature_frame at 1 2 3, humidity_frame at 1 2 3. cbn [frows].
  rewrite !nonempty_map.
  destruct (nonempty temps) eqn:Et, (nonempty hums) eqn:Eh; cbn [andb].
  - unfold merge_outer, temperature_frame, humidity_frame. cbn [timestamps frows].
    destruct (merge_dtype (infer_dtype zoned (map timestamp temps))
                          (infer_dtype zoned (map timestamp hums)))
      as [ty|] eqn:Em; [|discriminate].
    intros [= <- <-]. cbn [frows timestamps has_temperature has_humidity].
    pose proof (merge_dtype_left _ _ _ Em) as Hty.
    split; [|split].
    + intros row Hrow.
      eapply Permutation_in in Hrow; [|apply key_order_perm].
      now apply (join_rows_source _ _ ty temps hums row Em).
    + rewrite Hty. exact DT.
    + right; right. do 4 (split; [reflexivity|]).
      eapply outer_join_perm;
        [apply Permutation_sym, key_order_perm|apply outer_join_rows].
  - intros [= <- <-]. split; [exact T|]. split; [exact DT|].
    right; right. cbn [has_temperature has_humidity temperature_frame].
    do 4 (split; [reflexivity|]).
    rewrite (nonempty_false _ Eh).
    apply outer_join_temperature.
  - intros [= <- <-]. split; [exact U|]. split; [exact DU|].
    right; right. cbn [has_temperature has_humidity humidity_frame].
    do 4 (split; [reflexivity|]).
    rewrite (nonempty_false _ Et).
    apply outer_join_humidity.
  - discriminate.
Qed.

Lemma entry_of_parsed (r : reading value) (m : option value)
    (l : list (entry value)) (e : entry value) :
  entry_of value r m = Some l -> In e l -> in_range (timestamp e).
Proof.
  unfold entry_of. destruct m as [v|]; [|intros [= <-] []].
  destruct (fromisoformat (store_text (r_timestamp r))) as [ts|] eqn:E;
    [|discriminate].
  intros [= <-] [<-|[]]. cbn [timestamp]. now apply fromisoformat_in_range in E.
Qed.

Lemma group_rows_in_range (rows : list (reading value))
    (temps hums : list (entry value)) (e : entry value) :
  group_rows value rows = Some (temps, hums) ->
  In e (temps ++ hums)%list -> in_range (timestamp e).
Proof.
  revert temps hums. induction rows as [|r rows IH]; intros temps hums H He.
  - cbn in H. inversion H; subst. contradiction.
  - cbn [group_rows] in H.
    destruct (entry_of value r (r_temperature r)) as [t|] eqn:Et; [|discriminate].
    destruct (entry_of value r (r_humidity r)) as [hm|] eqn:Eh; [|discriminate].
    destruct (group_rows value rows) as [[ts hs]|]; [|discriminate].
    inversion H; subst; clear H.
    apply in_app_or in He. destruct He as [He|He]; apply in_app_or in He;
      destruct He as [He|He].
    + exact (entry_of_parsed r _ t e Et He).
    + apply (IH ts hs eq_refl). apply in_or_app. now left.
    + exact (entry_of_parsed r _ hm e Eh He).
    + apply (IH ts hs eq_refl). apply in_or_app. now right.
Qed.

Lemma demo_hours_bound (t : string) : 1 <= demo_hours t <= 720.
Proof.
  unfold demo_hours.
  repeat match goal with |- context [if ?b then _ else _] => destruct b end; lia.
Qed.

Lemma in_enumerate {A} (l : list A) (i : Z) (x : A) :
  In (i, x) (enumerate l) -> In x l.
Proof. unfold enumerate. apply in_combine_r. Qed.

Variable value_of_int : Z -> value.
Variable repr : value -> string.

Lemma strftime_column_spec (df : frame value) (cells : list (csv_row value)) :
  strftime_column value df = Some cells ->
  timestamps df <> Object
  /\ cells = map (format_row value) (frows df)
  /\ forall r, In r (frows df) -> in_range (f_timestamp r).
Proof.
  unfold strftime_column.
  destruct (forallb (fun r => representable (f_timestamp r)) (frows df)) eqn:E.
  - rewrite forallb_forall in E.
    destruct (timestamps df); intros [= <-] || discriminate;
      (split; [discriminate|]); (split; [reflexivity|]);
      intros r Hr; apply representable_spec; now apply E.
  - destruct (timestamps df); discriminate.
Qed.


End CsvExport.


(* ================================================================== *)
(** ** Further properties *)

(** *** Dicts *)

Lemma name_eqb_spec (a b : option string) : reflect (a = b) (name_eqb a b).
Proof.
  destruct a as [x|], b as [y|]; cbn; try (constructor; congruence).
  destruct (String.eqb_spec x y); constructor; congruence.
Qed.

Lemma name_eqb_refl (a : option string) : name_eqb a a = true.
Proof. destruct (name_eqb_spec a a); congruence. Qed.

Lemma dict_get_set {V} (k k' : option string) (v : V) (d : list (option string * V)) :
  dict_get k' (dict_set k v d)
  = if name_eqb k k' then Some v else dict_get k' d.
Proof.
  induction d as [|[k0 v0] d IH]; cbn.
  - reflexivity.
  - destruct (name_eqb_spec k0 k) as [->|Hk0]; cbn.
    + destruct (name_eqb k k'); reflexivity.
    + destruct (name_eqb_spec k0 k') as [->|Hk']; [|exact IH].
      destruct (name_eqb_spec k k') as [->|_]; [congruence|reflexivity].
Qed.

Lemma dict_set_keys {V} (k : option string) (v : V) (d : list (option string * V)) (x : option string) :
  In x (map fst (dict_set k v d)) <-> x = k \/ In x (map fst d).
Proof.
  induction d as [|[k0 v0] d IH]; cbn.
  - intuition.
  - destruct (name_eqb_spec k0 k) as [->|Hk0]; cbn; [intuition|].
    rewrite IH. intuition.
Qed.

Lemma dict_set_nodup {V} (k : option string) (v : V) (d : list (option string * V)) :
  NoDup (map fst d) -> NoDup (map fst (dict_set k v d)).
Proof.
  induction d as [|[k0 v0] d IH]; cbn; intros H.
  - constructor; [intros []|constructor].
  - destruct (name_eqb_spec k0 k) as [->|Hk0]; cbn; [exact H|].
    inversion H; subst. constructor; [|now apply IH].
    rewrite dict_set_keys. intuition.
Qed.

Lemma dict_get_in {V} (k : option string) (v : V) (d : list (option string * V)) :
  NoDup (map fst d) -> In (k, v) d -> dict_get k d = Some v.
Proof.
  induction d as [|[k0 v0] d IH]; cbn; intros Hnd Hin; [contradiction|].
  inversion Hnd; subst. destruct Hin as [[= -> ->]|Hin].
  - now rewrite name_eqb_refl.
  - destruct (name_eqb_spec k0 k) as [->|_]; [|now apply IH].
    exfalso. apply H1. apply in_map_iff. exists (k, v). auto.
Qed.

Lemma unique_in (l : list string) (x : string) : In x (unique l) <-> In x l.
Proof.
  induction l as [|y l IH]; cbn; [tauto|].
  rewrite filter_In, IH, negb_true_iff, String.eqb_neq.
  destruct (string_dec y x); intuition congruence.
Qed.

Lemma unique_nodup (l : list string) : NoDup (unique l).
Proof.
  induction l as [|y l IH]; cbn; constructor.
  - rewrite filter_In, negb_true_iff, String.eqb_neq. intuition.
  - now apply NoDup_filter.
Qed.


(** *** The summary chart *)

Section SummaryChart.

Variable value : Type.
Variable value_of_int : Z -> value.
Variable float_of_text : string -> option value.

Lemma add_temperatures_get (sensors : list card) (d d' : device_dict value)
    (k : option string) :
  add_temperatures value float_of_text sensors d = Some d' ->
  dict_get k d'
  = match last_text k sensors with
    | Some t => Some (mkvalues (float_of_text t) None)
    | None => dict_get k d
    end.
Proof.
  revert d. induction sensors as [|c rest IH]; intros d H; cbn in H.
  - inversion H; subst. reflexivity.
  - destruct (float_of_text (sensor_value c)) as [v|] eqn:Ev; [|discriminate].
    rewrite (IH _ H). cbn [last_text].
    destruct (last_text k rest); [reflexivity|].
    rewrite dict_get_set. destruct (name_eqb (sensor_name c) k);
      [now rewrite Ev|reflexivity].
Qed.

Lemma add_humidities_get (sensors : list card) (d d' : device_dict value)
    (k : option string) :
  add_humidities value float_of_text sensors d = Some d' ->
  dict_get k d'
  = match last_text k sensors with
    | Some t =>
        Some (mkvalues (match dict_get k d with
                        | Some e => v_temp e
                        | None => None
                        end) (float_of_text t))
    | None => dict_get k d
    end.
Proof.
  revert d. induction sensors as [|c rest IH]; intros d H; cbn in H.
  - inversion H; subst. reflexivity.
  - cbn [add_humidities] in H.
    destruct (float_of_text (sensor_value c)) as [v|] eqn:Ev; [|discriminate].
    destruct (dict_get (sensor_name c) d) as [e|] eqn:Ed;
      rewrite (IH _ H); cbn [last_text]; rewrite !dict_get_set;
      destruct (name_eqb_spec (sensor_name c) k) as [<-|Hne];
      destruct (last_text _ rest) as [t|]; cbn;
      rewrite ?Ed, ?Ev; reflexivity.
Qed.

Lemma add_temperatures_keys (sensors : list card) (d d' : device_dict value) :
  add_temperatures value float_of_text sensors d = Some d' ->
  (NoDup (map fst d) -> NoDup (map fst d'))
  /\ forall k, In k (map fst d')
               <-> In k (map fst d) \/ In k (map sensor_name sensors).
Proof.
  revert d. induction sensors as [|c rest IH]; intros d H; cbn in H.
  - inversion H; subst. cbn. intuition.
  - destruct (float_of_text (sensor_value c)) as [v|]; [|discriminate].
    destruct (IH _ H) as [Hnd Hk]. split.
    + intros Hd. apply Hnd. now apply dict_set_nodup.
    + intros k. rewrite Hk, dict_set_keys. cbn. intuition.
Qed.

Lemma add_humidities_keys (sensors : list card) (d d' : device_dict value) :
  add_humidities value float_of_text sensors d = Some d' ->
  (NoDup (map fst d) -> NoDup (map fst d'))
  /\ forall k, In k (map fst d')
               <-> In k (map fst d) \/ In k (map sensor_name sensors).
Proof.
  revert d. induction sensors as [|c rest IH]; intros d H; cbn in H.
  - inversion H; subst. cbn. intuition.
  - destruct (float_of_text (sensor_value c)) as [v|]; [|discriminate].
    destruct (IH _ H) as [Hnd Hk]. split.
    + intros Hd. apply Hnd.
      destruct (dict_get (sensor_name c) d); now apply dict_set_nodup.
    + intros k. rewrite Hk. cbn.
      destruct (dict_get (sensor_name c) d); rewrite dict_set_keys; intuition.
Qed.

Lemma add_temperatures_total (sensors : list card) (d : device_dict value) :
  (forall c, In c sensors -> float_of_text (sensor_value c) <> None) ->
  exists d', add_temperatures value float_of_text sensors d = Some d'.
Proof.
  revert d. induction sensors as [|c rest IH]; intros d H; cbn.
  - eauto.
  - destruct (float_of_text (sensor_value c)) as [v|] eqn:Ev.
    + apply IH. intros c' Hc'. apply H. now right.
    + exfalso. apply (H c); [now left|exact Ev].
Qed.

Lemma add_humidities_total (sensors : list card) (d : device_dict value) :
  (forall c, In c sensors -> float_of_text (sensor_value c) <> None) ->
  exists d', add_humidities value float_of_text sensors d = Some d'.
Proof.
  revert d. induction sensors as [|c rest IH]; intros d H; cbn.
  - eauto.
  - destruct (float_of_text (sensor_value c)) as [v|] eqn:Ev.
    + apply IH. intros c' Hc'. apply H. now right.
    + exfalso. apply (H c); [now left|exact Ev].
Qed.

Lemma add_temperatures_fails (sensors : list card) (d : device_dict value) :
  add_temperatures value float_of_text sensors d = None
  <-> exists c, In c sensors /\ float_of_text (sensor_value c) = None.
Proof.
  revert d. induction sensors as [|c rest IH]; intros d; cbn.
  - split; [discriminate|intros (c & [] & _)].
  - destruct (float_of_text (sensor_value c)) as [v|] eqn:Ev.
    + rewrite IH. split; intros (c' & Hc' & E); exists c'; [auto|].
      destruct Hc' as [<-|Hc']; [congruence|auto].
    + split; [eauto|reflexivity].
Qed.

Lemma add_humidities_fails (sensors : list card) (d : device_dict value) :
  add_humidities value float_of_text sensors d = None
  <-> exists c, In c sensors /\ float_of_text (sensor_value c) = None.
Proof.
  revert d. induction sensors as [|c rest IH]; intros d; cbn.
  - split; [discriminate|intros (c & [] & _)].
  - destruct (float_of_text (sensor_value c)) as [v|] eqn:Ev.
    + rewrite IH. split; intros (c' & Hc' & E); exists c'; [auto|].
      destruct Hc' as [<-|Hc']; [congruence|auto].
    + split; [eauto|reflexivity].
Qed.

(** The summary of a non-empty pair of card lists whose values all
    parse, in full. *)
Lemma summary_chart_spec (data : sensor_data) :
  (forall c, In c (temperature_sensors data ++ humidity_sensors data)%list ->
             float_of_text (sensor_value c) <> None) ->
  temperature_sensors data <> [] \/ humidity_sensors data <> [] ->
  exists devices ts hs,
    create_sensor_summary_chart value value_of_int float_of_text data
      = Some (Bars (mkbars devices (Some ts) (Some hs)))
    /\ NoDup devices
    /\ (forall n, In n devices
                  <-> In n (map sensor_name
                              (temperature_sensors data ++ humidity_sensors data)))
    /\ List.length ts = List.length devices
    /\ List.length hs = List.length devices
    /\ (forall i n, nth_error devices i = Some n ->
          nth_error ts i
            = Some (or_zero value value_of_int
                      (latest_value value float_of_text n (temperature_sensors data)))
          /\ nth_error hs i
             = Some (or_zero value value_of_int
                       (latest_value value float_of_text n (humidity_sensors data)))).
Proof.
  destruct data as [temps hums]. cbn [temperature_sensors humidity_sensors].
  intros Hparse Hne.
  destruct (add_temperatures_total temps [])
    as [d1 Hd1]; [intros c Hc; apply Hparse, in_or_app; now left|].
  destruct (add_humidities_total hums d1)
    as [dd Hdd]; [intros c Hc; apply Hparse, in_or_app; now right|].
  destruct (add_temperatures_keys temps [] d1 Hd1)
    as [Hnd1 Hk1].
  destruct (add_humidities_keys hums d1 dd Hdd)
    as [Hnd Hk].
  assert (Hnodup : NoDup (map fst dd)) by (apply Hnd, Hnd1; constructor).
  assert (Hmem : forall n, In n (map fst dd)
                           <-> In n (map sensor_name (temps ++ hums))).
  { intros n. rewrite Hk, Hk1, map_app, in_app_iff. cbn. tauto. }
  assert (Hdd_ne : nonempty dd = true).
  { destruct dd as [|p dd']; [|reflexivity]. exfalso.
    destruct temps as [|c temps].
    - destruct hums as [|c hums]; [destruct Hne; congruence|].
      apply (proj2 (Hmem (sensor_name c))). cbn. now left.
    - apply (proj2 (Hmem (sensor_name c))). cbn. now left. }
  exists (map fst dd),
    (map (fun kv => or_zero value value_of_int (v_temp (snd kv))) dd),
    (map (fun kv => or_zero value value_of_int (v_humidity (snd kv))) dd).
  split.
  { unfold create_sensor_summary_chart.
    cbn [temperature_sensors humidity_sensors].
    replace (negb (nonempty temps) && negb (nonempty hums)) with false
      by (destruct temps, hums; try reflexivity; destruct Hne; congruence).
    rewrite Hd1, Hdd.
    destruct dd as [|p dd']; [discriminate Hdd_ne|]. reflexivity. }
  split; [exact Hnodup|]. split; [exact Hmem|].
  split; [now rewrite !length_map|]. split; [now rewrite !length_map|].
  intros i n Hi. rewrite !nth_error_map in *.
  destruct (nth_error dd i) as [[k e]|] eqn:Ei; [|discriminate].
  cbn in Hi. inversion Hi; subst k. cbn [option_map snd].
  pose proof (dict_get_in n e dd Hnodup (nth_error_In _ _ Ei)) as Hget.
  rewrite (add_humidities_get hums d1 dd n Hdd) in Hget.
  rewrite (add_temperatures_get temps [] d1 n Hd1) in Hget.
  unfold latest_value. cbn [dict_get] in Hget.
  destruct (last_text n temps) as [t|], (last_text n hums) as [u|];
    inversion Hget; subst e; cbn; split; reflexivity.
Qed.

(** X1.  The summary chart is the placeholder figure exactly when both
    card lists are empty, and building it fails exactly when a list is
    non-empty and the value text of some card is not a number. *)
Theorem summary_chart_placeholder_and_failure (data : sensor_data) :
  (create_sensor_summary_chart value value_of_int float_of_text data
     = Some NoSensorData
   <-> temperature_sensors data = [] /\ humidity_sensors data = [])
  /\ (create_sensor_summary_chart value value_of_int float_of_text data = None
      <-> exists c,
            In c (temperature_sensors data ++ humidity_sensors data)%list
            /\ float_of_text (sensor_value c) = None).
Proof.
  destruct data as [temps hums].
  unfold create_sensor_summary_chart. cbn [temperature_sensors humidity_sensors].
  destruct (negb (nonempty temps) && negb (nonempty hums)) eqn:Eb.
  - assert (temps = [] /\ hums = []) as [-> ->].
    { destruct temps, hums; try discriminate Eb. auto. }
    split; [tauto|]. split; [discriminate|intros (c & [] & _)].
  - assert (Hne : ~ (temps = [] /\ hums = [])).
    { intros [-> ->]. discriminate Eb. }
    pose proof (add_temperatures_fails temps []) as Ft.
    destruct (add_temperatures value float_of_text temps []) as [d1|].
    + pose proof (add_humidities_fails hums d1) as Fh.
      destruct (add_humidities value float_of_text hums d1) as [dd|].
      * split; [split; [discriminate|tauto]|].
        split; [discriminate|]. intros (c & Hc & Ec).
        apply in_app_or in Hc. destruct Hc as [Hc|Hc].
        -- assert (H : Some d1 = None) by (apply Ft; eauto).
           discriminate H.
        -- assert (H : Some dd = None) by (apply Fh; eauto).
           discriminate H.
      * split; [split; [discriminate|tauto]|].
        split; [|reflexivity]. intros _.
        destruct (proj1 Fh eq_refl) as (c & Hc & Ec).
        exists c. split; [apply in_or_app; now right|exact Ec].
    + split; [split; [discriminate|tauto]|].
      split; [|reflexivity]. intros _.
      destruct (proj1 Ft eq_refl) as (c & Hc & Ec).
      exists c. split; [apply in_or_app; now left|exact Ec].
Qed.

(** X2.  When the card values all parse and some card exists, the chart
    has one position per distinct device name of either list, and both
    the temperature and the humidity trace are drawn with one bar per
    device. *)
Theorem summary_chart_one_bar_per_device (data : sensor_data) :
  (forall c, In c (temperature_sensors data ++ humidity_sensors data)%list ->
             float_of_text (sensor_value c) <> None) ->
  temperature_sensors data <> [] \/ humidity_sensors data <> [] ->
  exists devices ts hs,
    create_sensor_summary_chart value value_of_int float_of_text data
      = Some (Bars (mkbars devices (Some ts) (Some hs)))
    /\ NoDup devices
    /\ (forall n, In n devices
                  <-> In n (map sensor_name
                              (temperature_sensors data ++ humidity_sensors data)))
    /\ List.length ts = List.length devices
    /\ List.length hs = List.length devices.
Proof.
  intros Hp Hne.
  destruct (summary_chart_spec data Hp Hne)
    as (devices & ts & hs & H1 & H2 & H3 & H4 & H5 & _).
  exists devices, ts, hs. auto.
Qed.

(** X3.  In the summary chart the bar of a device is the value of the
    last card of that name in the list, and zero when the list has no
    card of that name: a device seen only among the temperature cards
    gets humidity 0, and one seen only among the humidity cards gets
    temperature 0. *)
Theorem summary_chart_bars (data : sensor_data) (devices : list (option string))
    (ts hs : list value) (i : nat) (n : option string) :
  (forall c, In c (temperature_sensors data ++ humidity_sensors data)%list ->
             float_of_text (sensor_value c) <> None) ->
  create_sensor_summary_chart value value_of_int float_of_text data
    = Some (Bars (mkbars devices (Some ts) (Some hs))) ->
  nth_error devices i = Some n ->
  nth_error ts i
    = Some (or_zero value value_of_int
              (latest_value value float_of_text n (temperature_sensors data)))
  /\ nth_error hs i
     = Some (or_zero value value_of_int
               (latest_value value float_of_text n (humidity_sensors data)))
  /\ (~ In n (map sensor_name (temperature_sensors data)) ->
      nth_error ts i = Some (value_of_int 0))
  /\ (~ In n (map sensor_name (humidity_sensors data)) ->
      nth_error hs i = Some (value_of_int 0)).
Proof.
  intros Hp Hres Hi.
  assert (Hne : temperature_sensors data <> [] \/ humidity_sensors data <> []).
  { destruct (temperature_sensors data) eqn:Et; [|left; discriminate].
    destruct (humidity_sensors data) eqn:Eh; [|right; discriminate].
    unfold create_sensor_summary_chart in Hres. rewrite Et, Eh in Hres.
    discriminate. }
  destruct (summary_chart_spec data Hp Hne)
    as (devices' & ts' & hs' & H1 & _ & _ & _ & _ & H6).
  rewrite H1 in Hres. inversion Hres; subst devices' ts' hs'.
  destruct (H6 i n Hi) as [Ht Hh]. split; [exact Ht|]. split; [exact Hh|].
  assert (Hlast : forall l, ~ In n (map sensor_name l) -> last_text n l = None).
  { induction l as [|c l IH]; cbn; [reflexivity|]. intros Hn.
    rewrite IH by tauto.
    destruct (name_eqb_spec (sensor_name c) n); [tauto|reflexivity]. }
  split; intros Hn; [rewrite Ht|rewrite Hh]; unfold latest_value;
    now rewrite (Hlast _ Hn).
Qed.

End SummaryChart.

Lemma summary_chart_one_bar_per_device_witness :
  exists devices ts hs,
    create_sensor_summary_chart Z (fun z => z) SampleUI.tenths SampleUI.cards
      = Some (Bars (mkbars devices (Some ts) (Some hs)))
    /\ NoDup devices
    /\ List.length ts = List.length devices.
Proof.
  destruct (summary_chart_one_bar_per_device Z (fun z => z) SampleUI.tenths
              SampleUI.cards)
    as (devices & ts & hs & H1 & H2 & _ & H4 & _).
  - intros c Hc. cbn in Hc.
    repeat (destruct Hc as [<-|Hc]; [vm_compute; discriminate|]).
    contradiction.
  - left. discriminate.
  - exists devices, ts, hs. auto.
Defined.

Lemma summary_chart_bars_witness :
  nth_error [225; 120; 0] 2 = Some 0
  /\ nth_error [0; 700; 555] 2 = Some 555.
Proof.
  destruct (summary_chart_bars Z (fun z => z) SampleUI.tenths SampleUI.cards
              [Some "Attic"; Some "Cellar"; Some "Porch"] [225; 120; 0]
              [0; 700; 555] 2%nat (Some "Porch"))
    as (Ht & Hh & _).
  - intros c Hc. cbn in Hc.
    repeat (destruct Hc as [<-|Hc]; [vm_compute; discriminate|]).
    contradiction.
  - vm_compute. reflexivity.
  - reflexivity.
  - split; [exact Ht | exact Hh].
Defined.

(** *** The trend graphs *)

Section TrendGraphs.

Variable value : Type.

Lemma humidity_traces_names (data : list (entry value)) (devices : list string)
    (added : nat) :
  map trace_name (humidity_traces value data devices added) = devices.
Proof.
  revert added. induction devices as [|d devices IH]; intros added; cbn;
    [reflexivity|now rewrite IH].
Qed.

Lemma humidity_traces_nth (data : list (entry value)) (devices : list string)
    (added i : nat) (tr : trace value) :
  nth_error (humidity_traces value data devices added) i = Some tr ->
  exists device,
    nth_error devices i = Some device
    /\ tr = mktrace device (map timestamp (device_rows value device data))
              (map measurement (device_rows value device data))
              (0 <? added + i)%nat.
Proof.
  revert added i. induction devices as [|d devices IH]; intros added i H.
  - destruct i; discriminate.
  - destruct i as [|i]; cbn in H.
    + inversion H; subst. exists d. rewrite Nat.add_0_r. auto.
    + destruct (IH (S added) i H) as (device & Hd & ->).
      exists device. split; [exact Hd|]. do 2 f_equal. lia.
Qed.

Lemma count_absent (x : string) (ks : list string) :
  ~ In x ks ->
  list_sum (map (fun k => if String.eqb x k then 1%nat else 0%nat) ks) = 0%nat.
Proof.
  induction ks as [|k ks IH]; intros Hin; [reflexivity|]. cbn.
  destruct (String.eqb_spec x k) as [->|_]; [exfalso; apply Hin; now left|].
  apply IH. intros H. apply Hin. now right.
Qed.

Lemma count_once (x : string) (ks : list string) :
  NoDup ks -> In x ks ->
  list_sum (map (fun k => if String.eqb x k then 1%nat else 0%nat) ks) = 1%nat.
Proof.
  induction ks as [|k ks IH]; intros Hnd Hin; [contradiction|].
  inversion Hnd; subst. cbn.
  destruct (String.eqb_spec x k) as [->|Hne].
  - now rewrite count_absent.
  - destruct Hin as [->|Hin]; [congruence|]. now apply IH.
Qed.

(** Over distinct names that cover the data, the per-device row counts
    add up to the number of rows. *)
Lemma device_rows_partition (data : list (entry value)) (ks : list string) :
  NoDup ks ->
  (forall e, In e data -> In (device_name e) ks) ->
  list_sum (map (fun k => List.length (device_rows value k data)) ks)
  = List.length data.
Proof.
  intros Hnd. induction data as [|e data IH]; intros Hcov.
  - clear Hnd Hcov. induction ks as [|k ks IHk]; [reflexivity|exact IHk].
  - assert (Hsplit : forall ks',
      list_sum (map (fun k => List.length (device_rows value k (e :: data))) ks')
      = (list_sum (map (fun k => if String.eqb (device_name e) k
                                 then 1%nat else 0%nat) ks')
         + list_sum (map (fun k => List.length (device_rows value k data)) ks'))%nat).
    { unfold list_sum.
      induction ks' as [|k ks' IHk]; [reflexivity|]. cbn [map fold_right].
      rewrite IHk. unfold device_rows at 1. cbn [filter].
      fold (device_rows value k data).
      destruct (String.eqb (device_name e) k); cbn [List.length]; lia. }
    rewrite Hsplit, IH by (intros e' He'; apply Hcov; now right).
    rewrite (count_once (device_name e) ks Hnd) by (apply Hcov; now left).
    reflexivity.
Qed.

Lemma filter_ascending {A} (k : A -> Z) (f : A -> bool) (l : list A) :
  ascending k l -> ascending k (filter f l).
Proof.
  unfold ascending. induction 1 as [|a l Hs IH Ha]; cbn; [constructor|].
  destruct (f a); [|exact IH]. constructor; [exact IH|].
  apply Forall_forall. intros x Hx. apply filter_In in Hx.
  now apply (proj1 (Forall_forall _ _) Ha).
Qed.

Lemma map_ascending {A B} (k : B -> Z) (g : A -> B) (l : list A) :
  ascending (fun a => k (g a)) l -> ascending k (map g l).
Proof.
  unfold ascending. induction 1 as [|a l Hs IH Ha]; cbn; constructor;
    [exact IH|].
  apply Forall_forall. intros x Hx. apply in_map_iff in Hx.
  destruct Hx as (y & <- & Hy). now apply (proj1 (Forall_forall _ _) Ha).
Qed.


(** X5.  In either trend graph every trace holds exactly the rows of its
    device, in the order of the data, so the traces together hold as
    many points as the data has rows, and when the data is in ascending
    timestamp order so is every trace. *)
Theorem trend_graph_points (data : list (entry value)) (time_range : string)
    (title : string) (traces : list (trace value)) :
  create_temperature_graph value data time_range = Lines title traces
  \/ create_humidity_graph value data time_range = Lines title traces ->
  (forall tr, In tr traces ->
     trace_x tr = map timestamp (device_rows value (trace_name tr) data)
     /\ trace_y tr = map measurement (device_rows value (trace_name tr) data)
     /\ (ascending (fun e => key (timestamp e)) data -> ascending key (trace_x tr)))
  /\ list_sum (map (fun tr => List.length (trace_x tr)) traces)
     = List.length data.
Proof.
  intros H.
  assert (Hshape : map trace_name traces = unique (map device_name data)
                   /\ forall tr, In tr traces ->
                        trace_x tr = map timestamp (device_rows value (trace_name tr) data)
                        /\ trace_y tr = map measurement (device_rows value (trace_name tr) data)).
  { destruct H as [H|H];
      [unfold create_temperature_graph in H|unfold create_humidity_graph in H];
      destruct (negb (nonempty data)); try discriminate; inversion H; subst.
    - split; [rewrite map_map; cbn [trace_name]; apply map_id|].
      intros tr Htr. apply in_map_iff in Htr. destruct Htr as (d & <- & _).
      split; reflexivity.
    - split; [apply humidity_traces_names|].
      intros tr Htr. apply In_nth_error in Htr. destruct Htr as (i & Hi).
      apply humidity_traces_nth in Hi. destruct Hi as (d & _ & ->).
      split; reflexivity. }
  destruct Hshape as [Hnames Hrows]. split.
  - intros tr Htr. destruct (Hrows tr Htr) as [Hx Hy].
    split; [exact Hx|]. split; [exact Hy|].
    intros Hasc. rewrite Hx. apply map_ascending. now apply filter_ascending.
  - transitivity
      (list_sum (map (fun k => List.length (device_rows value k data))
                     (map trace_name traces))).
    + rewrite map_map. f_equal. apply map_ext_in. intros tr Htr.
      destruct (Hrows tr Htr) as [-> _]. now rewrite length_map.
    + rewrite Hnames. apply device_rows_partition; [apply unique_nodup|].
      intros e He. apply unique_in. now apply in_map.
Qed.

(** X6.  The humidity graph fills every trace but the first down to the
    trace before it; the temperature graph fills none. *)
Theorem trend_graph_fill (data : list (entry value)) (time_range : string) :
  (forall title traces i tr,
      create_humidity_graph value data time_range = Lines title traces ->
      nth_error traces i = Some tr ->
      fill_tonexty tr = (0 <? i)%nat)
  /\ (forall title traces tr,
      create_temperature_graph value data time_range = Lines title traces ->
      In tr traces -> fill_tonexty tr = false).
Proof.
  split.
  - intros title traces i tr H Hi. unfold create_humidity_graph in H.
    destruct (negb (nonempty data)); [discriminate|]. inversion H; subst.
    apply humidity_traces_nth in Hi. destruct Hi as (d & _ & ->). reflexivity.
  - intros title traces tr H Htr. unfold create_temperature_graph in H.
    destruct (negb (nonempty data)); [discriminate|]. inversion H; subst.
    apply in_map_iff in Htr. destruct Htr as (d & <- & _). reflexivity.
Qed.

End TrendGraphs.


Lemma trend_graph_points_witness :
  list_sum
    (map (fun tr => List.length (trace_x tr))
       [ mktrace "A" [mkdt 63839782800000000 (Some 0);
                      mkdt 63839786400000000 (Some 0)] [21; 22] false;
         mktrace "B" [mkdt 63839782800000000 (Some 0)] [19] true ])
  = List.length SampleUI.series.
Proof.
  apply (trend_graph_points Z SampleUI.series "7d" "Humidity Trends - Last 7 Days").
  right. reflexivity.
Defined.

Lemma trend_graph_fill_witness :
  exists title traces tr,
    create_humidity_graph Z SampleUI.series "7d" = Lines title traces
    /\ nth_error traces 1 = Some tr
    /\ fill_tonexty tr = true.
Proof.
  do 3 eexists. split; [vm_compute; reflexivity|].
  split; [vm_compute; reflexivity|].
  destruct (trend_graph_fill Z SampleUI.series "7d") as [Hf _].
  eapply (Hf _ _ 1%nat); vm_compute; reflexivity.
Defined.

(** *** Sessions *)

Section Sessions.

Variable value : Type.
Variable value_of_int : Z -> value.
Variable CYPRUS_TZ : tzinfo.
Variable DASHBOARD_USER DASHBOARD_PASS : string.

Lemma run_snoc (actions : list action) (a : action) (self : dashboard value) :
  run CYPRUS_TZ DASHBOARD_USER DASHBOARD_PASS (actions ++ [a]) self
  = perform value CYPRUS_TZ DASHBOARD_USER DASHBOARD_PASS a
      (run CYPRUS_TZ DASHBOARD_USER DASHBOARD_PASS actions self).
Proof. unfold run. now rewrite fold_left_app. Qed.

Lemma perform_filter_ok (a : action) (self : dashboard value) :
  ui_action a = true -> filter_ok self ->
  filter_ok (perform value CYPRUS_TZ DASHBOARD_USER DASHBOARD_PASS a self).
Proof.
  intros Ha Hok. destruct a as [u p| |t|s e|clock]; unfold perform.
  - unfold handle_login.
    destruct (authenticate DASHBOARD_USER DASHBOARD_PASS u p); exact Hok.
  - exact Hok.
  - cbn in Ha. unfold filter_ok, apply_filter. cbn.
    split; [now left|]. intros ->. discriminate Ha.
  - unfold apply_custom_filter.
    destruct (truthy s && truthy e) eqn:E; [|exact Hok].
    apply andb_true_iff in E. unfold filter_ok. cbn. split; [now right|auto].
  - pose proof (fetch_device_stats_frame value CYPRUS_TZ clock self)
      as (_ & _ & Hf & Hs & He).
    unfold filter_ok in *. cbv zeta in Hf, Hs, He. now rewrite Hf, Hs, He.
Qed.

(** X7.  From a fresh dashboard, after any sequence of logins, logouts,
    refreshes, filter-button presses and custom-range submissions, the
    filter is one of the five tokens, and while it is custom both dates
    are present and non-empty: a refresh then queries with those dates,
    and with a button token it queries the documented window. *)
Theorem filter_stays_well_formed (c : option (client value))
    (actions : list action) (clock : Z) :
  forallb ui_action actions = true ->
  let self := run CYPRUS_TZ DASHBOARD_USER DASHBOARD_PASS actions (init value c) in
  filter_ok self
  /\ ((button_token (filter_range self) = true
       /\ refresh_graphs value value_of_int CYPRUS_TZ self clock
          = fetch_historical_data value value_of_int CYPRUS_TZ self clock
              (filter_range self) None None
       /\ query_window CYPRUS_TZ clock (filter_range self) None None
          = Some (sub_td (now CYPRUS_TZ clock)
                    (timedelta_hours (documented_hours (filter_range self))),
                  now CYPRUS_TZ clock))
      \/ (filter_range self = "custom"
          /\ exists sd ed,
               custom_start_date self = Some sd /\ sd <> ""
               /\ custom_end_date self = Some ed /\ ed <> ""
               /\ refresh_graphs value value_of_int CYPRUS_TZ self clock
                  = fetch_historical_data value value_of_int CYPRUS_TZ self clock
                      "custom" (Some sd) (Some ed))).
Proof.
  intros Hui. cbv zeta.
  assert (Hok : filter_ok
                  (run CYPRUS_TZ DASHBOARD_USER DASHBOARD_PASS actions (init value c))).
  { induction actions as [|a actions IH] using rev_ind.
    - unfold filter_ok. cbn. split; [now left|discriminate].
    - rewrite forallb_app in Hui. apply andb_true_iff in Hui.
      destruct Hui as [Hui Ha]. cbn in Ha. rewrite andb_true_r in Ha.
      rewrite run_snoc. apply perform_filter_ok; auto. }
  split; [exact Hok|].
  set (self := run CYPRUS_TZ DASHBOARD_USER DASHBOARD_PASS actions (init value c)) in *.
  destruct Hok as [[Hb|Hc] Hdates].
  - left. split; [exact Hb|].
    assert (Hnc : String.eqb (filter_range self) "custom" = false).
    { destruct (String.eqb_spec (filter_range self) "custom") as [E|]; [|reflexivity].
      rewrite E in Hb. discriminate Hb. }
    split; [unfold refresh_graphs; now rewrite Hnc|].
    apply query_window_relative. now rewrite Hnc.
  - right. split; [exact Hc|]. destruct (Hdates Hc) as [Hs He].
    destruct (custom_start_date self) as [sd|] eqn:Es; [|discriminate Hs].
    destruct (custom_end_date self) as [ed|] eqn:Ee; [|discriminate He].
    exists sd, ed. cbn in Hs, He.
    apply negb_true_iff, String.eqb_neq in Hs, He.
    repeat split; auto.
    unfold refresh_graphs. now rewrite Hc, Es, Ee.
Qed.

Lemma snoc_split {A} (l pre post : list A) (a x : A) :
  (l ++ [a] = pre ++ x :: post)%list ->
  (post = [] /\ x = a /\ pre = l)
  \/ exists post', (post = post' ++ [a] /\ l = pre ++ x :: post')%list.
Proof.
  intros H. destruct (exists_last (l := x :: post)) as (body & z & E);
    [discriminate|].
  destruct post as [|y post].
  - left. apply (app_inj_tail l pre a x) in H. destruct H. auto.
  - right. destruct body as [|b body]; [discriminate E|].
    inversion E; subst b. exists body. rewrite H2 in H.
    change (pre ++ x :: body ++ [z])%list with (pre ++ (x :: body) ++ [z])%list in H.
    rewrite app_assoc in H. apply app_inj_tail in H. destruct H as [-> ->].
    auto.
Qed.

(** X8.  After any sequence of actions on a fresh dashboard the session
    is authenticated exactly when the sequence contains a login with
    the configured credentials that no logout follows. *)
Theorem authenticated_iff_login_not_undone (c : option (client value))
    (actions : list action) :
  authenticated
    (run CYPRUS_TZ DASHBOARD_USER DASHBOARD_PASS actions (init value c)) = true
  <-> exists pre username password post,
        actions = (pre ++ Login username password :: post)%list
        /\ authenticate DASHBOARD_USER DASHBOARD_PASS username password = true
        /\ forallb (fun a => negb (is_logout a)) post = true.
Proof.
  induction actions as [|a actions IH] using rev_ind.
  - cbn. split; [discriminate|].
    intros (pre & u & p & post & E & _). destruct pre; discriminate E.
  - rewrite run_snoc.
    set (self := run CYPRUS_TZ DASHBOARD_USER DASHBOARD_PASS actions (init value c)) in *.
    assert (Hkeep : is_logout a = false ->
              (forall u p, a <> Login u p) ->
              authenticated
                (perform value CYPRUS_TZ DASHBOARD_USER DASHBOARD_PASS a self)
              = authenticated self).
    { intros Hl Hn. destruct a as [u p| |t|s e|clock]; unfold perform.
      - exfalso. now apply (Hn u p).
      - discriminate Hl.
      - reflexivity.
      - unfold apply_custom_filter. now destruct (truthy s && truthy e).
      - now destruct (fetch_device_stats_frame value CYPRUS_TZ clock self)
          as (_ & Ha & _). }
    assert (Hlater : forall pre u p post',
              actions = (pre ++ Login u p :: post')%list ->
              forallb (fun a => negb (is_logout a)) (post' ++ [a])%list = true ->
              authenticate DASHBOARD_USER DASHBOARD_PASS u p = true ->
              authenticated self = true /\ is_logout a = false).
    { intros pre u p post' E Hp Hauth. rewrite forallb_app in Hp.
      apply andb_true_iff in Hp. destruct Hp as [Hp Ha]. cbn in Ha.
      rewrite andb_true_r in Ha. apply negb_true_iff in Ha.
      split; [|exact Ha]. apply IH. exists pre, u, p, post'. auto. }
    split.
    + intros Hauth.
      destruct a as [u p| |t|s e|clock].
      * unfold perform, handle_login in Hauth.
        destruct (authenticate DASHBOARD_USER DASHBOARD_PASS u p) eqn:Ea.
        -- exists actions, u, p, []. auto.
        -- apply IH in Hauth. destruct Hauth as (pre & u' & p' & post & -> & Hu & Hp).
           exists pre, u', p', (post ++ [Login u p])%list.
           rewrite <- app_assoc. split; [reflexivity|]. split; [exact Hu|].
           rewrite forallb_app, Hp. reflexivity.
      * discriminate Hauth.
      * rewrite Hkeep in Hauth by (reflexivity || discriminate).
        apply IH in Hauth. destruct Hauth as (pre & u' & p' & post & -> & Hu & Hp).
        exists pre, u', p', (post ++ [ApplyFilter t])%list.
        rewrite <- app_assoc. split; [reflexivity|]. split; [exact Hu|].
        rewrite forallb_app, Hp. reflexivity.
      * rewrite Hkeep in Hauth by (reflexivity || discriminate).
        apply IH in Hauth. destruct Hauth as (pre & u' & p' & post & -> & Hu & Hp).
        exists pre, u', p', (post ++ [ApplyCustomFilter s e])%list.
        rewrite <- app_assoc. split; [reflexivity|]. split; [exact Hu|].
        rewrite forallb_app, Hp. reflexivity.
      * rewrite Hkeep in Hauth by (reflexivity || discriminate).
        apply IH in Hauth. destruct Hauth as (pre & u' & p' & post & -> & Hu & Hp).
        exists pre, u', p', (post ++ [Refresh clock])%list.
        rewrite <- app_assoc. split; [reflexivity|]. split; [exact Hu|].
        rewrite forallb_app, Hp. reflexivity.
    + intros (pre & u & p & post & E & Hu & Hp).
      apply snoc_split in E. destruct E as [(-> & [= <-] & ->)|(post' & -> & E)].
      * unfold perform, handle_login. now rewrite Hu.
      * destruct (Hlater pre u p post' E Hp Hu) as [Hs Hl].
        destruct a as [u0 p0| |t|s e|clock]; try discriminate Hl.
        -- unfold perform, handle_login.
           destruct (authenticate DASHBOARD_USER DASHBOARD_PASS u0 p0);
             [reflexivity|exact Hs].
        -- rewrite Hkeep by (reflexivity || discriminate). exact Hs.
        -- rewrite Hkeep by (reflexivity || discriminate). exact Hs.
        -- rewrite Hkeep by (reflexivity || discriminate). exact Hs.
Qed.

End Sessions.

Lemma filter_stays_well_formed_witness :
  filter_ok
    (run Sample.EET "admin" "password"
       [Login "admin" "password"; ApplyFilter "7d";
        ApplyCustomFilter (Some "2024-01-01") (Some "2024-01-02");
        ApplyCustomFilter (Some "2024-02-01") None; Refresh Sample.noon]
       (init Z (Some Sample.store))).
Proof.
  apply (filter_stays_well_formed Z (fun z => z) Sample.EET "admin" "password"
           (Some Sample.store) _ Sample.noon).
  reflexivity.
Defined.

Lemma authenticated_iff_login_not_undone_witness :
  authenticated
    (run Sample.EET "admin" "password"
       [Login "guest" "guest"; Login "admin" "password"; ApplyFilter "7d"]
       (init Z (Some Sample.store))) = true.
Proof.
  apply (authenticated_iff_login_not_undone Z Sample.EET "admin" "password").
  exists [Login "guest" "guest"], "admin", "password", [ApplyFilter "7d"].
  repeat split.
Defined.

(** *** Loading and exporting under a custom filter *)

Section CustomFilter.

Variable value : Type.
Variable value_of_int : Z -> value.
Variable CYPRUS_TZ : tzinfo.
Variable repr : value -> string.

Lemma fetch_without_dates_is_24h (self : dashboard value) (clock : Z) :
  fetch_historical_data value value_of_int CYPRUS_TZ self clock "custom" None None
  = fetch_historical_data value value_of_int CYPRUS_TZ self clock "24h" None None.
Proof.
  unfold fetch_historical_data. destruct (supabase self); [|reflexivity].
  now rewrite !query_window_relative.
Qed.

Lemma fetch_ignores_filter_field (self : dashboard value) (t t' : string)
    (clock : Z) (sd ed : option string) :
  fetch_historical_data value value_of_int CYPRUS_TZ (apply_filter value t' self)
    clock t sd ed
  = fetch_historical_data value value_of_int CYPRUS_TZ self clock t sd ed.
Proof. reflexivity. Qed.

(** X9.  While the filter is custom, an export never uses the chosen
    dates: whatever the data type, [export_to_csv] produces what it
    would produce under the 24h filter, and so does [export_data]. *)
Theorem export_ignores_custom_dates (self : dashboard value) (clock : Z)
    (data_type : string) :
  filter_range self = "custom" ->
  export_to_csv value value_of_int CYPRUS_TZ repr self clock data_type
  = export_to_csv value value_of_int CYPRUS_TZ repr
      (apply_filter value "24h" self) clock data_type
  /\ fst (export_data value value_of_int CYPRUS_TZ repr self clock data_type)
     = fst (export_data value value_of_int CYPRUS_TZ repr
              (apply_filter value "24h" self) clock data_type).
Proof.
  intros Hc.
  assert (E : export_to_csv value value_of_int CYPRUS_TZ repr self clock data_type
              = export_to_csv value value_of_int CYPRUS_TZ repr
                  (apply_filter value "24h" self) clock data_type).
  { unfold export_to_csv. rewrite Hc. cbn [filter_range apply_filter].
    now rewrite fetch_ignores_filter_field, fetch_without_dates_is_24h. }
  split; [exact E|]. unfold export_data. now rewrite E.
Qed.

(** X10.  While the filter is custom, the initial load of a page fetches
    the last 24 hours, not the custom range that a refresh fetches, and
    the temperature graph drawn from it is still titled Custom Range. *)
Theorem setup_loads_24h_under_custom (self : dashboard value) (clock : Z) :
  filter_range self = "custom" ->
  setup_dashboard value value_of_int CYPRUS_TZ self clock
    = fetch_historical_data value value_of_int CYPRUS_TZ self clock "24h" None None
  /\ refresh_graphs value value_of_int CYPRUS_TZ self clock
     = fetch_historical_data value value_of_int CYPRUS_TZ self clock "custom"
         (custom_start_date self) (custom_end_date self)
  /\ (forall fig,
        temperature_panel value self
          (setup_dashboard value value_of_int CYPRUS_TZ self clock) = Some fig ->
        exists traces,
          fig = Lines "Temperature Trends - Custom Range" traces).
Proof.
  intros Hc. split; [|split].
  - unfold setup_dashboard. rewrite Hc. apply fetch_without_dates_is_24h.
  - unfold refresh_graphs. now rewrite Hc.
  - intros fig. unfold temperature_panel.
    destruct (setup_dashboard value value_of_int CYPRUS_TZ self clock) as [h|];
      [|discriminate].
    destruct (nonempty (temperature_history h)) eqn:En; [|discriminate].
    intros [= <-]. unfold create_temperature_graph. rewrite En, Hc.
    eexists. reflexivity.
Qed.

End CustomFilter.

Lemma export_ignores_custom_dates_witness :
  export_to_csv Z (fun z => z) Sample.EET Sample.show SampleUI.custom_session
    Sample.noon "all"
  = export_to_csv Z (fun z => z) Sample.EET Sample.show
      (apply_filter Z "24h" SampleUI.custom_session) Sample.noon "all".
Proof.
  apply (export_ignores_custom_dates Z (fun z => z) Sample.EET Sample.show
           SampleUI.custom_session Sample.noon "all").
  reflexivity.
Defined.

Lemma setup_loads_24h_under_custom_witness :
  setup_dashboard Z (fun z => z) Sample.EET SampleUI.custom_session Sample.noon
  = fetch_historical_data Z (fun z => z) Sample.EET SampleUI.custom_session
      Sample.noon "24h" None None.
Proof.
  apply (setup_loads_24h_under_custom Z (fun z => z) Sample.EET
           SampleUI.custom_session Sample.noon).
  reflexivity.
Defined.

(** *** When an export yields a file *)

Lemma same_offset_refl (a : datetime) : same_offset a a = true.
Proof. unfold same_offset. destruct (tzoff a); [apply Z.eqb_refl|reflexivity]. Qed.

Lemma clash_infer (l : list datetime) (a b : datetime) :
  In a l -> In b l -> clash a b -> infer_dtype false l = Object.
Proof.
  intros Ha Hb Hc. destruct l as [|d rest]; [contradiction|].
  cbn [infer_dtype].
  destruct (forallb (same_offset d) rest) eqn:E; [|reflexivity].
  exfalso. rewrite forallb_forall in E.
  assert (Hall : forall x, In x (d :: rest) -> same_offset d x = true).
  { intros x [<-|Hx]; [apply same_offset_refl|now apply E]. }
  pose proof (Hall a Ha) as Sa. pose proof (Hall b Hb) as Sb.
  unfold same_offset, clash in *.
  destruct (tzoff d), (tzoff a), (tzoff b); try discriminate; try contradiction.
  apply Z.eqb_eq in Sa, Sb. congruence.
Qed.

Lemma uniform_infer (l : list datetime) :
  l <> [] ->
  (forall a b, In a l -> In b l -> same_offset a b = true) ->
  exists d, In d l
    /\ infer_dtype false l
       = match tzoff d with Some off => Fixed off | None => Naive end.
Proof.
  intros Hne Hu. destruct l as [|d rest]; [congruence|].
  exists d. split; [now left|]. cbn [infer_dtype].
  replace (forallb (same_offset d) rest) with true; [reflexivity|].
  symmetry. apply forallb_forall. intros x Hx. apply Hu; [now left|now right].
Qed.

Section ExportOutcome.

Variable value : Type.
Variable value_of_int : Z -> value.
Variable CYPRUS_TZ : tzinfo.
Variable repr : value -> string.

Lemma strftime_column_object (df : frame value) :
  timestamps df = Object -> strftime_column value (sort_values value df) = None.
Proof. intros H. unfold strftime_column, sort_values. cbn. now rewrite H. Qed.

Lemma strftime_column_some (df : frame value) :
  timestamps df <> Object ->
  (forall r, In r (frows df) -> in_range (f_timestamp r)) ->
  strftime_column value (sort_values value df)
  = Some (map (format_row value) (frows (sort_values value df))).
Proof.
  intros Hty Hr. unfold strftime_column, sort_values.
  cbn [timestamps frows].
  replace (forallb _ (order_by _ (frows df))) with true.
  - destruct (timestamps df); congruence.
  - symmetry. apply forallb_forall. intros r Hin.
    apply representable_spec, Hr.
    eapply Permutation_in; [apply order_by_perm|exact Hin].
Qed.

Lemma fetch_store_in_range (self : dashboard value) (c : client value)
    (clock : Z) (t : string) (sd ed : option string) (h : history value)
    (e : entry value) :
  supabase self = Some c ->
  fetch_historical_data value value_of_int CYPRUS_TZ self clock t sd ed = Some h ->
  In e (temperature_history h ++ humidity_history h)%list ->
  in_range (timestamp e).
Proof.
  intros Hc. unfold fetch_historical_data. rewrite Hc.
  destruct (query_window CYPRUS_TZ clock t sd ed) as [[since until]|];
    [|discriminate].
  unfold fetch_between.
  destruct (historical_query value c since until) as [rows|]; [|discriminate].
  destruct (group_rows value rows) as [[temps hums]|] eqn:Eg; [|discriminate].
  intros [= <-]. cbn [temperature_history humidity_history].
  now apply group_rows_in_range with (rows := rows).
Qed.

Lemma left_rows_nonempty (hums : list (frow value)) (t : frow value) :
  nonempty (left_rows value hums t) = true.
Proof.
  unfold left_rows. destruct (filter (same_key value t) hums); reflexivity.
Qed.

Lemma nonempty_perm {A} (l l' : list A) :
  Permutation l l' -> nonempty l = nonempty l'.
Proof.
  intros H. apply Permutation_length in H.
  destruct l, l'; cbn in *; congruence.
Qed.

Lemma nonempty_true {A} (l : list A) : l <> [] -> nonempty l = true.
Proof. destruct l; [congruence|reflexivity]. Qed.

(** With timestamps of one offset, the frame asked for exists and has
    a datetime column. *)
Lemma select_frame_uniform (data_type : string) (h : history value) :
  (exists series, requested data_type h series /\ series <> []) ->
  (forall a b,
     In a (temperature_history h ++ humidity_history h)%list ->
     In b (temperature_history h ++ humidity_history h)%list ->
     same_offset (timestamp a) (timestamp b) = true) ->
  exists df stem,
    select_frame value CYPRUS_TZ false data_type h = Some (df, stem)
    /\ timestamps df <> Object
    /\ nonempty (frows df) = true.
Proof.
  set (temps := temperature_history h). set (hums := humidity_history h).
  intros (series & Hreq & Hne) Hu.
  assert (Tu : temps <> [] ->
            exists d, In d temps
              /\ infer_dtype false (map timestamp temps)
                 = match tzoff (timestamp d) with
                   | Some off => Fixed off
                   | None => Naive
                   end).
  { intros Ht.
    destruct (uniform_infer (map timestamp temps)) as (d & Hd & E).
    - destruct temps; [congruence|discriminate].
    - intros a b Ha Hb. apply in_map_iff in Ha, Hb.
      destruct Ha as (ea & <- & Ha), Hb as (eb & <- & Hb).
      apply Hu; apply in_or_app; now left.
    - apply in_map_iff in Hd. destruct Hd as (e & <- & He). eauto. }
  assert (Uu : hums <> [] ->
            exists d, In d hums
              /\ infer_dtype false (map timestamp hums)
                 = match tzoff (timestamp d) with
                   | Some off => Fixed off
                   | None => Naive
                   end).
  { intros Ht.
    destruct (uniform_infer (map timestamp hums)) as (d & Hd & E).
    - destruct hums; [congruence|discriminate].
    - intros a b Ha Hb. apply in_map_iff in Ha, Hb.
      destruct Ha as (ea & <- & Ha), Hb as (eb & <- & Hb).
      apply Hu; apply in_or_app; now right.
    - apply in_map_iff in Hd. destruct Hd as (e & <- & He). eauto. }
  assert (Hplain : forall d : entry value,
            match tzoff (timestamp d) with
            | Some off => Fixed off
            | None => Naive
            end <> Object).
  { intros d. destruct (tzoff (timestamp d)); discriminate. }
  unfold select_frame. fold temps hums.
  destruct Hreq as [[-> ->]|[[-> ->]|[-> Hs]]].
  - fold temps in Hne. rewrite (nonempty_true _ Hne).
    cbn [String.eqb Ascii.eqb Bool.eqb andb].
    do 2 eexists. split; [reflexivity|].
    unfold temperature_frame. cbn [timestamps frows].
    destruct (Tu Hne) as (d & _ & ->). split; [apply Hplain|].
    rewrite nonempty_map. now apply nonempty_true.
  - fold hums in Hne. rewrite (nonempty_true _ Hne).
    cbn [String.eqb Ascii.eqb Bool.eqb andb].
    destruct (nonempty temps); cbn [andb];
      (do 2 eexists; split; [reflexivity|]);
      unfold humidity_frame; cbn [timestamps frows];
      destruct (Uu Hne) as (d & _ & ->); (split; [apply Hplain|]);
      rewrite nonempty_map; now apply nonempty_true.
  - cbn [String.eqb Ascii.eqb Bool.eqb andb].
    unfold temperature_frame at 1 2 3, humidity_frame at 1 2 3. cbn [frows].
    rewrite !nonempty_map.
    destruct (nonempty temps) eqn:Et, (nonempty hums) eqn:Eh; cbn [andb].
    + assert (Ht : temps <> []) by (intros E; rewrite E in Et; discriminate).
      assert (Hh : hums <> []) by (intros E; rewrite E in Eh; discriminate).
      destruct (Tu Ht) as (dt & Hdt & Edt). destruct (Uu Hh) as (dh & Hdh & Edh).
      unfold merge_outer, temperature_frame, humidity_frame.
      cbn [timestamps frows]. rewrite Edt, Edh.
      assert (Hsame : same_offset (timestamp dt) (timestamp dh) = true).
      { apply Hu; apply in_or_app; [now left|now right]. }
      unfold same_offset in Hsame.
      destruct (tzoff (timestamp dt)) as [ot|], (tzoff (timestamp dh)) as [oh|];
        try discriminate; cbn [merge_dtype];
        (do 2 eexists; split; [reflexivity|]);
        cbn [timestamps frows]; (split; [discriminate|]);
        rewrite (nonempty_perm _ _ (key_order_perm value _));
        destruct temps as [|t0 temps']; try congruence;
        cbn [map flat_map];
        match goal with
        | |- nonempty ((left_rows value ?hs ?t ++ _) ++ _)%list = true =>
            pose proof (left_rows_nonempty hs t) as Hn;
            destruct (left_rows value hs t); [discriminate Hn|reflexivity]
        end.
    + assert (Ht : temps <> []) by (intros E; rewrite E in Et; discriminate).
      do 2 eexists. split; [reflexivity|].
      unfold temperature_frame. cbn [timestamps frows].
      destruct (Tu Ht) as (d & _ & ->). split; [apply Hplain|].
      now rewrite nonempty_map.
    + assert (Hh : hums <> []) by (intros E; rewrite E in Eh; discriminate).
      do 2 eexists. split; [reflexivity|].
      unfold humidity_frame. cbn [timestamps frows].
      destruct (Uu Hh) as (d & _ & ->). split; [apply Hplain|].
      now rewrite nonempty_map.
    + exfalso. apply Hne.
      destruct Hs as [->| ->]; now apply nonempty_false.
Qed.

(** With a clash inside a series asked for, no frame reaches the
    formatting step with a datetime column. *)
Lemma select_frame_clash (data_type : string) (h : history value)
    (series : list (entry value)) (a b : entry value)
    (df : frame value) (stem : string) :
  requested data_type h series ->
  In a series -> In b series -> clash (timestamp a) (timestamp b) ->
  select_frame value CYPRUS_TZ false data_type h = Some (df, stem) ->
  timestamps df = Object.
Proof.
  set (temps := temperature_history h). set (hums := humidity_history h).
  intros Hreq Ha Hb Hc.
  assert (Hobj : infer_dtype false (map timestamp series) = Object).
  { apply (clash_infer _ (timestamp a) (timestamp b));
      [now apply in_map|now apply in_map|exact Hc]. }
  assert (Hne : nonempty series = true) by (destruct series; [contradiction|reflexivity]).
  unfold select_frame. fold temps hums.
  destruct Hreq as [[-> ->]|[[-> ->]|[-> Hs]]].
  - fold temps in Hne, Hobj. rewrite Hne.
    cbn [String.eqb Ascii.eqb Bool.eqb andb].
    intros [= <- _]. exact Hobj.
  - fold hums in Hne, Hobj. rewrite Hne.
    cbn [String.eqb Ascii.eqb Bool.eqb andb].
    destruct (nonempty temps); cbn [andb]; intros [= <- _]; exact Hobj.
  - cbn [String.eqb Ascii.eqb Bool.eqb andb].
    unfold temperature_frame at 1 2 3, humidity_frame at 1 2 3. cbn [frows].
    rewrite !nonempty_map.
    destruct (nonempty temps) eqn:Et, (nonempty hums) eqn:Eh; cbn [andb].
    + unfold merge_outer, temperature_frame, humidity_frame.
      cbn [timestamps frows].
      destruct Hs as [->| ->]; fold temps hums in Hobj; rewrite Hobj.
      * destruct (infer_dtype false (map timestamp hums)); cbn [merge_dtype];
          intros [= <- _] || discriminate; reflexivity.
      * destruct (infer_dtype false (map timestamp temps)); cbn [merge_dtype];
          intros [= <- _] || discriminate; reflexivity.
    + intros [= <- _]. destruct Hs as [->| ->].
      * exact Hobj.
      * fold hums in Hne. congruence.
    + intros [= <- _]. destruct Hs as [->| ->].
      * fold temps in Hne. congruence.
      * exact Hobj.
    + discriminate.
Qed.

(** X11.  An export yields no file, and [export_data] shows the
    no-data warning, when the historical fetch failed, when the data
    type is none of temperature, humidity and all, when the series asked
    for is empty (both series, for all), and, with a store, when two
    timestamps of a series asked for carry different offsets or one of
    them is naive and the other aware.  With a store, it yields a file,
    handed to the download with the success notice, when the fetch
    succeeded, a series asked for is not empty and the timestamps of
    both series all carry one offset. *)
Theorem export_file_or_warning (self : dashboard value) (clock : Z)
    (data_type : string) :
  let fetched := fetch_historical_data value value_of_int CYPRUS_TZ self clock
                   (filter_range self) None None in
  let exported := export_to_csv value value_of_int CYPRUS_TZ repr self clock
                    data_type in
  let result := export_data value value_of_int CYPRUS_TZ repr self clock data_type in
  (fetched = None -> exported = None /\ result = (None, NoDataToExport))
  /\ (forall h, fetched = Some h ->
      ((data_type <> "temperature" /\ data_type <> "humidity"
        /\ data_type <> "all")
       \/ (data_type = "temperature" /\ temperature_history h = [])
       \/ (data_type = "humidity" /\ humidity_history h = [])
       \/ (data_type = "all" /\ temperature_history h = []
           /\ humidity_history h = [])
       \/ (supabase self <> None
           /\ exists series a b,
                requested data_type h series /\ In a series /\ In b series
                /\ clash (timestamp a) (timestamp b)) ->
       exported = None /\ result = (None, NoDataToExport))
      /\ (supabase self <> None ->
          (exists series, requested data_type h series /\ series <> []) ->
          (forall a b,
             In a (temperature_history h ++ humidity_history h)%list ->
             In b (temperature_history h ++ humidity_history h)%list ->
             same_offset (timestamp a) (timestamp b) = true) ->
          exists ex,
            exported = Some ex
            /\ result = (Some (content ex, filename ex), Exported data_type))).
Proof.
  cbv zeta.
  assert (Hres : export_to_csv value value_of_int CYPRUS_TZ repr self clock
                   data_type = None ->
                 export_to_csv value value_of_int CYPRUS_TZ repr self clock
                   data_type = None
                 /\ export_data value value_of_int CYPRUS_TZ repr self clock
                      data_type = (None, NoDataToExport)).
  { intros E. split; [exact E|]. unfold export_data. now rewrite E. }
  split.
  { intros Hf. apply Hres. unfold export_to_csv. now rewrite Hf. }
  intros h Hf. split.
  - intros Hcase. apply Hres. unfold export_to_csv. rewrite Hf.
    destruct Hcase as [(N1 & N2 & N3)|[[-> Ht]|[[-> Hh]|[(-> & Ht & Hh)|(Hs & series & a & b & Hreq & Ha & Hb & Hc)]]]].
    + apply String.eqb_neq in N1, N2, N3. unfold select_frame.
      now rewrite N1, N2, N3.
    + unfold select_frame. rewrite Ht. reflexivity.
    + unfold select_frame. rewrite Hh.
      cbn [String.eqb Ascii.eqb Bool.eqb andb nonempty]. reflexivity.
    + unfold select_frame. rewrite Ht, Hh. reflexivity.
    + destruct (supabase self) as [c|]; [|congruence].
      destruct (select_frame value CYPRUS_TZ false data_type h)
        as [[df stem]|] eqn:Es; [|reflexivity].
      destruct (negb (nonempty (frows df))); [reflexivity|].
      rewrite strftime_column_object; [reflexivity|].
      exact (select_frame_clash data_type h series a b df stem Hreq Ha Hb Hc Es).
  - intros Hs Hreq Hu.
    destruct (supabase self) as [c|] eqn:Hc; [|congruence].
    destruct (select_frame_uniform data_type h Hreq Hu)
      as (df & stem & Es & Hty & Hne).
    destruct (select_frame_spec value CYPRUS_TZ false data_type h df stem Es)
      as (Hsrc & [_ Hd] & _).
    assert (Hrange : forall r, In r (frows df) -> in_range (f_timestamp r)).
    { intros r Hr. destruct (Hsrc r Hr) as (e & He & _ & ->).
      pose proof (fetch_store_in_range self c clock _ None None h e Hc Hf He)
        as Hin.
      destruct (Hd eq_refl) as [H|[H|(off & e0 & H & He0 & Ho)]];
        [contradiction|now rewrite H|].
      rewrite H. cbn [in_column]. unfold in_range in *. cbn [wall].
      pose proof (Hu e0 e He0 He) as Hsame. unfold same_offset in Hsame.
      rewrite Ho in Hsame. unfold key.
      destruct (tzoff (timestamp e)) as [oe|]; [|discriminate].
      apply Z.eqb_eq in Hsame. subst oe. lia. }
    assert (E : export_to_csv value value_of_int CYPRUS_TZ repr self clock data_type
                = Some (mkexport
                          (stem ++ strftime_compact (now CYPRUS_TZ clock) ++ ".csv")
                          (to_csv value repr (has_temperature df) (has_humidity df)
                             (map (format_row value)
                                (frows (sort_values value df))))
                          "text/csv")).
    { unfold export_to_csv. rewrite Hf, Hc, Es, Hne. cbn [negb].
      now rewrite (strftime_column_some df Hty Hrange). }
    eexists. split; [exact E|]. unfold export_data. now rewrite E.
Qed.

End ExportOutcome.

Lemma export_file_or_warning_witness :
  export_to_csv Z (fun z => z) Sample.EET Sample.show Sample.mixed
    Sample.noon "temperature" = None
  /\ exists ex,
       export_to_csv Z (fun z => z) Sample.EET Sample.show Sample.connected
         Sample.noon "temperature" = Some ex.
Proof.
  split.
  - destruct (export_file_or_warning Z (fun z => z) Sample.EET Sample.show
                Sample.mixed Sample.noon "temperature") as [_ H].
    destruct (fetch_historical_data Z (fun z => z) Sample.EET Sample.mixed
                Sample.noon (filter_range Sample.mixed) None None)
      as [h|] eqn:E; [|vm_compute in E; discriminate E].
    destruct (H h eq_refl) as [Hnone _]. apply Hnone. do 4 right.
    split; [discriminate|]. vm_compute in E. injection E as <-.
    exists [ mkentry "A" (mkdt 63839782800000000 (Some 0)) 21;
             mkentry "B" (mkdt 63839790000000000 (Some 7200000000)) 19 ],
           (mkentry "A" (mkdt 63839782800000000 (Some 0)) 21),
           (mkentry "B" (mkdt 63839790000000000 (Some 7200000000)) 19).
    split; [left; split; reflexivity|]. split; [now left|].
    split; [right; now left|]. cbn. discriminate.
  - destruct (export_file_or_warning Z (fun z => z) Sample.EET Sample.show
                Sample.connected Sample.noon "temperature") as [_ H].
    destruct (fetch_historical_data Z (fun z => z) Sample.EET Sample.connected
                Sample.noon (filter_range Sample.connected) None None)
      as [h|] eqn:E; [|vm_compute in E; discriminate E].
    destruct (H h eq_refl) as [_ Hfile].
    vm_compute in E. injection E as <-.
    destruct Hfile as (ex & Hex & _).
    + discriminate.
    + eexists. split; [left; split; reflexivity|]. discriminate.
    + intros a b Ha Hb. cbn in Ha, Hb.
      repeat match goal with
      | H : _ \/ _ |- _ => destruct H as [<-|H]
      | H : False |- _ => contradiction
      end; reflexivity.
    + exists ex. exact Hex.
Defined.

(** *** Demo mode *)

Lemma strongly_sorted_impl {A} (P Q : A -> A -> Prop) (l : list A) :
  (forall a b, P a b -> Q a b) -> StronglySorted P l -> StronglySorted Q l.
Proof.
  intros H. induction 1 as [|a l Hs IH Ha]; constructor; [exact IH|].
  eapply Forall_impl; [|exact Ha]. intros b. apply H.
Qed.

Lemma strongly_sorted_map {A B} (R : B -> B -> Prop) (g : A -> B) (l : list A) :
  StronglySorted (fun a b => R (g a) (g b)) l <-> StronglySorted R (map g l).
Proof.
  induction l as [|a l IH]; cbn.
  - split; constructor.
  - split; intros H; apply StronglySorted_inv in H; destruct H as [Hs Ha];
      constructor; try (now apply IH).
    + apply Forall_forall. intros b Hb. apply in_map_iff in Hb.
      destruct Hb as (x & <- & Hx). now apply (proj1 (Forall_forall _ _) Ha).
    + apply Forall_forall. intros x Hx.
      apply (proj1 (Forall_forall _ _) Ha). now apply in_map.
Qed.

Lemma seq_strictly_ascending (a n : nat) : StronglySorted lt (seq a n).
Proof.
  revert a. induction n as [|n IH]; intros a; cbn; constructor; [apply IH|].
  apply Forall_forall. intros x Hx. apply in_seq in Hx. lia.
Qed.

Lemma strictly_ascending_nodup {A} (k : A -> Z) (l : list A) :
  strictly_ascending k l -> NoDup (map k l).
Proof.
  unfold strictly_ascending. induction 1 as [|a l Hs IH Ha]; cbn; constructor;
    [|exact IH].
  intros Hin. apply in_map_iff in Hin. destruct Hin as (x & E & Hx).
  pose proof (proj1 (Forall_forall _ _) Ha x Hx) as Hlt. cbv beta in Hlt. lia.
Qed.

Lemma enumerate_from_snd {A} (a : nat) (l : list A) :
  map snd (combine (map Z.of_nat (seq a (List.length l))) l) = l.
Proof.
  revert a. induction l as [|x l IH]; intros a; cbn; [reflexivity|].
  now rewrite IH.
Qed.

Lemma enumerate_from_nth {A} (a j : nat) (l : list A) :
  nth_error (combine (map Z.of_nat (seq a (List.length l))) l) j
  = option_map (fun x => (Z.of_nat (a + j), x)) (nth_error l j).
Proof.
  revert a j. induction l as [|x l IH]; intros a j; cbn.
  - destruct j; reflexivity.
  - destruct j as [|j]; cbn.
    + now rewrite Nat.add_0_r.
    + rewrite IH. now rewrite Nat.add_succ_comm.
Qed.

Lemma range_down_nth (h : Z) (j : nat) :
  (j < Z.to_nat h)%nat ->
  nth_error (range_down h) j = Some (h - Z.of_nat j).
Proof.
  intros Hj. unfold range_down. rewrite nth_error_map.
  rewrite (nth_error_nth' _ 0%nat) by (rewrite length_seq; exact Hj).
  rewrite seq_nth by exact Hj. reflexivity.
Qed.

Section DemoMode.

Variable value : Type.
Variable value_of_int : Z -> value.
Variable CYPRUS_TZ : tzinfo.
Variable repr : value -> string.

Lemma demo_timestamps_strictly_ascending (clock : Z) (t : string) :
  strictly_ascending key (demo_timestamps CYPRUS_TZ clock t).
Proof.
  unfold strictly_ascending, demo_timestamps, range_down.
  rewrite map_map.
  apply (proj1 (strongly_sorted_map (fun a b => key a < key b) _ _)).
  eapply strongly_sorted_impl; [|apply seq_strictly_ascending].
  intros i j Hij. cbv beta. rewrite !key_sub_td.
  unfold timedelta_hours, US_PER_SECOND. lia.
Qed.

Lemma demo_timestamps_length (clock : Z) (t : string) :
  List.length (demo_timestamps CYPRUS_TZ clock t) = Z.to_nat (demo_hours t).
Proof. unfold demo_timestamps. now rewrite length_map, range_down_length. Qed.

Lemma demo_timestamps_nth (clock : Z) (t : string) (j : nat) :
  (j < Z.to_nat (demo_hours t))%nat ->
  nth_error (demo_timestamps CYPRUS_TZ clock t) j
  = Some (sub_td (now CYPRUS_TZ clock)
            (timedelta_hours (demo_hours t - Z.of_nat j))).
Proof.
  intros Hj. unfold demo_timestamps.
  now rewrite nth_error_map, (range_down_nth _ _ Hj).
Qed.

(** X12.  Without a store, the historical fetch never fails and returns
    two series of one entry per hour of the window, all for the device
    Living Room: entry [j] is stamped [hours - j] hours before now, so
    both series are in strictly ascending order and end one hour before
    now, and it carries temperature [22 + j mod 4] and humidity
    [45 + j mod 10]. *)
Theorem demo_history_shape (self : dashboard value) (clock : Z)
    (t : string) (sd ed : option string) :
  supabase self = None ->
  exists h,
    fetch_historical_data value value_of_int CYPRUS_TZ self clock t sd ed = Some h
    /\ List.length (temperature_history h) = Z.to_nat (demo_hours t)
    /\ List.length (humidity_history h) = Z.to_nat (demo_hours t)
    /\ (forall j, (j < Z.to_nat (demo_hours t))%nat ->
          nth_error (temperature_history h) j
            = Some (mkentry "Living Room"
                      (sub_td (now CYPRUS_TZ clock)
                         (timedelta_hours (demo_hours t - Z.of_nat j)))
                      (value_of_int (22 + Z.of_nat j mod 4)))
          /\ nth_error (humidity_history h) j
             = Some (mkentry "Living Room"
                       (sub_td (now CYPRUS_TZ clock)
                          (timedelta_hours (demo_hours t - Z.of_nat j)))
                       (value_of_int (45 + Z.of_nat j mod 10))))
    /\ strictly_ascending (fun e => key (timestamp e)) (temperature_history h)
    /\ strictly_ascending (fun e => key (timestamp e)) (humidity_history h).
Proof.
  intros Hs. unfold fetch_historical_data. rewrite Hs.
  eexists. split; [reflexivity|].
  unfold demo_history. cbn [temperature_history humidity_history].
  unfold enumerate.
  assert (Hlen : forall (f : Z * datetime -> entry value),
            List.length
              (map f (combine
                        (map Z.of_nat
                           (seq 0 (List.length (demo_timestamps CYPRUS_TZ clock t))))
                        (demo_timestamps CYPRUS_TZ clock t)))
            = Z.to_nat (demo_hours t)).
  { intros f. rewrite length_map, length_combine, length_map, length_seq.
    rewrite Nat.min_id. apply demo_timestamps_length. }
  assert (Hsorted : forall (g : Z -> value),
            strictly_ascending (fun e => key (timestamp e))
              (map (fun '(i, ts) => mkentry "Living Room" ts (g i))
                 (combine
                    (map Z.of_nat
                       (seq 0 (List.length (demo_timestamps CYPRUS_TZ clock t))))
                    (demo_timestamps CYPRUS_TZ clock t)))).
  { intros g. unfold strictly_ascending.
    apply (proj1 (strongly_sorted_map
                    (fun a b : entry value => key (timestamp a) < key (timestamp b))
                    _ _)).
    eapply strongly_sorted_impl with
      (P := fun a b : Z * datetime => key (snd a) < key (snd b)).
    - intros [i a] [j b]. cbn. auto.
    - apply (proj2 (strongly_sorted_map (fun a b => key a < key b) snd _)).
      rewrite enumerate_from_snd. apply demo_timestamps_strictly_ascending. }
  split; [apply Hlen|]. split; [apply Hlen|].
  split; [|split; apply Hsorted].
  intros j Hj. rewrite !nth_error_map, enumerate_from_nth.
  rewrite (demo_timestamps_nth clock t j Hj). cbn. split; reflexivity.
Qed.

End DemoMode.

Lemma demo_history_shape_witness :
  exists h,
    fetch_historical_data Z (fun z => z) Sample.EET Sample.demo Sample.noon
      "12h" None None = Some h
    /\ List.length (temperature_history h) = 12%nat.
Proof.
  destruct (demo_history_shape Z (fun z => z) Sample.EET Sample.demo Sample.noon
              "12h" None None eq_refl) as (h & H1 & H2 & _).
  exists h. split; [exact H1 | exact H2].
Defined.

(** *** Exporting in demo mode *)

Lemma order_by_sorted {A} (k : A -> Z) (l : list A) :
  ascending k l -> order_by k l = l.
Proof.
  unfold ascending, order_by.
  induction 1 as [|x l Hs IH Hx]; [reflexivity|].
  cbn [fold_right]. rewrite IH. destruct l as [|y l']; [reflexivity|].
  cbn [insert_by]. inversion Hx; subst.
  destruct (Z.ltb_spec (k y) (k x)); [lia|reflexivity].
Qed.

Lemma combine_map_same {A B C} (f : A -> B) (g : A -> C) (l : list A) :
  combine (map f l) (map g l) = map (fun x => (f x, g x)) l.
Proof. induction l as [|x l IH]; cbn; [reflexivity|now rewrite IH]. Qed.

Lemma flat_map_singletons {A B} (F : A -> list B) (g : A -> B) (l : list A) :
  (forall a, In a l -> F a = [g a]) -> flat_map F l = map g l.
Proof.
  induction l as [|a l IH]; intros H; cbn; [reflexivity|].
  rewrite (H a (or_introl eq_refl)), IH; [reflexivity|].
  intros x Hx. apply H. now right.
Qed.

Section DemoExport.

Variable value : Type.
Variable value_of_int : Z -> value.
Variable CYPRUS_TZ : tzinfo.
Variable repr : value -> string.

Lemma key_order_sorted (rows : list (frow value)) :
  strictly_ascending (fun r => key (f_timestamp r)) rows ->
  key_order value rows = rows.
Proof.
  unfold strictly_ascending, key_order.
  induction 1 as [|x l Hs IH Hx]; [reflexivity|].
  cbn [fold_right]. rewrite IH. destruct l as [|y l']; [reflexivity|].
  cbn [insert_before]. inversion Hx; subst. unfold key_before.
  destruct (Z.ltb_spec (key (f_timestamp y)) (key (f_timestamp x))); [lia|].
  destruct (Z.eqb_spec (key (f_timestamp y)) (key (f_timestamp x))); [lia|].
  reflexivity.
Qed.

Section Aligned.

Variable A : Type.
Variables ft fh : A -> frow value.
Hypothesis same_device : forall a, f_device_name (ft a) = f_device_name (fh a).
Hypothesis same_time :
  forall a, key (f_timestamp (ft a)) = key (f_timestamp (fh a)).

Lemma aligned_same_key (a : A) : same_key value (ft a) (fh a) = true.
Proof.
  unfold same_key. now rewrite same_time, same_device, Z.eqb_refl, String.eqb_refl.
Qed.

Lemma aligned_other_key (a b : A) :
  key (f_timestamp (ft a)) <> key (f_timestamp (ft b)) ->
  same_key value (ft a) (fh b) = false.
Proof.
  intros H. unfold same_key. rewrite <- same_time.
  apply Z.eqb_neq in H. now rewrite H.
Qed.

Lemma aligned_partner (l : list A) (a : A) :
  NoDup (map (fun x => key (f_timestamp (ft x))) l) ->
  In a l ->
  filter (same_key value (ft a)) (map fh l) = [fh a].
Proof.
  induction l as [|b l IH]; intros Hnd Hin; [contradiction|].
  cbn in Hnd. inversion Hnd as [|k ks Hb Hnd']; subst. cbn [map filter].
  assert (Hrest : forall x, In x l ->
            key (f_timestamp (ft b)) <> key (f_timestamp (ft x))).
  { intros x Hx E. apply Hb. rewrite E.
    apply (in_map (fun x => key (f_timestamp (ft x)))). exact Hx. }
  destruct Hin as [->|Hin].
  - rewrite aligned_same_key. f_equal. apply filter_nil_forall.
    intros y Hy. apply in_map_iff in Hy. destruct Hy as (x & <- & Hx).
    apply aligned_other_key. now apply Hrest.
  - rewrite aligned_other_key; [now apply IH|].
    intros E. apply (Hrest a Hin). now symmetry.
Qed.

(** The outer join of two frames that agree row by row on device and
    timestamp, the timestamps being distinct: one full row each. *)
Lemma merge_aligned (ty : dtype) (l : list A) :
  NoDup (map (fun x => key (f_timestamp (ft x))) l) ->
  (flat_map (left_rows value (map fh l)) (map ft l)
   ++ right_only_rows value CYPRUS_TZ ty (map ft l) (map fh l))%list
  = map (fun a => mkfrow (f_device_name (ft a)) (f_timestamp (ft a))
                         (f_temperature (ft a)) (f_humidity (fh a))) l.
Proof.
  intros Hnd. unfold right_only_rows.
  replace (filter _ (map fh l)) with (@nil (frow value)).
  - cbn [map]. rewrite app_nil_r, flat_map_concat_map, map_map,
      <- flat_map_concat_map.
    apply flat_map_singletons. intros a Ha. unfold left_rows.
    now rewrite (aligned_partner l a Hnd Ha).
  - symmetry. apply filter_nil_forall. intros h Hh.
    apply in_map_iff in Hh. destruct Hh as (a & <- & Ha).
    apply negb_false_iff, existsb_exists. exists (ft a).
    split; [now apply in_map|apply aligned_same_key].
Qed.

End Aligned.

(** The hours of demo mode, counted from the oldest. *)
Lemma demo_enumerate (clock : Z) (t : string) :
  enumerate (demo_timestamps CYPRUS_TZ clock t)
  = map (fun j => (j, sub_td (now CYPRUS_TZ clock)
                        (timedelta_hours (demo_hours t - j))))
        (below (demo_hours t)).
Proof.
  unfold enumerate. rewrite (demo_timestamps_length CYPRUS_TZ clock t).
  unfold demo_timestamps, range_down, below. rewrite !map_map.
  rewrite (combine_map_same Z.of_nat
             (fun i => sub_td (now CYPRUS_TZ clock)
                         (timedelta_hours (demo_hours t - Z.of_nat i)))).
  reflexivity.
Qed.

Lemma below_spec (n z : Z) : In z (below n) <-> 0 <= z < n.
Proof.
  unfold below. rewrite in_map_iff. split.
  - intros (k & <- & Hk). apply in_seq in Hk. lia.
  - intros Hz. exists (Z.to_nat z). split; [lia|]. apply in_seq. lia.
Qed.

Lemma below_strictly_ascending (n : Z) : strictly_ascending (fun z => z) (below n).
Proof.
  unfold strictly_ascending, below.
  apply (proj1 (strongly_sorted_map (fun a b : Z => a < b) Z.of_nat _)).
  eapply strongly_sorted_impl; [|apply seq_strictly_ascending].
  intros i j Hij. cbv beta. lia.
Qed.

Lemma zone_key (clock hours j : Z) :
  key (in_column CYPRUS_TZ Zone
         (sub_td (now CYPRUS_TZ clock) (timedelta_hours (hours - j))))
  = clock - timedelta_hours (hours - j).
Proof. cbn [in_column]. now rewrite !key_now, key_sub_td, key_now. Qed.

Lemma zone_rows_ascending (clock hours : Z) (a b : Z -> option value) :
  strictly_ascending (fun r => key (f_timestamp r))
    (map (fun j => mkfrow "Living Room"
                     (in_column CYPRUS_TZ Zone
                        (sub_td (now CYPRUS_TZ clock)
                           (timedelta_hours (hours - j))))
                     (a j) (b j))
         (below hours)).
Proof.
  unfold strictly_ascending.
  apply (proj1 (strongly_sorted_map
                  (fun x y : frow value => key (f_timestamp x) < key (f_timestamp y))
                  _ _)).
  eapply strongly_sorted_impl; [|apply below_strictly_ascending].
  intros i j Hij. cbn [f_timestamp]. rewrite !zone_key.
  unfold timedelta_hours, US_PER_SECOND. cbv beta in Hij. lia.
Qed.

Lemma strictly_ascending_weaken {A} (k : A -> Z) (l : list A) :
  strictly_ascending k l -> ascending k l.
Proof.
  apply strongly_sorted_impl. intros a b. lia.
Qed.

(** A frame of demo rows goes through sorting and formatting
    unchanged in order. *)
Lemma demo_frame_csv (clock hours : Z) (ht hh : bool) (a b : Z -> option value) :
  (forall i, 1 <= i <= hours ->
     in_range (now CYPRUS_TZ (clock - timedelta_hours i))) ->
  let rows := map (fun j => mkfrow "Living Room"
                              (in_column CYPRUS_TZ Zone
                                 (sub_td (now CYPRUS_TZ clock)
                                    (timedelta_hours (hours - j))))
                              (a j) (b j))
                  (below hours) in
  strftime_column value (sort_values value (mkframe Zone ht hh rows))
  = Some (map (fun j => mkcsv "Living Room"
                          (strftime_display
                             (now CYPRUS_TZ (clock - timedelta_hours (hours - j))))
                          (a j) (b j))
              (below hours)).
Proof.
  intros Hrange rows. unfold sort_values, strftime_column.
  cbn [timestamps frows has_temperature has_humidity].
  rewrite (order_by_sorted _ rows)
    by (apply strictly_ascending_weaken, zone_rows_ascending).
  assert (Hcell : forall j,
            in_column CYPRUS_TZ Zone
              (sub_td (now CYPRUS_TZ clock) (timedelta_hours (hours - j)))
            = now CYPRUS_TZ (clock - timedelta_hours (hours - j))).
  { intros j. cbn [in_column]. now rewrite key_sub_td, key_now. }
  replace (forallb (fun r => representable (f_timestamp r)) rows) with true.
  - unfold rows. rewrite map_map. f_equal. apply map_ext. intros j.
    unfold format_row.
    cbn [f_device_name f_timestamp f_temperature f_humidity].
    now rewrite Hcell.
  - symmetry. apply forallb_forall. intros r Hr. unfold rows in Hr.
    apply in_map_iff in Hr. destruct Hr as (j & <- & Hj).
    apply below_spec in Hj. cbn [f_timestamp]. rewrite Hcell.
    apply representable_spec, Hrange. lia.
Qed.

(** X13.  Without a store, exporting temperature, humidity or all
    always yields a file with the header of column names and one line
    per hour of the current filter's window, oldest first: the device
    Living Room, the hour as local time, and the measurements of that
    hour.  The temperature file has no humidity column, the humidity
    file no temperature column, and every line of the combined file
    carries both measurements. *)
Theorem demo_export_content (self : dashboard value) (clock : Z) :
  supabase self = None ->
  let hours := demo_hours (filter_range self) in
  (forall i, 1 <= i <= hours ->
     in_range (now CYPRUS_TZ (clock - timedelta_hours i))) ->
  let cell := fun j =>
    strftime_display (now CYPRUS_TZ (clock - timedelta_hours (hours - j))) in
  let file := fun data_type =>
    option_map content
      (export_to_csv value value_of_int CYPRUS_TZ repr self clock data_type) in
  file "temperature"
  = Some (("device_name,timestamp,temperature" ++ LF)
          ++ String.concat ""
               (map (fun j => "Living Room," ++ cell j ++ ","
                              ++ repr (value_of_int (22 + j mod 4)) ++ LF)
                    (below hours)))
  /\ file "humidity"
     = Some (("device_name,timestamp,humidity" ++ LF)
             ++ String.concat ""
                  (map (fun j => "Living Room," ++ cell j ++ ","
                                 ++ repr (value_of_int (45 + j mod 10)) ++ LF)
                       (below hours)))
  /\ file "all"
     = Some (("device_name,timestamp,temperature,humidity" ++ LF)
             ++ String.concat ""
                  (map (fun j => "Living Room," ++ cell j ++ ","
                                 ++ repr (value_of_int (22 + j mod 4)) ++ ","
                                 ++ repr (value_of_int (45 + j mod 10)) ++ LF)
                       (below hours)))
  /\ List.length (below hours) = Z.to_nat hours.
Proof.
  intros Hs hours Hrange cell file.
  set (t := filter_range self) in *.
  pose proof (demo_hours_bound t) as Hb. fold hours in Hb.
  assert (Hne : forall {B} (f : Z -> B), nonempty (map f (below hours)) = true).
  { intros B f. unfold below.
    destruct (Z.to_nat hours) as [|n] eqn:E; [lia|reflexivity]. }
  assert (Hfetch : fetch_historical_data value value_of_int CYPRUS_TZ self clock
                     t None None
                   = Some (mkhistory
                             (map (fun j => mkentry "Living Room"
                                      (sub_td (now CYPRUS_TZ clock)
                                         (timedelta_hours (hours - j)))
                                      (value_of_int (22 + j mod 4)))
                                  (below hours))
                             (map (fun j => mkentry "Living Room"
                                      (sub_td (now CYPRUS_TZ clock)
                                         (timedelta_hours (hours - j)))
                                      (value_of_int (45 + j mod 10)))
                                  (below hours)))).
  { unfold fetch_historical_data. rewrite Hs. unfold demo_history.
    rewrite demo_enumerate, !map_map. reflexivity. }
  unfold file, export_to_csv. fold t. rewrite Hfetch, Hs.
  split; [|split; [|split]].
  - unfold select_frame. cbn [String.eqb Ascii.eqb Bool.eqb andb].
    cbn [temperature_history]. rewrite Hne. cbn [andb].
    unfold temperature_frame, temperature_row. cbn [infer_dtype frows].
    rewrite map_map. cbn [device_name timestamp measurement].
    rewrite Hne. cbn [negb].
    rewrite (demo_frame_csv clock hours true false
               (fun j => Some (value_of_int (22 + j mod 4))) (fun _ => None) Hrange).
    cbn [option_map content sort_values has_temperature has_humidity].
    unfold to_csv. rewrite map_map. reflexivity.
  - unfold select_frame. cbn [String.eqb Ascii.eqb Bool.eqb andb].
    cbn [humidity_history]. rewrite Hne. cbn [andb].
    unfold humidity_frame, humidity_row. cbn [infer_dtype frows].
    rewrite map_map. cbn [device_name timestamp measurement].
    rewrite Hne. cbn [negb].
    rewrite (demo_frame_csv clock hours false true
               (fun _ => None) (fun j => Some (value_of_int (45 + j mod 10))) Hrange).
    cbn [option_map content sort_values has_temperature has_humidity].
    unfold to_csv. rewrite map_map. reflexivity.
  - unfold select_frame. cbn [String.eqb Ascii.eqb Bool.eqb andb].
    cbn [temperature_history humidity_history].
    unfold temperature_frame, humidity_frame, temperature_row, humidity_row.
    cbn [infer_dtype frows]. rewrite !map_map.
    cbn [device_name timestamp measurement]. rewrite !Hne. cbn [andb].
    unfold merge_outer. cbn [timestamps merge_dtype frows].
    set (Lr := fun j : Z => mkfrow "Living Room"
                 (in_column CYPRUS_TZ Zone
                    (sub_td (now CYPRUS_TZ clock) (timedelta_hours (hours - j))))
                 (Some (value_of_int (22 + j mod 4))) (@None value)).
    set (Rr := fun j : Z => mkfrow "Living Room"
                 (in_column CYPRUS_TZ Zone
                    (sub_td (now CYPRUS_TZ clock) (timedelta_hours (hours - j))))
                 (@None value) (Some (value_of_int (45 + j mod 10)))).
    assert (Hnd : NoDup (map (fun j => key (f_timestamp (Lr j))) (below hours))).
    { apply (strictly_ascending_nodup (fun j => key (f_timestamp (Lr j)))).
      unfold strictly_ascending.
      eapply strongly_sorted_impl; [|apply below_strictly_ascending].
      intros i j Hij. unfold Lr. cbn [f_timestamp]. rewrite !zone_key.
      unfold timedelta_hours, US_PER_SECOND. cbv beta in Hij. lia. }
    rewrite (merge_aligned Z Lr Rr (fun _ => eq_refl) (fun _ => eq_refl)
               Zone (below hours) Hnd).
    unfold Lr, Rr. cbn [f_device_name f_timestamp f_temperature f_humidity].
    rewrite (key_order_sorted _
               (zone_rows_ascending clock hours
                  (fun j => Some (value_of_int (22 + j mod 4)))
                  (fun j => Some (value_of_int (45 + j mod 10))))).
    rewrite Hne. cbn [negb].
    rewrite (demo_frame_csv clock hours true true
               (fun j => Some (value_of_int (22 + j mod 4)))
               (fun j => Some (value_of_int (45 + j mod 10))) Hrange).
    cbn [option_map content sort_values has_temperature has_humidity].
    unfold to_csv. rewrite map_map. reflexivity.
  - unfold below. now rewrite length_map, length_seq.
Qed.

End DemoExport.

Lemma demo_export_content_witness :
  option_map content
    (export_to_csv Z (fun z => z) Sample.EET Sample.show
       (apply_filter Z "12h" Sample.demo) Sample.noon "humidity")
  = Some (("device_name,timestamp,humidity" ++ LF)
          ++ String.concat ""
               (map (fun j => "Living Room,"
                              ++ strftime_display
                                   (now Sample.EET
                                      (Sample.noon - timedelta_hours (12 - j)))
                              ++ "," ++ Sample.show (45 + j mod 10) ++ LF)
                    (below 12))).
Proof.
  apply (demo_export_content Z (fun z => z) Sample.EET Sample.show
           (apply_filter Z "12h" Sample.demo) Sample.noon eq_refl).
  intros i Hi. change (demo_hours (filter_range (apply_filter Z "12h" Sample.demo)))
    with 12 in Hi.
  unfold in_range, now, Sample.EET, Sample.noon, timedelta_hours, US_PER_DAY,
    US_PER_SECOND, MAXORDINAL.
  cbn [wall offset_at_utc]. lia.
Defined.

(** *** Cards: the relative time and the stale flag together *)

Section Cards.

Variable value : Type.
Variable CYPRUS_TZ : tzinfo.
Variable fmt1 : value -> string.

Lemma is_data_stale_parsed (clock : Z) (s : string) (t : datetime) (hours : Z) :
  fromisoformat (store_text s) = Some t ->
  is_data_stale CYPRUS_TZ clock (Some s) hours
  = (timedelta_hours hours <? clock - (wall t - offset_or_utc t)).
Proof.
  intros H. pose proof (stale_age_parsed CYPRUS_TZ clock s t H) as Hage.
  assert (Hne : s <> "") by (intros ->; discriminate H).
  unfold is_data_stale. rewrite (truthy_nonempty s Hne). cbn [negb].
  unfold stale_age in Hage.
  destruct (stale_datetime CYPRUS_TZ s) as [ts|]; [|discriminate].
  now rewrite Hage.
Qed.

Lemma is_data_stale_unparsed (clock : Z) (s : string) (hours : Z) :
  fromisoformat (store_text s) = None ->
  is_data_stale CYPRUS_TZ clock (Some s) hours = true.
Proof.
  intros H. unfold is_data_stale, stale_datetime. rewrite H.
  now destruct (negb _).
Qed.

Lemma bucket_rank_unknown : bucket_rank "Unknown" = None.
Proof. reflexivity. Qed.

(** X14.  [format_timestamp] answers Unknown exactly when the text is
    missing or the stripped text does not parse as a naive datetime; in
    every other case the answer is a relative time in one of the four
    buckets. *)
Theorem format_timestamp_unknown_iff (clock : Z) (timestamp_str : option string) :
  (format_timestamp CYPRUS_TZ clock timestamp_str = "Unknown"
   <-> timestamp_str = None
       \/ exists s, timestamp_str = Some s
            /\ (fromisoformat (strip_marker s) = None
                \/ exists dt off, fromisoformat (strip_marker s) = Some dt
                                  /\ tzoff dt = Some off))
  /\ (format_timestamp CYPRUS_TZ clock timestamp_str <> "Unknown" ->
      exists rank,
        bucket_rank (format_timestamp CYPRUS_TZ clock timestamp_str) = Some rank
        /\ (rank <= 3)%nat).
Proof.
  assert (Hrel : forall d, relative_time d <> "Unknown").
  { intros d E. pose proof (bucket_rank_relative_time d) as H.
    rewrite E, bucket_rank_unknown in H. discriminate H. }
  assert (Hcase : forall s,
            (latest_datetime CYPRUS_TZ s = None
             <-> fromisoformat (strip_marker s) = None
                 \/ exists dt off, fromisoformat (strip_marker s) = Some dt
                                   /\ tzoff dt = Some off)).
  { intros s. unfold latest_datetime, localize.
    destruct (fromisoformat (strip_marker s)) as [dt|]; [|tauto].
    destruct (tzoff dt) as [off|] eqn:Eo.
    - split; [intros _; right; eauto|reflexivity].
    - split; [discriminate|].
      intros [H|(dt' & off & [= <-] & H)]; congruence. }
  destruct timestamp_str as [s|].
  - destruct (latest_datetime CYPRUS_TZ s) as [ts|] eqn:E.
    + rewrite (format_timestamp_relative CYPRUS_TZ clock s ts E). split.
      * split; [intros H; now apply Hrel in H|].
        intros [H|(s' & [= <-] & H)]; [discriminate|].
        apply Hcase in H. congruence.
      * intros _. exists (bucket_of (clock - key ts)).
        split; [apply bucket_rank_relative_time|].
        unfold bucket_of.
        repeat match goal with |- context [if ?b then _ else _] => destruct b end;
          lia.
    + rewrite (format_timestamp_unknown CYPRUS_TZ clock s E). split.
      * split; [|reflexivity]. intros _. right. exists s.
        split; [reflexivity|now apply Hcase].
      * intros H. congruence.
  - split; [split; [now left|reflexivity]|]. intros H. now contradiction H.
Qed.

(** X15.  A text that already carries a real offset (one that survives
    the marker stripping) is shown as Unknown, yet its staleness is
    decided from the instant that offset denotes. *)
Theorem offset_text_unknown_yet_dated (clock : Z) (s : string) (dt : datetime)
    (off hours : Z) :
  endswith s "+00:00" = false ->
  endswith s "+00" = false ->
  fromisoformat s = Some dt ->
  tzoff dt = Some off ->
  format_timestamp CYPRUS_TZ clock (Some s) = "Unknown"
  /\ is_data_stale CYPRUS_TZ clock (Some s) hours
     = (timedelta_hours hours <? clock - (wall dt - off)).
Proof.
  intros H1 H2 Hp Ho. split.
  - apply format_timestamp_unknown. unfold latest_datetime, strip_marker.
    rewrite H1, H2, Hp. unfold localize. now rewrite Ho.
  - rewrite (is_data_stale_parsed clock s dt hours).
    + unfold offset_or_utc. now rewrite Ho.
    + unfold store_text. now rewrite H2.
Qed.

(** X16.  For a text with a zero-offset marker in a zone at or east of
    UTC: a card that is flagged stale (for a threshold of at least one
    hour) never reads Just now or in minutes; its relative time is in
    the hours or days bucket. *)
Theorem stale_card_reads_hours_or_days (clock : Z) (s marker : string)
    (w hours : Z) :
  fromisoformat s = Some (mkdt w None) ->
  (10 < String.length s)%nat ->
  occursb "+" s = false ->
  marker = "+00:00" \/ marker = "+00" ->
  0 <= offset_at_wall CYPRUS_TZ w ->
  1 <= hours ->
  is_data_stale CYPRUS_TZ clock (Some (s ++ marker)) hours = true ->
  exists rank,
    bucket_rank (format_timestamp CYPRUS_TZ clock (Some (s ++ marker)))
      = Some rank
    /\ (2 <= rank)%nat.
Proof.
  intros Hs Hlen Hplus Hm Hoff Hh Hstale.
  assert (Htext : store_text (s ++ marker) = s ++ "+00:00").
  { destruct Hm as [-> | ->];
      [apply store_text_long | now apply store_text_short]. }
  assert (Hstrip : strip_marker (s ++ marker) = s).
  { destruct Hm as [-> | ->];
      [now apply strip_marker_long | now apply strip_marker_short]. }
  rewrite (is_data_stale_parsed clock (s ++ marker) (mkdt w (Some 0)) hours)
    in Hstale by (rewrite Htext; now apply fromisoformat_marked).
  apply Z.ltb_lt in Hstale. cbn in Hstale.
  rewrite (format_timestamp_relative CYPRUS_TZ clock (s ++ marker)
             (mkdt w (Some (offset_at_wall CYPRUS_TZ w))))
    by (unfold latest_datetime; now rewrite Hstrip, Hs).
  rewrite bucket_rank_relative_time. eexists. split; [reflexivity|].
  cbn [key wall tzoff]. unfold bucket_of, timedelta_hours, US_PER_SECOND in *.
  repeat match goal with
  | |- context [?a <? ?b] => destruct (Z.ltb_spec a b); try lia
  end.
Qed.

(** X17.  Staleness only grows: a reading that is stale stays stale at
    every later clock reading, and a reading that is stale for some
    threshold is stale for every smaller one. *)
Theorem is_data_stale_monotone (clock1 clock2 hours1 hours2 : Z)
    (timestamp_str : option string) :
  clock1 <= clock2 -> hours2 <= hours1 ->
  is_data_stale CYPRUS_TZ clock1 timestamp_str hours1 = true ->
  is_data_stale CYPRUS_TZ clock2 timestamp_str hours2 = true.
Proof.
  intros Hc Hh. destruct timestamp_str as [s|]; [|auto].
  destruct (fromisoformat (store_text s)) as [t|] eqn:E.
  - rewrite !(is_data_stale_parsed _ s t _ E). rewrite !Z.ltb_lt.
    unfold timedelta_hours, US_PER_SECOND. lia.
  - intros _. now apply is_data_stale_unparsed.
Qed.

End Cards.

Lemma offset_text_unknown_yet_dated_witness :
  format_timestamp Sample.EET Sample.noon (Some "2024-01-01T11:00:00+02:00")
    = "Unknown"
  /\ is_data_stale Sample.EET Sample.noon (Some "2024-01-01T11:00:00+02:00") 4
     = false.
Proof.
  destruct (offset_text_unknown_yet_dated Sample.EET Sample.noon
              "2024-01-01T11:00:00+02:00"
              (mkdt 63839790000000000 (Some (timedelta_hours 2)))
              (timedelta_hours 2) 4) as [H1 H2];
    try reflexivity.
  split; [exact H1|]. rewrite H2. reflexivity.
Defined.

Lemma stale_card_reads_hours_or_days_witness :
  exists rank,
    bucket_rank (format_timestamp Sample.EET Sample.noon
                   (Some "2024-01-01T05:00:00+00")) = Some rank
    /\ (2 <= rank)%nat.
Proof.
  apply (stale_card_reads_hours_or_days Sample.EET Sample.noon
           "2024-01-01T05:00:00" "+00" 63839768400000000 4).
  - reflexivity.
  - cbn. lia.
  - reflexivity.
  - right. reflexivity.
  - vm_compute. discriminate.
  - lia.
  - reflexivity.
Defined.

Lemma is_data_stale_monotone_witness :
  is_data_stale Sample.EET (Sample.noon + timedelta_hours 1)
    (Some "2024-01-01T05:00:00+00") 3 = true.
Proof.
  apply (is_data_stale_monotone Sample.EET Sample.noon
           (Sample.noon + timedelta_hours 1) 4 3
           (Some "2024-01-01T05:00:00+00")).
  - vm_compute. discriminate.
  - lia.
  - reflexivity.
Defined.

Lemma format_timestamp_unknown_iff_witness :
  exists rank,
    bucket_rank (format_timestamp Sample.EET Sample.noon
                   (Some "2024-01-01T11:59:30+00")) = Some rank
    /\ (rank <= 3)%nat.
Proof.
  apply (format_timestamp_unknown_iff Sample.EET Sample.noon
           (Some "2024-01-01T11:59:30+00")).
  vm_compute. discriminate.
Defined.

(** *** Latest readings *)

Section Latest.

Variable value : Type.
Variable CYPRUS_TZ : tzinfo.
Variable fmt1 : value -> string.

Lemma organize_lists (clock : Z) (rows : list (latest_reading value)) :
  organize value CYPRUS_TZ fmt1 clock rows
  = (flat_map (fun r => match l_temperature r with
                        | Some v => [card_of value CYPRUS_TZ fmt1 clock r Celsius v]
                        | None => []
                        end) rows,
     flat_map (fun r => match l_humidity r with
                        | Some v => [card_of value CYPRUS_TZ fmt1 clock r Percent v]
                        | None => []
                        end) rows).
Proof.
  induction rows as [|r rows IH]; cbn [organize flat_map]; [reflexivity|].
  now rewrite IH.
Qed.

(** X18.  [fetch_latest_sensor_data] never raises and never leaves the
    cards half updated: without a store they are the demo cards, when
    the query fails they are the previous cards untouched, and when it
    answers both lists are rebuilt from the response, the temperature
    cards being the rows that carry a temperature, in order, and
    likewise for humidity.  Every card of a row without a timestamp
    reads Unknown and is flagged stale. *)
Theorem fetch_latest_all_or_nothing (self : dashboard value)
    (response : option (list (latest_reading value))) (clock : Z)
    (data : sensor_data) :
  let r := fetch_latest_sensor_data value CYPRUS_TZ fmt1 self response clock data in
  fst r = Eff.Returned tt
  /\ match supabase self, response with
     | None, _ => snd r = demo_sensor_data
     | Some _, None => snd r = data
     | Some _, Some rows =>
         snd r
         = mksensors
             (flat_map (fun r => match l_temperature r with
                                 | Some v => [card_of value CYPRUS_TZ fmt1 clock r Celsius v]
                                 | None => []
                                 end) rows)
             (flat_map (fun r => match l_humidity r with
                                 | Some v => [card_of value CYPRUS_TZ fmt1 clock r Percent v]
                                 | None => []
                                 end) rows)
     end
  /\ (forall row u v,
        l_timestamp row = None \/ l_timestamp row = Some "" ->
        sensor_timestamp (card_of value CYPRUS_TZ fmt1 clock row u v) = "Unknown"
        /\ sensor_is_stale (card_of value CYPRUS_TZ fmt1 clock row u v) = true).
Proof.
  cbv zeta. unfold fetch_latest_sensor_data.
  split; [|split].
  - destruct (supabase self); [|reflexivity].
    unfold Eff.try_except, Eff.bind, Eff.call, Eff.put, Eff.ret, Eff.raise.
    destruct response as [rows|]; cbn; [|reflexivity].
    now destruct (organize value CYPRUS_TZ fmt1 clock rows).
  - destruct (supabase self); [|reflexivity].
    unfold Eff.try_except, Eff.bind, Eff.call, Eff.put, Eff.ret, Eff.raise.
    destruct response as [rows|]; cbn; [|reflexivity].
    now rewrite organize_lists.
  - intros row u v [H|H]; unfold card_of; rewrite H; split; reflexivity.
Qed.

(** A null device name stays [None] on the card; the default Unknown
    is for a row without the key. *)
Lemma card_of_names (clock : Z) (row : latest_reading value)
    (u : sensor_unit) (v : value) :
  sensor_name (card_of value CYPRUS_TZ fmt1 clock row u v)
  = match l_device_name row with
    | None => Some "Unknown"
    | Some n => n
    end.
Proof. unfold card_of. cbn. now destruct (l_device_name row). Qed.

End Latest.

(** *** Device statistics, again *)

Section Idempotence.

Variable value : Type.
Variable CYPRUS_TZ : tzinfo.

(** X19.  Refreshing the device statistics twice against the same
    store answers and clock leaves exactly the state of refreshing
    once. *)
Theorem fetch_device_stats_idempotent (clock : Z) (self : dashboard value) :
  snd (fetch_device_stats value CYPRUS_TZ clock
         (snd (fetch_device_stats value CYPRUS_TZ clock self)))
  = snd (fetch_device_stats value CYPRUS_TZ clock self).
Proof.
  unfold fetch_device_stats, Eff.bind, Eff.get, Eff.try_except, Eff.call,
    Eff.modify, Eff.ret, Eff.raise.
  destruct (supabase self) as [c|] eqn:Hc; cbn.
  - destruct (active_devices c) as [devices|] eqn:Ed; cbn.
    + destruct (execute value c _) as [readings|] eqn:Er; cbn;
        rewrite Hc; cbn; rewrite Ed; cbn; rewrite Er; cbn; reflexivity.
    + rewrite Hc. cbn. rewrite Ed. reflexivity.
  - rewrite Hc. reflexivity.
Qed.

End Idempotence.

(** *** Windows of the historical fetch *)

Section Windows.

Variable value : Type.
Variable value_of_int : Z -> value.
Variable CYPRUS_TZ : tzinfo.

(** X20.  A window whose end lies before its start is no error: when
    the store answers, the fetch returns two empty series, and the
    temperature tab then shows its loading label instead of a graph. *)
Theorem reversed_window_is_empty (c : client value) (since until : datetime)
    (self : dashboard value) :
  readings_unreachable c = false ->
  key until < key since ->
  fetch_between value c since until = Some (mkhistory [] [])
  /\ temperature_panel value self (fetch_between value c since until) = None.
Proof.
  intros Hup Hrev.
  assert (E : fetch_between value c since until = Some (mkhistory [] [])).
  { rewrite (fetch_between_reachable value c since until Hup).
    replace (filter (in_window since until) (sensor_readings c))
      with (@nil (stored value)); [reflexivity|].
    symmetry. apply filter_nil_forall. intros r _. unfold in_window.
    destruct (Z.leb_spec (key since) (held_instant r)); [|reflexivity].
    destruct (Z.leb_spec (held_instant r) (key until)); [lia|reflexivity]. }
  split; [exact E|]. now rewrite E.
Qed.

(** X21.  The historical fetch returns the empty dict exactly when a
    store is configured and the window cannot be resolved, or the store
    cannot be reached, or a row of the window carries a measurement
    under a timestamp text that [fromisoformat] rejects.  The window can
    only fail to resolve for a custom request with both dates given,
    when a date does not parse as a naive datetime.  Demo mode never
    fails. *)
Theorem fetch_fails_iff (self : dashboard value) (clock : Z) (t : string)
    (sd ed : option string) :
  (fetch_historical_data value value_of_int CYPRUS_TZ self clock t sd ed = None
   <-> exists c, supabase self = Some c
         /\ (query_window CYPRUS_TZ clock t sd ed = None
             \/ readings_unreachable c = true
             \/ exists since until r,
                  query_window CYPRUS_TZ clock t sd ed = Some (since, until)
                  /\ In r (sensor_readings c)
                  /\ key since <= held_instant r <= key until
                  /\ measured (response_row r)
                  /\ ~ readable (response_row r)))
  /\ (query_window CYPRUS_TZ clock t sd ed = None
      <-> t = "custom"
          /\ exists s e, sd = Some s /\ ed = Some e /\ s <> "" /\ e <> ""
               /\ ((forall ds, fromisoformat s <> Some (mkdt ds None))
                   \/ (forall de, fromisoformat e <> Some (mkdt de None)))).
Proof.
  split.
  - unfold fetch_historical_data. destruct (supabase self) as [c|].
    + destruct (query_window CYPRUS_TZ clock t sd ed) as [[since until]|].
      * destruct (readings_unreachable c) eqn:Hup.
        -- rewrite (fetch_between_unreachable value c since until Hup).
           split; [eauto|reflexivity].
        -- rewrite (fetch_between_reachable value c since until Hup).
           set (rows := order_by (row_key value)
                          (filter (in_window since until) (sensor_readings c))).
           assert (Hmem : forall r, In r rows
                     <-> In r (sensor_readings c)
                         /\ key since <= held_instant r <= key until).
           { intros r. rewrite <- in_window_iff, <- filter_In. split.
             - apply (Permutation_in _ (order_by_perm _ _)).
             - apply (Permutation_in _ (Permutation_sym (order_by_perm _ _))). }
           destruct (group_rows value (map response_row rows))
             as [[td hd]|] eqn:Eg.
           ++ split; [discriminate|].
              intros (c' & [= <-] & [H|[H|(s1 & u1 & r & [= <- <-] & Hin & Hb & Hm & Hn)]]);
                try discriminate H; try congruence.
              assert (Hnone : group_rows value (map response_row rows) = None).
              { apply group_rows_raises. exists (response_row r).
                split; [|auto]. apply in_map, Hmem. auto. }
              congruence.
           ++ split; [|reflexivity]. intros _. exists c. split; [reflexivity|].
              right; right.
              apply group_rows_raises in Eg. destruct Eg as (r0 & Hr0 & Hm & Hn).
              apply in_map_iff in Hr0. destruct Hr0 as (r & <- & Hr).
              apply Hmem in Hr. destruct Hr as [Hin Hb].
              exists since, until, r. auto.
      * split; [eauto|reflexivity].
    + split; [discriminate|]. intros (c & H & _). discriminate H.
  - unfold query_window.
    destruct (String.eqb t "12h") eqn:E1.
    { apply String.eqb_eq in E1. subst. split; [discriminate|].
      intros [H _]. discriminate H. }
    destruct (String.eqb t "24h") eqn:E2.
    { apply String.eqb_eq in E2. subst. split; [discriminate|].
      intros [H _]. discriminate H. }
    destruct (String.eqb t "7d") eqn:E3.
    { apply String.eqb_eq in E3. subst. split; [discriminate|].
      intros [H _]. discriminate H. }
    destruct (String.eqb t "30d") eqn:E4.
    { apply String.eqb_eq in E4. subst. split; [discriminate|].
      intros [H _]. discriminate H. }
    destruct (String.eqb_spec t "custom") as [->|Hn]; cbn [andb].
    2:{ split; [discriminate|]. intros [H _]. contradiction. }
    destruct sd as [s|]; cbn [truthy andb].
    2:{ split; [discriminate|]. intros (_ & s & e & H & _). discriminate H. }
    destruct (String.eqb_spec s "") as [->|Hs]; cbn [negb andb].
    { split; [discriminate|].
      intros (_ & s & e & [= <-] & _ & Hs & _). congruence. }
    destruct ed as [e|]; cbn [truthy].
    2:{ split; [discriminate|]. intros (_ & s' & e & _ & H & _). discriminate H. }
    destruct (String.eqb_spec e "") as [->|He]; cbn [negb].
    { split; [discriminate|].
      intros (_ & s' & e & _ & [= <-] & _ & He & _). congruence. }
    unfold localize.
    destruct (fromisoformat s) as [[ws [os|]]|] eqn:Ps; cbn [tzoff].
    + split; [|reflexivity]. intros _. split; [reflexivity|].
      exists s, e. repeat split; auto. left. intros ds. rewrite Ps. discriminate.
    + destruct (fromisoformat e) as [[we [oe|]]|] eqn:Pe; cbn [tzoff].
      * split; [|reflexivity]. intros _. split; [reflexivity|].
        exists s, e. repeat split; auto. right. intros de. rewrite Pe.
        discriminate.
      * split; [discriminate|].
        intros (_ & s' & e' & [= <-] & [= <-] & _ & _ & [H|H]).
        -- exfalso. apply (H ws). exact Ps.
        -- exfalso. apply (H we). exact Pe.
      * split; [|reflexivity]. intros _. split; [reflexivity|].
        exists s, e. repeat split; auto. right. intros de. rewrite Pe.
        discriminate.
    + split; [|reflexivity]. intros _. split; [reflexivity|].
      exists s, e. repeat split; auto. left. intros ds. rewrite Ps. discriminate.
Qed.

(** X22.  A custom request whose two dates are plain [YYYY-MM-DD] texts
    resolves, whatever the clock, to the window from local midnight at
    the start of the first date to local midnight at the start of the
    second: readings later on the end date are past [until]. *)
Theorem custom_window_is_midnight_anchored (clock : Z) (sd ed : string)
    (ds de : datetime) :
  String.length sd = 10%nat -> String.length ed = 10%nat ->
  fromisoformat sd = Some ds -> fromisoformat ed = Some de ->
  query_window CYPRUS_TZ clock "custom" (Some sd) (Some ed)
    = Some (mkdt (wall ds) (Some (offset_at_wall CYPRUS_TZ (wall ds))),
            mkdt (wall de) (Some (offset_at_wall CYPRUS_TZ (wall de))))
  /\ wall ds mod US_PER_DAY = 0
  /\ wall de mod US_PER_DAY = 0.
Proof.
  intros Ls Le Ps Pe.
  assert (Hdate : forall s d, String.length s = 10%nat ->
            fromisoformat s = Some d ->
            tzoff d = None /\ wall d mod US_PER_DAY = 0 /\ s <> "").
  { intros s d L P.
    do 10 (destruct s as [|? s]; [discriminate L|]).
    destruct s; [|discriminate L]. unfold fromisoformat in P.
    destruct (parse_date _ _ _ _ _ _ _ _ _ _) as [ord|]; [|discriminate].
    inversion P; subst. cbn. split; [reflexivity|].
    split; [apply Z_mod_mult|discriminate]. }
  destruct (Hdate sd ds Ls Ps) as (Ts & Ms & Ns).
  destruct (Hdate ed de Le Pe) as (Te & Me & Ne).
  split; [|auto].
  unfold query_window. cbn [String.eqb Ascii.eqb Bool.eqb andb]. cbn [truthy].
  apply String.eqb_neq in Ns, Ne. rewrite Ns, Ne. cbn [negb andb].
  rewrite Ps, Pe. unfold localize. now rewrite Ts, Te.
Qed.

End Windows.

Lemma reversed_window_is_empty_witness :
  fetch_between Z Sample.store (now Sample.EET Sample.noon)
    (sub_td (now Sample.EET Sample.noon) (timedelta_hours 1))
  = Some (mkhistory [] []).
Proof.
  apply (reversed_window_is_empty Z Sample.store (now Sample.EET Sample.noon)
           (sub_td (now Sample.EET Sample.noon) (timedelta_hours 1))
           Sample.connected).
  - reflexivity.
  - vm_compute. reflexivity.
Defined.

Lemma custom_window_is_midnight_anchored_witness :
  query_window Sample.EET Sample.noon "custom"
    (Some "2024-01-01") (Some "2024-01-02")
  = Some (mkdt 63839750400000000 (Some (timedelta_hours 2)),
          mkdt 63839836800000000 (Some (timedelta_hours 2))).
Proof.
  apply (custom_window_is_midnight_anchored Sample.EET Sample.noon
           "2024-01-01" "2024-01-02"
           (mkdt 63839750400000000 None) (mkdt 63839836800000000 None));
    reflexivity.
Defined.

(** *** The numbers a relative time shows *)

Section RelativeNumbers.

Variable CYPRUS_TZ : tzinfo.

(** X23.  The number in a relative time is never zero and never spills
    into the next unit: minutes run from 1 to 59, hours in the past from
    1 to 23, days from 1; hours in the future start at 1 and are not
    capped. *)
Theorem format_timestamp_number_ranges (clock : Z) (s : string) (ts : datetime) :
  latest_datetime CYPRUS_TZ s = Some ts ->
  let text := format_timestamp CYPRUS_TZ clock (Some s) in
  text = "Just now"
  \/ (exists n, 1 <= n <= 59
        /\ (text = str_int n ++ " min ago" \/ text = str_int n ++ " min from now"))
  \/ (exists n, 1 <= n <= 23 /\ text = str_int n ++ " hr ago")
  \/ (exists n, 1 <= n /\ text = str_int n ++ " days ago")
  \/ (exists n, 1 <= n /\ text = str_int n ++ " hr from now").
Proof.
  intros H. cbv zeta. rewrite (format_timestamp_relative CYPRUS_TZ clock s ts H).
  set (d := clock - key ts). unfold relative_time, US_PER_SECOND.
  destruct (Z.ltb_spec d 0) as [Hneg|Hpos].
  - destruct (Z.ltb_spec (Z.abs d) (60 * 1000000)); [now left|].
    destruct (Z.ltb_spec (Z.abs d) (3600 * 1000000)).
    + right; left. exists (Z.abs d / (60 * 1000000)). split; [|now right].
      split; [apply Z.div_le_lower_bound; lia|].
      assert (Z.abs d / (60 * 1000000) < 60)
        by (apply Z.div_lt_upper_bound; lia). lia.
    + do 4 right. exists (Z.abs d / (3600 * 1000000)). split; [|reflexivity].
      apply Z.div_le_lower_bound; lia.
  - destruct (Z.ltb_spec d (60 * 1000000)); [now left|].
    destruct (Z.ltb_spec d (3600 * 1000000)).
    + right; left. exists (d / (60 * 1000000)). split; [|now left].
      split; [apply Z.div_le_lower_bound; lia|].
      assert (d / (60 * 1000000) < 60) by (apply Z.div_lt_upper_bound; lia).
      lia.
    + destruct (Z.ltb_spec d (86400 * 1000000)).
      * right; right; left. exists (d / (3600 * 1000000)). split; [|reflexivity].
        split; [apply Z.div_le_lower_bound; lia|].
        assert (d / (3600 * 1000000) < 24) by (apply Z.div_lt_upper_bound; lia).
        lia.
      * right; right; right; left. exists (d / (86400 * 1000000)).
        split; [|reflexivity]. apply Z.div_le_lower_bound; lia.
Qed.

End RelativeNumbers.

Lemma format_timestamp_number_ranges_witness :
  format_timestamp Sample.EET Sample.noon (Some "2024-01-01T11:00:01+00")
  = "59 min ago".
Proof.
  pose proof (format_timestamp_number_ranges Sample.EET Sample.noon
                "2024-01-01T11:00:01+00"
                (mkdt 63839790001000000 (Some (timedelta_hours 2))) eq_refl)
    as H.
  cbv zeta in H. clear H. reflexivity.
Defined.

Lemma summary_chart_placeholder_and_failure_witness :
  create_sensor_summary_chart Z (fun z => z) SampleUI.tenths (mksensors [] [])
  = Some NoSensorData.
Proof.
  apply (summary_chart_placeholder_and_failure Z (fun z => z) SampleUI.tenths
           (mksensors [] [])).
  split; reflexivity.
Defined.


Lemma fetch_fails_iff_witness :
  fetch_historical_data Z (fun z => z) Sample.EET
    (mkdash (Some Sample.trimmed) (mkstats 0 0) false "24h" None None)
    Sample.noon "24h" None None = None.
Proof.
  apply (fetch_fails_iff Z (fun z => z) Sample.EET
           (mkdash (Some Sample.trimmed) (mkstats 0 0) false "24h" None None)
           Sample.noon "24h" None None).
  exists Sample.trimmed. split; [reflexivity|]. right; right.
  exists (sub_td (now Sample.EET Sample.noon) (timedelta_hours 24)),
         (now Sample.EET Sample.noon),
         (mkstored 63839782800123450
            (mkreading "C" "2024-01-01T09:00:00.12345+00:00" (Some 20) None)).
  split; [reflexivity|]. split; [now left|].
  split; [vm_compute; split; discriminate|].
  split; [left; discriminate|].
  intros H. apply H. reflexivity.
Defined.

Lemma fetch_latest_all_or_nothing_witness :
  snd (fetch_latest_sensor_data Z Sample.EET Sample.show Sample.connected None
         Sample.noon SampleUI.cards) = SampleUI.cards.
Proof.
  apply (fetch_latest_all_or_nothing Z Sample.EET Sample.show Sample.connected
           None Sample.noon SampleUI.cards).
Defined.
